(** * mtwp: multi-provider temperature aggregation

    A shallow embedding of the aggregation server (server.js and the two
    later server revisions) and of the report assembly of the front end
    (app.js and its on-demand revision), with the properties of the
    specification stated and settled against those definitions.

    Conventions of the embedding.
    - A JavaScript Number that carries a temperature is the exact rational
      ([Q]) of its decimal.  The spread row of a card is computed on
      binary64 Numbers ([Binary64], [Spread64]), because its class depends
      on how the difference is rounded; elsewhere binary rounding is
      outside the model.  A field that is [null], [undefined] or NaN on the
      wire is [None].
    - Integers (day offsets, epoch milliseconds) are [Z].
    - Asynchronous code is a tree of effects ([Prog]) with one node for each
      [await]; a sequential and an interleaving interpreter give it meaning.
    - The process time zone is UTC. *)

From Stdlib Require Import ZArith QArith Qround Qabs Qminmax Lqa Lia.
From Stdlib Require Import SpecFloat.
From Stdlib Require Import List String Ascii Permutation.
From stdpp Require Import gmap strings list.
Import ListNotations.

Local Open Scope Z_scope.

(* ================================================================== *)
(** * Unit converter *)
(* ================================================================== *)

Module Units.

(** [Math.round]: the nearest integer, halves towards plus infinity. *)
Definition MathRound (x : Q) : Z := Qfloor (x + (1 # 2))%Q.

(** [Math.round(x * 10) / 10], the rounding every adapter applies. *)
Definition round10 (x : Q) : Q := (inject_Z (MathRound (x * 10)) / 10)%Q.

(** The arithmetic of [cToF] and [fToC] on a present value. *)
Definition cToF_num (c : Q) : Q := round10 (c * 9 / 5 + 32)%Q.
Definition fToC_num (f : Q) : Q := round10 ((f - 32) * 5 / 9)%Q.

(** [function cToF(c) { return c != null ? Math.round((c * 9 / 5 + 32) * 10) / 10 : null; }] *)
Definition cToF (c : option Q) : option Q :=
  match c with
  | Some c => Some (inject_Z (MathRound ((c * 9 / 5 + 32) * 10)) / 10)%Q
  | None => None
  end.

(** [function fToC(f) { return f != null ? Math.round(((f - 32) * 5 / 9) * 10) / 10 : null; }] *)
Definition fToC (f : option Q) : option Q :=
  match f with
  | Some f => Some (inject_Z (MathRound (((f - 32) * 5 / 9) * 10)) / 10)%Q
  | None => None
  end.

End Units.

(* ================================================================== *)
(** * The parts of the JavaScript runtime the program relies on *)
(* ================================================================== *)

Module Js.

Local Open Scope string_scope.
Local Open Scope Z_scope.

(** ** Characters and strings (ASCII; other bytes are left alone) *)

Definition isUpper (c : ascii) : bool :=
  let n := nat_of_ascii c in (65 <=? n)%nat && (n <=? 90)%nat.

Definition lowerChar (c : ascii) : ascii :=
  if isUpper c then ascii_of_nat (nat_of_ascii c + 32) else c.

(** [String.prototype.toLowerCase] *)
Fixpoint toLowerCase (s : string) : string :=
  match s with
  | EmptyString => EmptyString
  | String c s' => String (lowerChar c) (toLowerCase s')
  end.

Definition isDigit (c : ascii) : bool :=
  let n := nat_of_ascii c in (48 <=? n)%nat && (n <=? 57)%nat.

Definition digitVal (c : ascii) : Z := Z.of_nat (nat_of_ascii c) - 48.

(** [\s] restricted to ASCII: tab, line feed, vertical tab, form feed,
    carriage return, space. *)
Definition isSpace (c : ascii) : bool :=
  let n := nat_of_ascii c in ((9 <=? n)%nat && (n <=? 13)%nat) || (n =? 32)%nat.

Definition hexVal (c : ascii) : option Z :=
  let n := nat_of_ascii c in
  if isDigit c then Some (Z.of_nat n - 48)
  else if (97 <=? n)%nat && (n <=? 102)%nat then Some (Z.of_nat n - 87)
  else if (65 <=? n)%nat && (n <=? 70)%nat then Some (Z.of_nat n - 55)
  else None.

Fixpoint dropSpaces (s : string) : string :=
  match s with
  | String c s' => if isSpace c then dropSpaces s' else s
  | EmptyString => EmptyString
  end.

(** The longest prefix of digits of radix 10, read as a number; [None] when
    there is no digit. *)
Fixpoint decPrefix (acc : option Z) (s : string) : option Z :=
  match s with
  | String c s' =>
      if isDigit c
      then decPrefix (Some (10 * default 0 acc + digitVal c)) s'
      else acc
  | EmptyString => acc
  end.

Fixpoint hexPrefix (acc : option Z) (s : string) : option Z :=
  match s with
  | String c s' =>
      match hexVal c with
      | Some v => hexPrefix (Some (16 * default 0 acc + v)) s'
      | None => acc
      end
  | EmptyString => acc
  end.

Definition unsignedInt (s : string) : option Z :=
  match s with
  | String "0" (String "x" s') => hexPrefix None s'
  | String "0" (String "X" s') => hexPrefix None s'
  | _ => decPrefix None s
  end.

(** [parseInt(string)] without a radix; [None] is NaN. *)
Definition parseInt (s : string) : option Z :=
  match dropSpaces s with
  | String "-" s' => Z.opp <$> unsignedInt s'
  | String "+" s' => unsignedInt s'
  | s' => unsignedInt s'
  end.

(** The digits of [s], all of them, as a number and their count. *)
Fixpoint allDigits (acc : Z) (n : nat) (s : string) : option (Z * nat) :=
  match s with
  | String c s' => if isDigit c then allDigits (10 * acc + digitVal c) (S n) s' else None
  | EmptyString => Some (acc, n)
  end.

Fixpoint splitDot (s : string) : string * option string :=
  match s with
  | EmptyString => (EmptyString, None)
  | String "." s' => (EmptyString, Some s')
  | String c s' => let '(a, b) := splitDot s' in (String c a, b)
  end.

Definition unsignedDecimal (s : string) : option Q :=
  let '(ip, fp) := splitDot s in
  match ip, allDigits 0 0 ip with
  | EmptyString, _ => None
  | _, None => None
  | _, Some (i, _) =>
      match fp with
      | None => Some (inject_Z i)
      | Some EmptyString => None
      | Some f =>
          match allDigits 0 0 f with
          | Some (fv, k) => Some (inject_Z i + inject_Z fv / inject_Z (10 ^ Z.of_nat k))%Q
          | None => None
          end
      end
  end.

(** [parseFloat] on the texts the patterns of the program capture, which
    have the shape [-?\d+(\.\d+)?]; [None] is NaN. *)
Definition parseFloat (s : string) : option Q :=
  match s with
  | String "-" s' => Qopp <$> unsignedDecimal s'
  | _ => unsignedDecimal s
  end.

(** A template literal renders [undefined] as the word. *)
Definition render (s : option string) : string := default "undefined" s.

(** [x || null] on an optional string: the empty string is falsy. *)
Definition orNull (s : option string) : option string :=
  match s with
  | Some EmptyString => None
  | _ => s
  end.

(** [arr[i]] for a numeric [i]: [undefined] outside the array and for NaN. *)
Definition at_index {A : Type} (l : list A) (i : option Z) : option A :=
  match i with
  | Some z => if z <? 0 then None else l !! Z.to_nat z
  | None => None
  end.

(** ** Regular expressions

    The fragment the program's patterns are written in.  Only capture
    group 1 is ever read, so [Grp] records that group. *)

Inductive Re : Type :=
| Lit (c : ascii)
| Cls (p : ascii -> bool)
| Cat (r1 r2 : Re)
| Opt (r : Re)
| Many (p : ascii -> bool)
| Grp (r : Re).

Definition Plus (p : ascii -> bool) : Re := Cat (Cls p) (Many p).

Fixpoint Str (s : string) : Re :=
  match s with
  | EmptyString => Many (fun _ => false)
  | String c EmptyString => Lit c
  | String c s' => Cat (Lit c) (Str s')
  end.

Definition sameChar (ci : bool) (a b : ascii) : bool :=
  if ci then bool_decide (lowerChar a = lowerChar b) else bool_decide (a = b).

(** Backtracking match of [r] at the start of [s]; [k] continues on the
    rest.  [ci] is the [/i] flag.  The result is the text of group 1 of the
    first successful alternative. *)
Fixpoint matchAt (ci : bool) (r : Re) (s : string) (cap : option string)
    (k : string -> option string -> option string) {struct r} : option string :=
  match r with
  | Lit c =>
      match s with
      | String x s' => if sameChar ci c x then k s' cap else None
      | EmptyString => None
      end
  | Cls p =>
      match s with
      | String x s' => if p x then k s' cap else None
      | EmptyString => None
      end
  | Cat r1 r2 => matchAt ci r1 s cap (fun s' cap' => matchAt ci r2 s' cap' k)
  | Opt r1 =>
      match matchAt ci r1 s cap k with
      | Some c => Some c
      | None => k s cap
      end
  | Many p =>
      (fix many (t : string) : option string :=
         match t with
         | String x t' =>
             if p x
             then match many t' with Some c => Some c | None => k t cap end
             else k t cap
         | EmptyString => k t cap
         end) s
  | Grp r1 =>
      matchAt ci r1 s cap
        (fun s' _ => k s' (Some (substring 0 (String.length s - String.length s') s)))
  end.

Record RegExp := { ignoreCase : bool; pattern : Re }.

(** [text.match(re)] for a pattern without the [g] flag: the leftmost
    match, reduced to its group 1. *)
Fixpoint matchGroup1 (re : RegExp) (text : string) : option string :=
  match matchAt (ignoreCase re) (pattern re) text None (fun _ cap => cap) with
  | Some c => Some c
  | None =>
      match text with
      | String _ t' => matchGroup1 re t'
      | EmptyString => None
      end
  end.

(** ** Dates (UTC) *)

Definition msPerDay : Z := 86400000.
Definition maxTimeValue : Z := 8640000000000000.

(** A [Date] object holds a time value or is an Invalid Date. *)
Definition Date := option Z.

(** [TimeClip] *)
Definition timeClip (t : Z) : Date :=
  if Z.abs t <=? maxTimeValue then Some t else None.

(** [d.setDate(d.getDate() + k)]: [k] days later, [None] for a NaN [k]. *)
Definition addDays (d : Date) (k : option Z) : Date :=
  match d, k with
  | Some t, Some k => timeClip (t + k * msPerDay)
  | _, _ => None
  end.

(** Civil date of a day number counted from 1970-01-01. *)
Definition civil (day : Z) : Z * Z * Z :=
  let z := day + 719468 in
  let era := z / 146097 in
  let doe := z - era * 146097 in
  let yoe := (doe - doe / 1460 + doe / 36524 - doe / 146096) / 365 in
  let doy := doe - (365 * yoe + yoe / 4 - yoe / 100) in
  let mp := (5 * doy + 2) / 153 in
  let d := doy - (153 * mp + 2) / 5 + 1 in
  let m := if mp <? 10 then mp + 3 else mp - 9 in
  let y := yoe + era * 400 + (if m <=? 2 then 1 else 0) in
  (y, m, d).

Fixpoint digitsOf (fuel : nat) (n : Z) (acc : string) : string :=
  match fuel with
  | O => acc
  | S fuel' =>
      let acc' := String (ascii_of_nat (Z.to_nat (48 + n mod 10))) acc in
      if n / 10 =? 0 then acc' else digitsOf fuel' (n / 10) acc'
  end.

(** Decimal rendering of an integer, as a template literal prints it. *)
Definition showZ (n : Z) : string :=
  let body := digitsOf (S (Z.to_nat (Z.log2 (Z.abs n)))) (Z.abs n) "" in
  if n <? 0 then "-" +:+ body else body.

Fixpoint padLeft (width : nat) (s : string) : string :=
  match width - String.length s with
  | O => s
  | S _ =>
      match width with
      | O => s
      | S w' => "0" +:+ padLeft w' s
      end
  end%nat.

Definition showYear (y : Z) : string :=
  if (0 <=? y) && (y <=? 9999) then padLeft 4 (showZ y)
  else (if y <? 0 then "-" else "+") +:+ padLeft 6 (showZ (Z.abs y)).

(** [d.toISOString().split('T')[0]]; [None] is the RangeError that
    [toISOString] raises on an Invalid Date. *)
Definition isoDate (d : Date) : option string :=
  match d with
  | Some t =>
      let '(y, m, dd) := civil (t / msPerDay) in
      Some (showYear y +:+ "-" +:+ padLeft 2 (showZ m) +:+ "-" +:+ padLeft 2 (showZ dd))
  | None => None
  end.

End Js.

(* ================================================================== *)
(** * Data model *)
(* ================================================================== *)

Module Model.

(** ** Station configuration *)

(** [cfg.unit], [cfg.wuUnit]: ['C'] or ['F']. *)
Inductive Unit : Set := C | F.

Global Instance Unit_eq_dec : EqDecision Unit.
Proof. solve_decision. Defined.

(** An element of [cfg.scrapperUrls]. *)
Record ScrapeTarget := {
  site_id : string;
  site_name : string;
  site_url : string }.

Record NwsGrid := { office : string; grid_x : Z; grid_y : Z }.

(** An entry of [STATIONS].  The three server revisions declare different
    subsets of the scrape fields; a field a revision does not declare is
    [None] ([undefined]).  Coordinates are kept as they are written into
    the query. *)
Record StationConfig := {
  icao : string;
  name : string;
  displayName : string;
  lat : string;
  lon : string;
  timezone : string;
  unit : Unit;
  openMeteoModels : list string;
  modelLabels : gmap string string;
  nwsStation : option string;
  nwsGrid : option NwsGrid;
  iemNetwork : option string;
  metOfficeUrl : option string;
  wuUrl : option string;
  wuUnit : option Unit;
  scrapperUrls : option (list ScrapeTarget) }.

(** ** Sources *)

(** [{ temp_c, temp_f }], the value of a [dailyMax] entry. *)
Record TempPair := { pair_c : option Q; pair_f : option Q }.

(** An element of [forecasts]. *)
Record Forecast := {
  fc_name : option string;
  fc_temp_f : option Q;
  fc_temp_c : option Q;
  fc_startTime : option string;
  fc_shortForecast : option string }.

Inductive SourceType : Set := live | recorded | forecast | model | scraped.

Global Instance SourceType_eq_dec : EqDecision SourceType.
Proof. solve_decision. Defined.

(** A source as it is pushed and serialised: one object whose optional
    properties depend on [type]. *)
Record Source := {
  id : string;
  src_name : string;
  type : SourceType;
  temp_c : option Q;
  temp_f : option Q;
  time : option string;
  date : option string;
  forecasts : option (list Forecast);
  days : option (list string);
  dailyMax : option (gmap string TempPair);
  url : option string }.

(** A source with no optional property set. *)
Definition bareSource (i n : string) (t : SourceType) : Source :=
  {| id := i; src_name := n; type := t; temp_c := None; temp_f := None;
     time := None; date := None; forecasts := None; days := None;
     dailyMax := None; url := None |}.

(** ** Provider payloads (parsed JSON, or page text) *)

Record MetarReport := { metar_temp : option Q; reportTime : option string }.

Record NwsObsProps := { temperature_value : option Q; timestamp : option string }.

Record NwsPeriod := {
  isDaytime : bool;
  period_name : option string;
  temperature : option Q;
  startTime : option string;
  shortForecast : option string }.

(** [data.daily]: [time] and one series per [temperature_2m_max_<model>]. *)
Record OmDaily := {
  om_time : option (list string);
  om_series : gmap string (list (option Q)) }.

Record IemEntry := { max_tmpf : option Q; iem_date : option string }.

Record BraveResult := { description : option string; title : option string }.

Inductive Payload : Type :=
| PMetar (d : list MetarReport)
| PNwsObs (properties : option NwsObsProps)
| PNwsForecast (periods : option (list NwsPeriod))
| POpenMeteo (daily : option OmDaily)
| PIem (data : list IemEntry)
| PText (html : string)
| PBrave (results : option (list BraveResult)).

(** ** External requests, by what is interpolated into the URL *)

Inductive Request : Type :=
| ReqMetar (ids : string)
| ReqNwsObs (station : string)
| ReqNwsForecast (g : NwsGrid)
| ReqOpenMeteo (latitude longitude : string) (models : list string) (tz : string)
| ReqIem (station network : string) (at_ms : Z) (tz : string)
| ReqPage (page : string)
| ReqBrave (q : string) (count : Z).

(** ** The world a handler runs in *)

(** [CACHE[cacheKey] = { ts, data }] *)
Record CacheEntry := { ts : Z; data : list Source }.

Inductive Event : Type :=
| EvTimer (ms : Z)          (* setTimeout(r, ms) *)
| EvFetch (req : Request).  (* fetch(url, ...) *)

Record World := {
  now : Z;                          (* Date.now() *)
  CACHE : gmap string CacheEntry;   (* const CACHE = {} *)
  log : list Event }.               (* timers set and requests sent, oldest first *)

(** The network: what a request sent at a given time is answered with and
    after how long.  [body = None] is a transport error, a status that is
    not ok, or a body that is not JSON. *)
Record Reply := { latency : Z; body : option Payload }.
Definition Net := Request -> Z -> Reply.

(** How [safeFetch(url, timeoutMs)] settles: the reply if it comes before
    the abort timer fires, a rejection at [timeoutMs] otherwise.  The body
    is taken to arrive with the headers.  In the code the timer is cleared
    once the headers are in, so a body that is slow to arrive can settle
    the call later than [timeoutMs]; such replies are outside the model. *)
Definition settleTime (r : Reply) (timeoutMs : Z) : Z :=
  if latency r <? timeoutMs then Z.max 0 (latency r) else timeoutMs.
Definition settleBody (r : Reply) (timeoutMs : Z) : option Payload :=
  if latency r <? timeoutMs then body r else None.

(** ** Asynchronous code as a tree of effects *)

Inductive Exn : Set := TypeError | RangeError.

Inductive Outcome (R : Type) : Type :=
| Returned (r : R)
| Thrown (e : Exn).
Arguments Returned {R} r.
Arguments Thrown {R} e.

(** One node per effect.  [Sleep], [Fetch] and [FetchAll] are the [await]s;
    the other nodes run without yielding.  [FetchAll] is [Promise.all] over
    tasks of the shape [safeFetch(..).then(..).catch(() => {})]: it hands
    the settlements to its continuation in the order they happened, each
    with the index of its task. *)
Inductive Prog (R : Type) : Type :=
| Ret (r : R)
| Throw (e : Exn)
| DateNow (k : Z -> Prog R)
| CacheGet (key : string) (k : option CacheEntry -> Prog R)
| CacheSet (key : string) (e : CacheEntry) (k : Prog R)
| Sleep (ms : Z) (k : Prog R)
| Fetch (req : Request) (timeoutMs : Z) (k : option Payload -> Prog R)
| FetchAll (reqs : list (Request * Z)) (k : list (nat * option Payload) -> Prog R).
Arguments Ret {R} r.
Arguments Throw {R} e.
Arguments DateNow {R} k.
Arguments CacheGet {R} key k.
Arguments CacheSet {R} key e k.
Arguments Sleep {R} ms k.
Arguments Fetch {R} req timeoutMs k.
Arguments FetchAll {R} reqs k.

Fixpoint bind {A B : Type} (p : Prog A) (f : A -> Prog B) : Prog B :=
  match p with
  | Ret r => f r
  | Throw e => Throw e
  | DateNow k => DateNow (fun t => bind (k t) f)
  | CacheGet key k => CacheGet key (fun e => bind (k e) f)
  | CacheSet key e k => CacheSet key e (bind k f)
  | Sleep ms k => Sleep ms (bind k f)
  | Fetch req t k => Fetch req t (fun b => bind (k b) f)
  | FetchAll reqs k => FetchAll reqs (fun l => bind (k l) f)
  end.

(** [Prog] is a monad; [x ← p; q] reads [const x = await p; q]. *)
Global Instance Prog_ret : MRet Prog := @Ret.
Global Instance Prog_bind : MBind Prog := fun A B f p => bind p f.

(** [await new Promise(r => setTimeout(r, ms))] *)
Definition delay (ms : Z) : Prog () := Sleep ms (Ret ()).
(** [await safeFetch(url, timeoutMs, ..)], a rejection caught as [None]. *)
Definition safeFetch (req : Request) (timeoutMs : Z) : Prog (option Payload) :=
  Fetch req timeoutMs (fun b => Ret b).
(** [Date.now()] and [new Date()] *)
Definition dateNow : Prog Z := DateNow (fun t => Ret t).

(** ** Sequential meaning: one handler running alone *)

Definition tick (dt : Z) (ev : list Event) (w : World) : World :=
  {| now := now w + dt; CACHE := CACHE w; log := log w ++ ev |}.

Definition store (key : string) (e : CacheEntry) (w : World) : World :=
  {| now := now w; CACHE := <[key := e]> (CACHE w); log := log w |}.

(** Settlements ordered by the time they take; equal times keep the order
    in which the requests were sent. *)
Fixpoint insertByTime (x : Z * (nat * option Payload))
    (l : list (Z * (nat * option Payload))) : list (Z * (nat * option Payload)) :=
  match l with
  | [] => [x]
  | y :: l' => if fst x <? fst y then x :: y :: l' else y :: insertByTime x l'
  end.

Definition byTime (l : list (Z * (nat * option Payload))) : list (Z * (nat * option Payload)) :=
  foldr (fun x acc => insertByTime x acc) [] l.

Definition settlements (net : Net) (t0 : Z) (reqs : list (Request * Z))
    : list (Z * (nat * option Payload)) :=
  imap (fun i rq =>
          let r := net (fst rq) t0 in
          (settleTime r (snd rq), (i, settleBody r (snd rq)))) reqs.

Definition lastSettle (l : list (Z * (nat * option Payload))) : Z :=
  foldr (fun x acc => Z.max (fst x) acc) 0 l.

Fixpoint run {R : Type} (net : Net) (p : Prog R) (w : World) : Outcome R * World :=
  match p with
  | Ret r => (Returned r, w)
  | Throw e => (Thrown e, w)
  | DateNow k => run net (k (now w)) w
  | CacheGet key k => run net (k (CACHE w !! key)) w
  | CacheSet key e k => run net k (store key e w)
  | Sleep ms k => run net k (tick ms [EvTimer ms] w)
  | Fetch req t k =>
      let r := net req (now w) in
      run net (k (settleBody r t)) (tick (settleTime r t) [EvFetch req] w)
  | FetchAll reqs k =>
      let s := settlements net (now w) reqs in
      run net (k (snd <$> byTime s)) (tick (lastSettle s) (EvFetch ∘ fst <$> reqs) w)
  end.

End Model.

(* ================================================================== *)
(** * Pieces shared by the server revisions *)
(* ================================================================== *)

Module Server.
Import Units Js Model.
Local Open Scope string_scope.
Local Open Scope Z_scope.

(** ** Looking a key up in an object literal *)

(** The names an object literal inherits from [Object.prototype]. *)
Definition objectPrototypeKeys : list string :=
  [ "constructor"; "__defineGetter__"; "__defineSetter__"; "hasOwnProperty";
    "__lookupGetter__"; "__lookupSetter__"; "isPrototypeOf";
    "propertyIsEnumerable"; "toString"; "valueOf"; "__proto__";
    "toLocaleString" ].

Inductive Lookup (A : Type) : Type :=
| Own (a : A)      (* a property of the literal itself *)
| Inherited        (* a truthy value found on the prototype *)
| Undefined.
Arguments Own {A} a.
Arguments Inherited {A}.
Arguments Undefined {A}.

(** [obj[key]] *)
Definition getProp {A : Type} (obj : gmap string A) (key : string) : Lookup A :=
  match obj !! key with
  | Some a => Own a
  | None => if bool_decide (key ∈ objectPrototypeKeys) then Inherited else Undefined
  end.

(** ** The response of the aggregate route *)

Record Report := {
  city : string;
  station : string;
  report_name : option string;
  report_displayName : string;
  report_unit : Unit;
  sources : list Source;
  fetchedAt : Z }.

Inductive HttpResponse : Type :=
| Status400 (error : string)   (* res.status(400).json({ error }) *)
| Json200 (report : Report).   (* res.json({ ... }) *)

(** ** A task of the fan-out: [safeFetch(url).then(cb).catch(() => {})] *)

Record Task := {
  request : Request;
  timeoutMs : Z;
  onPayload : Payload -> list Source }.  (* what [cb] pushes onto [sources] *)

(** [sources] after [await Promise.all(tasks)]: every callback has pushed
    in the order the requests settled; a rejected request pushes nothing. *)
Definition pushed (tasks : list Task) (settled : list (nat * option Payload)) : list Source :=
  flat_map (fun s =>
              match tasks !! fst s, snd s with
              | Some t, Some p => onPayload t p
              | _, _ => []
              end) settled.

Definition awaitAll (tasks : list Task) : Prog (list Source) :=
  FetchAll ((fun t => (request t, timeoutMs t)) <$> tasks)
           (fun settled => Ret (pushed tasks settled)).

(** Truthiness of a number: zero is falsy. *)
Definition truthyQ (q : Q) : bool := negb (Qeq_bool q 0).

End Server.

(* ================================================================== *)
(** * server.js: seven concurrent adapters, no day offset, no cache *)
(* ================================================================== *)

Module ServerV1.
Import Units Js Model Server.
Local Open Scope string_scope.
Local Open Scope Z_scope.

Definition europeLabels : gmap string string :=
  list_to_map [ ("ecmwf_ifs025", "ECMWF"); ("gfs_seamless", "GFS");
                ("meteofrance_arome_france_hd", "AROME"); ("ukmo_seamless", "UKMO") ].
Definition usLabels : gmap string string :=
  list_to_map [ ("ecmwf_ifs025", "ECMWF"); ("gfs_seamless", "GFS") ].
Definition europeModels : list string :=
  [ "ecmwf_ifs025"; "gfs_seamless"; "meteofrance_arome_france_hd"; "ukmo_seamless" ].
Definition usModels : list string := [ "ecmwf_ifs025"; "gfs_seamless" ].

Definition london : StationConfig :=
  {| icao := "EGLL"; name := "London City Airport"; displayName := "LONDON";
     lat := "51.4775"; lon := "-0.4614"; timezone := "Europe/London"; unit := C;
     openMeteoModels := europeModels; modelLabels := europeLabels;
     nwsStation := None; nwsGrid := None; iemNetwork := None;
     metOfficeUrl := Some "https://www.metoffice.gov.uk/weather/forecast/gcpvj0v07";
     wuUrl := Some "https://www.wunderground.com/forecast/gb/london";
     wuUnit := Some C; scrapperUrls := None |}.

Definition paris : StationConfig :=
  {| icao := "LFPG"; name := "Paris Charles de Gaulle"; displayName := "PARIS";
     lat := "49.0097"; lon := "2.5479"; timezone := "Europe/Paris"; unit := C;
     openMeteoModels := europeModels; modelLabels := europeLabels;
     nwsStation := None; nwsGrid := None; iemNetwork := None;
     metOfficeUrl := None;
     wuUrl := Some "https://www.wunderground.com/forecast/fr/paris";
     wuUnit := Some C; scrapperUrls := None |}.

Definition dallas : StationConfig :=
  {| icao := "KDAL"; name := "Dallas Love Field"; displayName := "DALLAS";
     lat := "32.8471"; lon := "-96.8518"; timezone := "America/Chicago"; unit := F;
     openMeteoModels := usModels; modelLabels := usLabels;
     nwsStation := Some "KDAL";
     nwsGrid := Some {| office := "FWD"; grid_x := 85; grid_y := 106 |};
     iemNetwork := Some "TX_ASOS";
     metOfficeUrl := None;
     wuUrl := Some "https://www.wunderground.com/forecast/us/tx/dallas";
     wuUnit := Some F; scrapperUrls := None |}.

Definition miami : StationConfig :=
  {| icao := "KMIA"; name := "Miami Intl Airport"; displayName := "MIAMI";
     lat := "25.7932"; lon := "-80.2906"; timezone := "America/New_York"; unit := F;
     openMeteoModels := usModels; modelLabels := usLabels;
     nwsStation := Some "KMIA";
     nwsGrid := Some {| office := "MFL"; grid_x := 76; grid_y := 52 |};
     iemNetwork := Some "FL_ASOS";
     metOfficeUrl := None;
     wuUrl := Some "https://www.wunderground.com/forecast/us/fl/miami";
     wuUnit := Some F; scrapperUrls := None |}.

(** [const STATIONS = { london, paris, dallas, miami }] *)
Definition STATIONS : gmap string StationConfig :=
  list_to_map [ ("london", london); ("paris", paris); ("dallas", dallas); ("miami", miami) ].

(** ** Patterns of the page scrapes *)

Definition dquote : ascii := ascii_of_nat 34.
Definition quoted (s : string) : Re := Cat (Lit dquote) (Cat (Str s) (Lit dquote)).
Definition ws : Re := Many isSpace.
(** [(-?\d+(?:\.\d+)?)] *)
Definition number : Re :=
  Grp (Cat (Opt (Lit "-")) (Cat (Plus isDigit) (Opt (Cat (Lit ".") (Plus isDigit))))).
Definition seq (rs : list Re) : Re := foldr Cat (Many (fun _ => false)) rs.
Definition ci (r : Re) : RegExp := {| ignoreCase := true; pattern := r |}.
Definition notBrace (c : ascii) : bool := negb (bool_decide (c = "}"%char)).

(** [/"maxTemperature"\s*:\s*"?(-?\d+(?:\.\d+)?)"?/i] *)
Definition re_maxTemperature : RegExp :=
  ci (seq [quoted "maxTemperature"; ws; Lit ":"; ws; Opt (Lit dquote); number; Opt (Lit dquote)]).
(** [/"temperature"\s*:\s*"?(-?\d+(?:\.\d+)?)"?\s*,\s*"units"\s*:\s*"c"/i] *)
Definition re_temperature_units : RegExp :=
  ci (seq [quoted "temperature"; ws; Lit ":"; ws; Opt (Lit dquote); number; Opt (Lit dquote);
           ws; Lit ","; ws; quoted "units"; ws; Lit ":"; ws; quoted "c"]).
(** [/"temperatureMax"\s*:\s*\[\s*\{\s*"value"\s*:\s*(-?\d+(?:\.\d+)?)/i] *)
Definition re_temperatureMax : RegExp :=
  ci (seq [quoted "temperatureMax"; ws; Lit ":"; ws; Lit "["; ws; Lit "{"; ws;
           quoted "value"; ws; Lit ":"; ws; number]).
(** [/"tempHi"\s*:\s*\{[^}]*"value"\s*:\s*(-?\d+(?:\.\d+)?)/i] *)
Definition re_tempHi : RegExp :=
  ci (seq [quoted "tempHi"; ws; Lit ":"; ws; Lit "{"; Many notBrace;
           quoted "value"; ws; Lit ":"; ws; number]).
(** [/"high"\s*:\s*(-?\d+(?:\.\d+)?)/i] *)
Definition re_high : RegExp :=
  ci (seq [quoted "high"; ws; Lit ":"; ws; number]).

(** [function extractFirstTemp(html, patterns)] *)
Fixpoint extractFirstTemp (html : string) (patterns : list RegExp) : option Q :=
  match patterns with
  | [] => None
  | re :: rest =>
      match matchGroup1 re html with
      | Some m1 =>
          match parseFloat m1 with
          | Some n => Some n
          | None => extractFirstTemp html rest
          end
      | None => extractFirstTemp html rest
      end
  end.

(** ** The [.then] callbacks, as the sources they push *)

(** 1) METAR *)
Definition onMetar (p : Payload) : list Source :=
  match p with
  | PMetar (m :: _) =>
      match metar_temp m with
      | Some t =>
          [ {| id := "metar"; src_name := "METAR Sensor"; type := live;
               temp_c := Some t; temp_f := cToF (Some t);
               time := orNull (reportTime m); date := None; forecasts := None;
               days := None; dailyMax := None; url := None |} ]
      | None => []
      end
  | _ => []
  end.

(** 2) NWS observation *)
Definition onNwsObs (p : Payload) : list Source :=
  match p with
  | PNwsObs (Some props) =>
      match temperature_value props with
      | Some v =>
          [ {| id := "nws_obs"; src_name := "NWS Observation"; type := live;
               temp_c := Some (inject_Z (MathRound (v * 10)) / 10)%Q;
               temp_f := cToF (Some v);
               time := orNull (timestamp props); date := None; forecasts := None;
               days := None; dailyMax := None; url := None |} ]
      | None => []
      end
  | _ => []
  end.

(** 3) NWS forecast: the first three daytime periods *)
Definition forecastOfPeriod (p : NwsPeriod) : Forecast :=
  {| fc_name := period_name p;
     fc_temp_f := temperature p;
     fc_temp_c := fToC (temperature p);
     fc_startTime := startTime p;
     fc_shortForecast := shortForecast p |}.

Definition onNwsForecast (p : Payload) : list Source :=
  match p with
  | PNwsForecast (Some periods) =>
      let dayPeriods := take 3 (List.filter isDaytime periods) in
      [ {| id := "nws_forecast"; src_name := "NWS Forecast"; type := forecast;
           temp_c := None; temp_f := None; time := None; date := None;
           forecasts := Some (forecastOfPeriod <$> dayPeriods);
           days := None; dailyMax := None; url := None |} ]
  | _ => []
  end.

(** 4) Open-Meteo: one source per configured model present in the reply *)
Definition dailyMaxOf (days : list string) (series : list (option Q)) : gmap string TempPair :=
  foldl (fun acc di =>
           let tc := mjoin (series !! fst di) in
           <[snd di := {| pair_c := tc; pair_f := cToF tc |}]> acc)
        ∅ (imap (fun i day => (i, day)) days).

Fixpoint openMeteoSources (cfg : StationConfig) (days : list string)
    (series : gmap string (list (option Q))) (models : list string) : list Source :=
  match models with
  | [] => []
  | m :: rest =>
      match series !! ("temperature_2m_max_" +:+ m) with
      | Some vals =>
          match modelLabels cfg !! m with
          | Some label =>
              {| id := "model_" +:+ toLowerCase label; src_name := label; type := model;
                 temp_c := None; temp_f := None; time := None; date := None;
                 forecasts := None; days := Some days;
                 dailyMax := Some (dailyMaxOf days vals); url := None |}
              :: openMeteoSources cfg days series rest
          | None => []   (* label.toLowerCase() raises; the catch ends the task *)
          end
      | None => openMeteoSources cfg days series rest
      end
  end.

Definition onOpenMeteo (cfg : StationConfig) (p : Payload) : list Source :=
  match p with
  | POpenMeteo (Some daily) =>
      match om_time daily with
      | Some days => openMeteoSources cfg days (om_series daily) (openMeteoModels cfg)
      | None => []
      end
  | _ => []
  end.

(** 5) IEM daily summary *)
Definition onIem (p : Payload) : list Source :=
  match p with
  | PIem (entry :: _) =>
      match max_tmpf entry with
      | Some v =>
          if truthyQ v then
            [ {| id := "iem"; src_name := "IEM Recorded Max"; type := recorded;
                 temp_c := fToC (Some v); temp_f := Some v;
                 time := None; date := iem_date entry; forecasts := None;
                 days := None; dailyMax := None; url := None |} ]
          else []
      | None => []
      end
  | _ => []
  end.

Definition scrapedToday (i n : string) (c f : option Q) : Source :=
  {| id := i; src_name := n; type := forecast;
     temp_c := None; temp_f := None; time := None; date := None;
     forecasts := Some [ {| fc_name := Some "Today"; fc_temp_f := f; fc_temp_c := c;
                            fc_startTime := None; fc_shortForecast := Some "Scraped" |} ];
     days := None; dailyMax := None; url := None |}.

(** 6) Met Office page *)
Definition onMetOffice (p : Payload) : list Source :=
  match p with
  | PText html =>
      match extractFirstTemp html [re_maxTemperature; re_temperature_units] with
      | Some maxC =>
          [ scrapedToday "metoffice_scrape" "Met Office (scrape)" (Some maxC) (cToF (Some maxC)) ]
      | None => []
      end
  | _ => []
  end.

(** 7) Weather Underground page *)
Definition onWu (cfg : StationConfig) (p : Payload) : list Source :=
  match p with
  | PText html =>
      match extractFirstTemp html [re_temperatureMax; re_tempHi; re_high] with
      | Some maxRaw =>
          let isF := bool_decide (wuUnit cfg = Some F) in
          let tc := if isF then fToC (Some maxRaw) else Some maxRaw in
          let tf := if isF then Some maxRaw else cToF (Some maxRaw) in
          [ scrapedToday "wu_scrape" "Weather Underground (scrape)" tc tf ]
      | None => []
      end
  | _ => []
  end.

(** [tasks], in the order the handler pushes them.  [t] is the [new Date()]
    of the IEM branch. *)
Definition when {A : Type} (o : option string) (f : string -> A) : list A :=
  match orNull o with
  | Some s => [f s]
  | None => []
  end.

Definition tasksOf (cfg : StationConfig) (t : Z) : list Task :=
  [ {| request := ReqMetar (icao cfg); timeoutMs := 10000; onPayload := onMetar |} ]
  ++ when (nwsStation cfg) (fun st =>
       {| request := ReqNwsObs st; timeoutMs := 10000; onPayload := onNwsObs |})
  ++ match nwsGrid cfg with
     | Some g => [ {| request := ReqNwsForecast g; timeoutMs := 10000; onPayload := onNwsForecast |} ]
     | None => []
     end
  ++ [ {| request := ReqOpenMeteo (lat cfg) (lon cfg) (openMeteoModels cfg) (timezone cfg);
          timeoutMs := 10000; onPayload := onOpenMeteo cfg |} ]
  ++ when (iemNetwork cfg) (fun nw =>
       {| request := ReqIem (icao cfg) nw t (timezone cfg); timeoutMs := 10000; onPayload := onIem |})
  ++ when (metOfficeUrl cfg) (fun u =>
       {| request := ReqPage u; timeoutMs := 10000; onPayload := onMetOffice |})
  ++ when (wuUrl cfg) (fun u =>
       {| request := ReqPage u; timeoutMs := 10000; onPayload := onWu cfg |}).

(** [app.get('/api/all/:city', async (req, res) => { ... })].  When the
    lookup lands on the prototype, every field read is [undefined] and
    [cfg.openMeteoModels.join] raises; the METAR request that is already
    on its way by then is left out of the log. *)
Definition route (param_city : string) : Prog HttpResponse :=
  let city := toLowerCase param_city in
  match getProp STATIONS city with
  | Undefined => Ret (Status400 "Unknown city")
  | Inherited => Throw TypeError
  | Own cfg =>
      t ← dateNow;
      sources ← awaitAll (tasksOf cfg t);
      t' ← dateNow;
      Ret (Json200 {| city := city; station := icao cfg; report_name := Some (name cfg);
                      report_displayName := displayName cfg; report_unit := unit cfg;
                      sources := sources; fetchedAt := t' |})
  end.

End ServerV1.

(* ================================================================== *)
(** * Server revision with the day offset and the scrape cache *)
(* ================================================================== *)

Module ServerV2.
Import Units Js Model Server.
Local Open Scope string_scope.
Local Open Scope Z_scope.

Definition stationOf (i n dn la lo tz : string) (u : Unit) (ms : list string)
    (ls : gmap string string) (sites : list ScrapeTarget)
    (st : option string) (g : option NwsGrid) (nw : option string) : StationConfig :=
  {| icao := i; name := n; displayName := dn; lat := la; lon := lo; timezone := tz;
     unit := u; openMeteoModels := ms; modelLabels := ls;
     nwsStation := st; nwsGrid := g; iemNetwork := nw;
     metOfficeUrl := None; wuUrl := None; wuUnit := None;
     scrapperUrls := Some sites |}.

Definition london : StationConfig :=
  stationOf "EGLL" "London City Airport" "LONDON" "51.4775" "-0.4614" "Europe/London" C
    ServerV1.europeModels ServerV1.europeLabels
    [ {| site_id := "metoffice"; site_name := "Met Office";
         site_url := "https://www.metoffice.gov.uk/weather/forecast/gcpvj0v07" |};
      {| site_id := "wunderground"; site_name := "Weather Underground";
         site_url := "https://www.wunderground.com/weather/gb/london" |};
      {| site_id := "bbc"; site_name := "BBC Weather";
         site_url := "https://www.bbc.com/weather/2643743" |};
      {| site_id := "accu"; site_name := "AccuWeather";
         site_url := "https://www.accuweather.com/en/gb/london/ec4a-2/weather-forecast/328328" |} ]
    None None None.

Definition paris : StationConfig :=
  stationOf "LFPG" "Paris Charles de Gaulle" "PARIS" "49.0097" "2.5479" "Europe/Paris" C
    ServerV1.europeModels ServerV1.europeLabels
    [ {| site_id := "meteo"; site_name := "Météo-France";
         site_url := "https://meteofrance.com/previsions-meteo-france/paris/75000" |} ]
    None None None.

Definition dallas : StationConfig :=
  stationOf "KDAL" "Dallas Love Field" "DALLAS" "32.8471" "-96.8518" "America/Chicago" F
    ServerV1.usModels ServerV1.usLabels
    [ {| site_id := "weather_chan"; site_name := "Weather Channel";
         site_url := "https://weather.com/weather/today/l/Dallas+TX" |} ]
    (Some "KDAL") (Some {| office := "FWD"; grid_x := 85; grid_y := 106 |}) (Some "TX_ASOS").

Definition miami : StationConfig :=
  stationOf "KMIA" "Miami Intl Airport" "MIAMI" "25.7932" "-80.2906" "America/New_York" F
    ServerV1.usModels ServerV1.usLabels
    [ {| site_id := "weather_chan"; site_name := "Weather Channel";
         site_url := "https://weather.com/weather/today/l/Miami+FL" |} ]
    (Some "KMIA") (Some {| office := "MFL"; grid_x := 76; grid_y := 52 |}) (Some "FL_ASOS").

Definition STATIONS : gmap string StationConfig :=
  list_to_map [ ("london", london); ("paris", paris); ("dallas", dallas); ("miami", miami) ].

(** [const CACHE_TTL = 5 * 60 * 1000] *)
Definition CACHE_TTL : Z := 5 * 60 * 1000.

(** A day offset is what [parseInt] returned: an integer, or [None] for NaN. *)
Definition dayLabels : list string := [ "Today"; "Tomorrow"; "Day After" ].

(** A number inside a template literal. *)
Definition showOffset (d : option Z) : string :=
  match d with
  | Some z => showZ z
  | None => "NaN"
  end.

(** ** Patterns tried on a search result, in this order *)

Definition degree : Re := Str "°".
Definition digits1 : Re := Grp (Plus isDigit).
(** [/high (?:of )?(\d+)/i] *)
Definition re_high_of : RegExp :=
  {| ignoreCase := true; pattern := Cat (Str "high ") (Cat (Opt (Str "of ")) digits1) |}.
(** [/max (?:of )?(\d+)/i] *)
Definition re_max_of : RegExp :=
  {| ignoreCase := true; pattern := Cat (Str "max ") (Cat (Opt (Str "of ")) digits1) |}.
(** [/(\d+)°?\s?\/\s?(\d+)°/] *)
Definition re_pair : RegExp :=
  {| ignoreCase := false;
     pattern := Cat digits1 (Cat (Opt degree) (Cat (Opt (Cls isSpace)) (Cat (Lit "/")
                (Cat (Opt (Cls isSpace)) (Cat (Plus isDigit) degree))))) |}.
(** [/(\d+)°/] *)
Definition re_degree : RegExp :=
  {| ignoreCase := false; pattern := Cat digits1 degree |}.

Definition patterns : list RegExp := [ re_high_of; re_max_of; re_pair; re_degree ].

(** [text.match(a) || text.match(b) || ...], reduced to [match[1]] *)
Fixpoint firstMatch (text : string) (res : list RegExp) : option string :=
  match res with
  | [] => None
  | re :: rest =>
      match matchGroup1 re text with
      | Some m1 => Some m1
      | None => firstMatch text rest
      end
  end.

(** The unit correction and the source built from a match. *)
Definition correctUnit (u : Unit) (val : option Q) : option Q :=
  match u, val with
  | C, Some v => if Qlt_le_dec 40 v then fToC val else val
  | F, Some v => if Qlt_le_dec v 32 then cToF val else val
  | _, None => None
  end.

Definition scrapedSource (cfg : StationConfig) (dayOffset : option Z)
    (site : ScrapeTarget) (m1 : string) : Source :=
  let val := correctUnit (unit cfg) (inject_Z <$> parseInt m1) in
  {| id := "scraped_" +:+ site_id site +:+ "_d" +:+ showOffset dayOffset;
     src_name := site_name site; type := scraped;
     temp_c := if decide (unit cfg = C) then val else fToC val;
     temp_f := if decide (unit cfg = F) then val else cToF val;
     time := None; date := None; forecasts := None; days := None; dailyMax := None;
     url := Some (site_url site) |}.

(** [for (const res of results) { ... if (match) { scraped.push(..); break; } }] *)
Fixpoint firstHit (cfg : StationConfig) (dayOffset : option Z) (site : ScrapeTarget)
    (results : list BraveResult) : list Source :=
  match results with
  | [] => []
  | res :: rest =>
      let text := toLowerCase (render (description res) +:+ " " +:+ render (title res)) in
      match firstMatch text patterns with
      | Some m1 => [ scrapedSource cfg dayOffset site m1 ]
      | None => firstHit cfg dayOffset site rest
      end
  end.

(** What one target adds to [scraped], given how its request settled. *)
Definition siteSources (cfg : StationConfig) (dayOffset : option Z) (site : ScrapeTarget)
    (reply : option Payload) : list Source :=
  match reply with
  | Some (PBrave results) => firstHit cfg dayOffset site (default [] results)
  | _ => []   (* the catch of the loop body, or a reply without results *)
  end.

Definition queryFor (cfg : StationConfig) (dayOffset : option Z) (dateStr : string)
    (site : ScrapeTarget) : Request :=
  ReqBrave (site_name site +:+ " " +:+ displayName cfg
            +:+ " forecast high max temperature "
            +:+ render (at_index dayLabels dayOffset) +:+ " " +:+ dateStr) 5.

(** [for (const site of cfg.scrapperUrls) { try { ... } catch (e) { ... } }] *)
Fixpoint scrapeLoop (cfg : StationConfig) (dayOffset : option Z) (dateStr : string)
    (sites : list ScrapeTarget) (scraped : list Source) : Prog (list Source) :=
  match sites with
  | [] => Ret scraped
  | site :: rest =>
      _ ← delay 1500;
      reply ← safeFetch (queryFor cfg dayOffset dateStr site) 10000;
      scrapeLoop cfg dayOffset dateStr rest (scraped ++ siteSources cfg dayOffset site reply)
  end.

Definition cacheKeyOf (cfg : StationConfig) (dayOffset : option Z) (dateStr : string) : string :=
  displayName cfg +:+ "_" +:+ showOffset dayOffset +:+ "_" +:+ dateStr.

(** The population of a key: the loop, then
    [CACHE[cacheKey] = { ts: Date.now(), data: scraped }; return scraped]. *)
Definition populate (cfg : StationConfig) (dayOffset : option Z) (dateStr : string)
    (sites : list ScrapeTarget) : Prog (list Source) :=
  scraped ← scrapeLoop cfg dayOffset dateStr sites [];
  t ← dateNow;
  CacheSet (cacheKeyOf cfg dayOffset dateStr) {| ts := t; data := scraped |} (Ret scraped).

(** [async function scrapeForecastForDay(cfg, dayOffset)] *)
Definition scrapeForecastForDay (cfg : StationConfig) (dayOffset : option Z)
    : Prog (list Source) :=
  match scrapperUrls cfg with
  | None => Ret []
  | Some sites =>
      DateNow (fun t0 =>
        match isoDate (addDays (Some t0) dayOffset) with
        | None => Throw RangeError
        | Some dateStr =>
            CacheGet (cacheKeyOf cfg dayOffset dateStr) (fun entry =>
              match entry with
              | Some e =>
                  DateNow (fun t1 =>
                    if t1 - ts e <? CACHE_TTL then Ret (data e)
                    else populate cfg dayOffset dateStr sites)
              | None => populate cfg dayOffset dateStr sites
              end)
        end)
  end.

(** The only task of the fan-out: Open-Meteo, read at the day offset. *)
Fixpoint openMeteoSources (cfg : StationConfig) (dayOffset : option Z)
    (series : gmap string (list (option Q))) (models : list string) : list Source :=
  match models with
  | [] => []
  | m :: rest =>
      match series !! ("temperature_2m_max_" +:+ m) with
      | Some vals =>
          let val := mjoin (at_index vals dayOffset) in
          let label := render (modelLabels cfg !! m) in
          {| id := "model_" +:+ label; src_name := label; type := model;
             temp_c := val; temp_f := cToF val;
             time := None; date := None; forecasts := None; days := None;
             dailyMax := None; url := None |}
          :: openMeteoSources cfg dayOffset series rest
      | None => openMeteoSources cfg dayOffset series rest
      end
  end.

Definition onOpenMeteo (cfg : StationConfig) (dayOffset : option Z) (p : Payload) : list Source :=
  match p with
  | POpenMeteo (Some daily) => openMeteoSources cfg dayOffset (om_series daily) (openMeteoModels cfg)
  | _ => []
  end.

Definition tasksOf (cfg : StationConfig) (dayOffset : option Z) : list Task :=
  [ {| request := ReqOpenMeteo (lat cfg) (lon cfg) (openMeteoModels cfg) (timezone cfg);
       timeoutMs := 15000; onPayload := onOpenMeteo cfg dayOffset |} ].

(** [parseInt(req.query.day || '0')] *)
Definition dayOffsetOf (query_day : option string) : option Z :=
  parseInt (default "0" (orNull query_day)).

(** [app.get('/api/all/:city', async (req, res) => { ... })] *)
Definition route (param_city : string) (query_day : option string) : Prog HttpResponse :=
  let city := toLowerCase param_city in
  let dayOffset := dayOffsetOf query_day in
  match getProp STATIONS city with
  | Undefined => Ret (Status400 "Unknown city")
  | Inherited => Throw TypeError
  | Own cfg =>
      sources ← awaitAll (tasksOf cfg dayOffset);
      scraped ← scrapeForecastForDay cfg dayOffset;
      t ← dateNow;
      Ret (Json200 {| city := city; station := icao cfg; report_name := None;
                      report_displayName := displayName cfg; report_unit := unit cfg;
                      sources := sources ++ scraped; fetchedAt := t |})
  end.

End ServerV2.

(* ================================================================== *)
(** * Server revision that scrapes three days per target, without cache *)
(* ================================================================== *)

(** Its fan-out has the NWS observation, NWS forecast, Open-Meteo and IEM
    tasks of server.js, word for word; what is new is the source it builds
    from the search results of one target and one day, modelled here.  The
    [dayOffset] property it adds to the source is not read anywhere. *)
Module ServerV3.
Import Units Js Model Server.
Local Open Scope string_scope.
Local Open Scope Z_scope.

(** [/maximum daytime temperature:?\s*(\d+)/i] *)
Definition re_maximum_daytime : RegExp :=
  {| ignoreCase := true;
     pattern := Cat (Str "maximum daytime temperature")
                    (Cat (Opt (Lit ":")) (Cat (Many isSpace) ServerV2.digits1)) |}.

Definition patterns : list RegExp :=
  [ re_maximum_daytime; ServerV2.re_high_of; ServerV2.re_max_of; ServerV2.re_degree ].

(** The loop over the results: [maxTemp] after the first match, corrected
    for the unit; [None] is [null] or NaN. *)
Fixpoint maxTempOf (cfg : StationConfig) (results : list BraveResult) : option Q :=
  match results with
  | [] => None
  | res :: rest =>
      let text := toLowerCase (render (description res) +:+ " " +:+ render (title res)) in
      match ServerV2.firstMatch text patterns with
      | Some m1 => ServerV2.correctUnit (unit cfg) (inject_Z <$> parseInt m1)
      | None => maxTempOf cfg rest
      end
  end.

(** [if (maxTemp) { scraped.push({ ... }) }] for the day at [dayOffset],
    which the loop bounds to 0, 1 and 2. *)
Definition scrapedOfResults (cfg : StationConfig) (dayOffset : Z) (dateStr : string)
    (site : ScrapeTarget) (results : list BraveResult) : list Source :=
  match maxTempOf cfg results with
  | Some maxTemp =>
      if truthyQ maxTemp then
        [ {| id := "scraped_" +:+ site_id site +:+ "_d" +:+ showZ dayOffset;
             src_name := site_name site +:+ " ("
                         +:+ render (at_index ServerV2.dayLabels (Some dayOffset)) +:+ ")";
             type := scraped;
             temp_c := if decide (unit cfg = C) then Some maxTemp else fToC (Some maxTemp);
             temp_f := if decide (unit cfg = F) then Some maxTemp else cToF (Some maxTemp);
             time := None; date := Some dateStr; forecasts := None; days := None;
             dailyMax := None; url := Some (site_url site) |} ]
      else []
  | None => []
  end.

End ServerV3.

(* ================================================================== *)
(** * Report assembly in the front end *)
(* ================================================================== *)

Module Assemble.
Import Units Js Model.
Local Open Scope Z_scope.

Inductive SpreadClass : Set := tight | medium | wide.

Record Row := {
  row_type : SourceType;
  row_name : string;
  row_primary : option Q;
  row_secondary : option Q }.

(** What [createCityCard] derives and prints: the collected temperatures,
    the source rows, the average with its converted counterpart, and the
    spread row ([None] when [spreadHtml] stays empty). *)
Record Card := {
  temps : list Q;
  rows : list Row;
  avg : option Q;
  avgSecondary : option Q;
  spread : option (Q * SpreadClass) }.

(** [Math.max(...temps)] and [Math.min(...temps)] on a non-empty array. *)
Definition maxOf (l : list Q) : option Q :=
  match l with
  | [] => None
  | x :: r => Some (foldl Qmax x r)
  end.
Definition minOf (l : list Q) : option Q :=
  match l with
  | [] => None
  | x :: r => Some (foldl Qmin x r)
  end.

(** [temps.reduce((a, b) => a + b, 0)] *)
Definition sumOf (l : list Q) : Q := foldl Qplus 0%Q l.

(** [temps.length > 0 ? temps.reduce((a, b) => a + b, 0) / temps.length : null],
    on the exact values: the mean the page prints can differ from it in the
    last binary places. *)
Definition average (temps : list Q) : option Q :=
  if (0 <? length temps)%nat
  then Some (sumOf temps / inject_Z (Z.of_nat (length temps)))%Q
  else None.

(** [spread <= 1.5 ? 'tight' : spread <= 3 ? 'medium' : 'wide'], on the
    exact difference; [Spread64.classify] is the same on Numbers. *)
Definition classify (s : Q) : SpreadClass :=
  if Qle_bool s (15 # 10) then tight
  else if Qle_bool s 3 then medium
  else wide.

(** [if (temps.length >= 2) { const spread = Math.max(...temps) - Math.min(...temps); ... }],
    on the exact values; [Spread64.spreadOf] is the same on Numbers. *)
Definition spreadOf (temps : list Q) : option (Q * SpreadClass) :=
  if (2 <=? length temps)%nat then
    match maxOf temps, minOf temps with
    | Some hi, Some lo => let s := (hi - lo)%Q in Some (s, classify s)
    | _, _ => None
    end
  else None.

End Assemble.

(** ** app.js: per-day values looked up by source type *)

Module AppV1.
Import Units Js Model Assemble.
Local Open Scope Z_scope.

Definition pick (u : Unit) (c f : option Q) : option Q :=
  match u with F => f | C => c end.

(** [function getPrimaryTemp(source, unit, dayIndex)] *)
Definition getPrimaryTemp (source : Source) (u : Unit) (dayIndex : option Z) : option Q :=
  match type source, dailyMax source, days source, forecasts source with
  | model, Some dm, Some ds, _ =>
      let dayKey := at_index ds dayIndex in
      match dm !! render dayKey with
      | None => None
      | Some entry => pick u (pair_c entry) (pair_f entry)
      end
  | forecast, _, _, Some fcs =>
      match at_index fcs dayIndex with
      | None => None
      | Some fc => pick u (fc_temp_c fc) (fc_temp_f fc)
      end
  | _, _, _, _ =>
      if bool_decide (dayIndex = Some 0) then pick u (temp_c source) (temp_f source)
      else None
  end.

(** [function getSecondaryTemp(source, unit, dayIndex)] *)
Definition getSecondaryTemp (source : Source) (u : Unit) (dayIndex : option Z) : option Q :=
  match type source, dailyMax source, days source, forecasts source with
  | model, Some dm, Some ds, _ =>
      let dayKey := at_index ds dayIndex in
      match dm !! render dayKey with
      | None => None
      | Some entry => pick u (pair_f entry) (pair_c entry)
      end
  | forecast, _, _, Some fcs =>
      match at_index fcs dayIndex with
      | None => None
      | Some fc => pick u (fc_temp_f fc) (fc_temp_c fc)
      end
  | _, _, _, _ =>
      if bool_decide (dayIndex = Some 0) then pick u (temp_f source) (temp_c source)
      else None
  end.

Definition ofType (t : SourceType) (sources : list Source) : list Source :=
  List.filter (fun s => bool_decide (type s = t)) sources.

(** [const ordered = [...live, ...recorded, ...forecast, ...model]] *)
Definition ordered (sources : list Source) : list Source :=
  ofType live sources ++ ofType recorded sources
  ++ ofType forecast sources ++ ofType model sources.

(** The body of [for (const src of ordered)]: what is pushed on [temps]
    and on [sourceRows]. *)
Definition tempsPushed (u : Unit) (selectedDay : option Z) (src : Source) : list Q :=
  match getPrimaryTemp src u selectedDay with
  | Some primary => [primary]
  | None => []
  end.

Definition rowsPushed (u : Unit) (selectedDay : option Z) (src : Source) : list Row :=
  if (bool_decide (type src = live) || bool_decide (type src = recorded))
     && negb (bool_decide (selectedDay = Some 0))
  then []
  else [ {| row_type := type src; row_name := src_name src;
            row_primary := getPrimaryTemp src u selectedDay;
            row_secondary := getSecondaryTemp src u selectedDay |} ].

(** [function createCityCard(data)], with the global [selectedDay] passed in *)
Definition createCityCard (data : Server.Report) (selectedDay : option Z) : Card :=
  let u := Server.report_unit data in
  let ord := ordered (Server.sources data) in
  let temps := flat_map (tempsPushed u selectedDay) ord in
  let avg := average temps in
  {| temps := temps;
     rows := flat_map (rowsPushed u selectedDay) ord;
     avg := avg;
     avgSecondary := match u with F => fToC avg | C => cToF avg end;
     spread := spreadOf temps |}.

End AppV1.

(** ** On-demand revision of the front end: flat per-day sources *)

Module AppV2.
Import Units Js Model Assemble.
Local Open Scope Z_scope.

(** [unit === 'F' ? s.temp_f : s.temp_c] *)
Definition primaryOf (u : Unit) (s : Source) : option Q :=
  match u with F => temp_f s | C => temp_c s end.
Definition secondaryOf (u : Unit) (s : Source) : option Q :=
  match u with F => temp_c s | C => temp_f s end.

(** [function createCityCard(data)] *)
Definition createCityCard (data : Server.Report) : Card :=
  let u := Server.report_unit data in
  let temps := omap (primaryOf u) (Server.sources data) in
  let avg := average temps in
  {| temps := temps;
     rows := (fun s => {| row_type := type s; row_name := src_name s;
                          row_primary := primaryOf u s;
                          row_secondary := secondaryOf u s |}) <$> Server.sources data;
     avg := avg;
     avgSecondary :=
       match avg with
       | Some a => Some (match u with F => (a - 32) * 5 / 9 | C => a * 9 / 5 + 32 end)%Q
       | None => None
       end;
     spread := spreadOf temps |}.

End AppV2.

(* ================================================================== *)
(** * Numbers as the page holds them *)
(* ================================================================== *)

(** The front end computes on IEEE 754 binary64 Numbers.  The arithmetic
    is that of the Standard Library's [SpecFloat] at precision 53; for the
    spread it matters, because the thresholds are applied to the rounded
    difference. *)
Module Binary64.
Local Open Scope Z_scope.

Definition double : Set := spec_float.
Definition prec : Z := 53.
Definition emax : Z := 1024.

Definition isNaN (x : double) : bool :=
  match x with S754_nan => true | _ => false end.

(** [x - y], [x <= y] and [x < y] *)
Definition sub (x y : double) : double := SFsub prec emax x y.
Definition leb (x y : double) : bool := SFleb x y.
Definition ltb (x y : double) : bool := SFltb x y.

(** The Number nearest to the positive rational [a / d], ties to the even
    significand, with the sign [s]: [e] is the exponent of the last place,
    [q] and [r] the quotient and the remainder at that place. *)
Definition nearest (s : bool) (a d : positive) : double :=
  let e0 := Z.log2 (Z.pos a) - Z.log2 (Z.pos d) in
  let E := if Z.pos d * 2 ^ Z.max 0 e0 <=? Z.pos a * 2 ^ Z.max 0 (- e0) then e0 else e0 - 1 in
  let e := Z.max (E - 52) (-1074) in
  let num := Z.pos a * 2 ^ Z.max 0 (- e) in
  let den := Z.pos d * 2 ^ Z.max 0 e in
  let q := num / den in
  let r := num mod den in
  let m := if 2 * r <? den then q
           else if den <? 2 * r then q + 1
           else if Z.even q then q else q + 1 in
  let me := if m =? 2 ^ 53 then (2 ^ 52, e + 1) else (m, e) in
  match fst me with
  | Z.pos m' => if snd me <=? 971 then S754_finite s m' (snd me) else S754_infinity s
  | _ => S754_zero s
  end.

(** The Number value of a decimal literal or of a number of a JSON
    document: what [res.json()] hands to the page for the number [q]. *)
Definition Number (q : Q) : double :=
  match Qnum q with
  | Z0 => S754_zero false
  | Z.pos a => nearest false a (Qden q)
  | Z.neg a => nearest true a (Qden q)
  end.


(** One round of [Math.max]: NaN wins, [+0] is larger than [-0]. *)
Definition larger (highest number : double) : double :=
  if isNaN highest || isNaN number then S754_nan
  else match number, highest with
       | S754_zero false, S754_zero true => number
       | _, _ => if ltb highest number then number else highest
       end.

Definition smaller (lowest number : double) : double :=
  if isNaN lowest || isNaN number then S754_nan
  else match number, lowest with
       | S754_zero true, S754_zero false => number
       | _, _ => if ltb number lowest then number else lowest
       end.

(** [Math.max(...values)] and [Math.min(...values)] *)
Definition Math_max (values : list double) : double :=
  foldl larger (S754_infinity true) values.
Definition Math_min (values : list double) : double :=
  foldl smaller (S754_infinity false) values.

End Binary64.

(** ** The spread row of both front ends, on Numbers *)

Module Spread64.
Import Units Js Model Assemble Binary64.

(** [spread <= 1.5 ? 'tight' : spread <= 3 ? 'medium' : 'wide'] *)
Definition classify (spread : double) : SpreadClass :=
  if leb spread (Number (15 # 10)) then tight
  else if leb spread (Number 3) then medium
  else wide.

(** [if (temps.length >= 2) { const spread = Math.max(...temps) - Math.min(...temps); ... }] *)
Definition spreadOf (temps : list double) : option (double * SpreadClass) :=
  if (2 <=? length temps)%nat then
    let spread := sub (Math_max temps) (Math_min temps) in
    Some (spread, classify spread)
  else None.



End Spread64.

(* ================================================================== *)
(** * Interleaved meaning: several handlers on one event loop *)
(* ================================================================== *)

Module Concurrent.
Import Model.
Local Open Scope Z_scope.

(** A call of an async function: not yet made, suspended at an [await],
    or settled. *)
Inductive Task (R : Type) : Type :=
| Ready (p : Prog R)
| AwaitTimer (wake : Z) (k : Prog R)
| AwaitFetch (k : option Payload -> Prog R)
| AwaitAll (k : list (nat * option Payload) -> Prog R)
| Done (o : Outcome R).
Arguments Ready {R} p.
Arguments AwaitTimer {R} wake k.
Arguments AwaitFetch {R} k.
Arguments AwaitAll {R} k.
Arguments Done {R} o.

Record System (R : Type) := {
  sys_now : Z;
  sys_cache : gmap string CacheEntry;
  sys_log : list (nat * Event);     (* who set which timer or sent which request *)
  sys_tasks : list (Task R) }.
Arguments sys_now {R} s.
Arguments sys_cache {R} s.
Arguments sys_log {R} s.
Arguments sys_tasks {R} s.

(** Run [p] up to its next [await]: the clock and the cache are read and
    written without any other task in between. *)
Fixpoint advance {R : Type} (p : Prog R) (t : Z) (c : gmap string CacheEntry)
    : Task R * gmap string CacheEntry * list Event :=
  match p with
  | Ret r => (Done (Returned r), c, [])
  | Throw e => (Done (Thrown e), c, [])
  | DateNow k => advance (k t) t c
  | CacheGet key k => advance (k (c !! key)) t c
  | CacheSet key e k => advance k t (<[key := e]> c)
  | Sleep ms k => (AwaitTimer (t + ms) k, c, [EvTimer ms])
  | Fetch req _ k => (AwaitFetch k, c, [EvFetch req])
  | FetchAll reqs k => (AwaitAll k, c, EvFetch ∘ fst <$> reqs)
  end.

(** What the event loop does next. *)
Inductive Action : Type :=
| Call (i : nat) (at_ms : Z)                       (* task [i] is called *)
| Fire (i : nat) (at_ms : Z)                       (* its timer fires *)
| Settle (i : nat) (at_ms : Z) (b : option Payload)    (* its request settles *)
| SettleAll (i : nat) (at_ms : Z) (l : list (nat * option Payload)).

Definition actor (a : Action) : nat :=
  match a with
  | Call i _ | Fire i _ | Settle i _ _ | SettleAll i _ _ => i
  end.

Definition actionTime (a : Action) : Z :=
  match a with
  | Call _ t | Fire _ t | Settle _ t _ | SettleAll _ t _ => t
  end.

(** The code an action resumes, when the task is waiting for that action. *)
Definition resume {R : Type} (a : Action) (task : Task R) : option (Prog R) :=
  match a, task with
  | Call _ _, Ready p => Some p
  | Fire _ t, AwaitTimer wake k => if wake <=? t then Some k else None
  | Settle _ _ b, AwaitFetch k => Some (k b)
  | SettleAll _ _ l, AwaitAll k => Some (k l)
  | _, _ => None
  end.

(** One turn of the event loop; [None] when the action cannot happen. *)
Definition step {R : Type} (a : Action) (s : System R) : option (System R) :=
  if actionTime a <? sys_now s then None else
  match sys_tasks s !! actor a with
  | None => None
  | Some task =>
      match resume a task with
      | None => None
      | Some p =>
          let '(task', c', evs) := advance p (actionTime a) (sys_cache s) in
          Some {| sys_now := actionTime a;
                  sys_cache := c';
                  sys_log := sys_log s ++ ((fun e => (actor a, e)) <$> evs);
                  sys_tasks := <[actor a := task']> (sys_tasks s) |}
      end
  end.

Fixpoint exec {R : Type} (acts : list Action) (s : System R) : option (System R) :=
  match acts with
  | [] => Some s
  | a :: rest =>
      match step a s with
      | Some s' => exec rest s'
      | None => None
      end
  end.

(** The requests task [i] has sent, oldest first. *)
Definition requestsOf (i : nat) (l : list (nat * Event)) : list Request :=
  flat_map (fun e =>
              match e with
              | (j, EvFetch req) => if bool_decide (j = i) then [req] else []
              | _ => []
              end) l.

Definition inFlight {R : Type} (s : System R) (i : nat) : Prop :=
  match sys_tasks s !! i with
  | Some (AwaitTimer _ _) | Some (AwaitFetch _) | Some (AwaitAll _) => True
  | _ => False
  end.

Definition settled {R : Type} (s : System R) (i : nat) : Prop :=
  match sys_tasks s !! i with
  | Some (Done _) => True
  | _ => False
  end.

Definition resultOf {R : Type} (s : System R) (i : nat) : option (Outcome R) :=
  match sys_tasks s !! i with
  | Some (Done o) => Some o
  | _ => None
  end.

(** The settlements task [i] has received, oldest first. *)
Definition repliesTo (i : nat) (acts : list Action) : list (option Payload) :=
  flat_map (fun a =>
              match a with
              | Settle j _ b => if bool_decide (j = i) then [b] else []
              | _ => []
              end) acts.

(** The requests a piece of code is still to send and the value it returns
    for the replies to them, when they are the same on every path and the
    code neither reads the cache nor raises. *)
Fixpoint Gives {R : Type} (qs : list Request) (res : list (option Payload) -> R)
    (p : Prog R) : Prop :=
  match p with
  | Ret r => qs = [] /\ r = res []
  | Throw _ => False
  | DateNow k => forall t, Gives qs res (k t)
  | CacheSet _ _ k | Sleep _ k => Gives qs res k
  | Fetch req _ k =>
      match qs with
      | q :: qs' => q = req /\ forall b, Gives qs' (fun bs => res (b :: bs)) (k b)
      | [] => False
      end
  | CacheGet _ _ | FetchAll _ _ => False
  end.

(** The same for a suspended call; the reply a pending request is waiting
    for is the first that [res] takes. *)
Definition TaskGives {R : Type} (qs : list Request) (res : list (option Payload) -> R)
    (task : Task R) : Prop :=
  match task with
  | AwaitTimer _ k => Gives qs res k
  | AwaitFetch k => forall b, Gives qs (fun bs => res (b :: bs)) (k b)
  | Done o => qs = [] /\ o = Returned (res [])
  | Ready _ | AwaitAll _ => False
  end.

(** The number of requests a call is waiting for. *)
Definition pending {R : Type} (task : Task R) : nat :=
  match task with
  | AwaitFetch _ => 1
  | _ => 0
  end.

Definition requestsIn (evs : list Event) : list Request :=
  flat_map (fun e => match e with EvFetch req => [req] | _ => [] end) evs.

End Concurrent.

(* ================================================================== *)
(** * Properties of the unit converter *)
(* ================================================================== *)

Section UnitFacts.
Import Units.

Lemma cToF_Some c : cToF (Some c) = Some (cToF_num c).
Proof. reflexivity. Qed.

Lemma fToC_Some f : fToC (Some f) = Some (fToC_num f).
Proof. reflexivity. Qed.

(** [Math.round] moves its argument by at most one half. *)
Lemma MathRound_bounds (x : Q) :
  (x - (1 # 2) < inject_Z (MathRound x) /\ inject_Z (MathRound x) <= x + (1 # 2))%Q.
Proof.
  unfold MathRound.
  pose proof (Qfloor_le (x + (1 # 2))) as Hle.
  pose proof (Qlt_floor (x + (1 # 2))) as Hlt.
  rewrite inject_Z_plus in Hlt.
  change (inject_Z 1) with 1%Q in Hlt.
  split; lra.
Qed.

(** One-decimal rounding moves its argument by at most one twentieth. *)
Lemma round10_bounds (x : Q) :
  (x - (1 # 20) < round10 x /\ round10 x <= x + (1 # 20))%Q.
Proof.
  unfold round10.
  destruct (MathRound_bounds (x * 10)) as [Hlo Hhi].
  set (r := inject_Z (MathRound (x * 10))) in *.
  split.
  - apply Qlt_shift_div_l; lra.
  - apply Qle_shift_div_r; lra.
Qed.

Lemma Qabs_le_iff (x y : Q) : (Qabs x <= y <-> - y <= x /\ x <= y)%Q.
Proof. apply Qabs_Qle_condition. Qed.

(** Linear arithmetic over the constants the converters divide by. *)
Ltac lra_div :=
  unfold Qdiv in *;
  change (/ 5)%Q with (1 # 5)%Q in *;
  change (/ 9)%Q with (1 # 9)%Q in *;
  lra.

Lemma cToF_num_bounds (c : Q) :
  (c * 9 / 5 + 32 - (1 # 20) < cToF_num c /\ cToF_num c <= c * 9 / 5 + 32 + (1 # 20))%Q.
Proof. apply round10_bounds. Qed.

Lemma fToC_num_bounds (f : Q) :
  ((f - 32) * 5 / 9 - (1 # 20) < fToC_num f /\ fToC_num f <= (f - 32) * 5 / 9 + (1 # 20))%Q.
Proof. apply round10_bounds. Qed.

Lemma celsius_roundtrip_num (c : Q) : (Qabs (fToC_num (cToF_num c) - c) <= 1 # 10)%Q.
Proof.
  destruct (cToF_num_bounds c) as [H1 H2].
  destruct (fToC_num_bounds (cToF_num c)) as [H3 H4].
  set (f := cToF_num c) in *. set (c' := fToC_num f) in *.
  apply Qabs_le_iff. split; lra_div.
Qed.

Lemma fahrenheit_roundtrip_num (f : Q) : (Qabs (cToF_num (fToC_num f) - f) <= 14 # 100)%Q.
Proof.
  destruct (fToC_num_bounds f) as [H1 H2].
  destruct (cToF_num_bounds (fToC_num f)) as [H3 H4].
  set (c := fToC_num f) in *. set (f' := cToF_num c) in *.
  apply Qabs_le_iff. split; lra_div.
Qed.

(** C7, as amended.  Celsius to Fahrenheit and back returns within 0.1 of
    the input; Fahrenheit to Celsius and back returns within 0.14 of it (one
    Celsius rounding step of 0.05 is 0.09 Fahrenheit, and the second
    rounding adds 0.05). *)
Theorem C7_roundtrip_bounds :
  (forall c : Q, exists c' : Q,
      fToC (cToF (Some c)) = Some c' /\ (Qabs (c' - c) <= 1 # 10)%Q) /\
  (forall f : Q, exists f' : Q,
      cToF (fToC (Some f)) = Some f' /\ (Qabs (f' - f) <= 14 # 100)%Q).
Proof.
  split.
  - intros c. exists (fToC_num (cToF_num c)). split; [reflexivity |].
    apply celsius_roundtrip_num.
  - intros f. exists (cToF_num (fToC_num f)). split; [reflexivity |].
    apply fahrenheit_roundtrip_num.
Qed.

(** C7 fails as stated for Fahrenheit input: 32.095 F becomes 0.1 C, which
    becomes 32.2 F, 0.105 away from the input. *)
Lemma C7_fahrenheit_counterexample :
  exists f' : Q,
    cToF (fToC (Some (6419 # 200))) = Some f' /\
    ~ (Qabs (f' - (6419 # 200)) <= 1 # 10)%Q.
Proof.
  exists (322 # 10). split.
  - vm_compute. reflexivity.
  - apply Qlt_not_le. reflexivity.
Qed.

End UnitFacts.

(* ================================================================== *)
(** * Properties of the report assembly *)
(* ================================================================== *)

Section AssembleFacts.
Import Units Js Model Assemble.

(** ** Vocabulary of the specification *)

(** The sum of a list of values. *)
Definition total (l : list Q) : Q := foldr Qplus 0%Q l.


(** [hi] and [lo] are a greatest and a least element of [l]. *)
Definition Extremes (hi lo : Q) (l : list Q) : Prop :=
  In hi l /\ In lo l /\ forall t, In t l -> (lo <= t /\ t <= hi)%Q.


(** What a card may show as its spread, given the defined primary values. *)
Definition SpreadSpec (vals : list Q) (sp : option (Q * SpreadClass)) : Prop :=
  match sp with
  | None => (length vals < 2)%nat
  | Some (s, cls) =>
      (2 <= length vals)%nat /\
      (exists hi lo, Extremes hi lo vals /\ s = (hi - lo)%Q) /\
      (cls = tight <-> (s <= 15 # 10)%Q) /\
      (cls = medium <-> (15 # 10 < s /\ s <= 3)%Q) /\
      (cls = wide <-> (3 < s)%Q)
  end.


(** ** Sums and means *)



Lemma total_app (l1 l2 : list Q) : (total (l1 ++ l2) == total l1 + total l2)%Q.
Proof.
  induction l1 as [| x l1 IH]; simpl.
  - ring.
  - rewrite IH. ring.
Qed.




(** ** Extremes *)

Lemma Qmax_cases (a b : Q) : (Qmax a b = a /\ (b <= a)%Q) \/ (Qmax a b = b /\ (a <= b)%Q).
Proof.
  unfold Qmax, GenericMinMax.gmax.
  destruct (a ?= b)%Q eqn:E.
  - left. split; [reflexivity |]. apply Qeq_alt in E. rewrite E. apply Qle_refl.
  - right. split; [reflexivity |]. apply Qlt_alt in E. apply Qlt_le_weak, E.
  - left. split; [reflexivity |]. apply Qgt_alt in E. apply Qlt_le_weak, E.
Qed.

Lemma Qmin_cases (a b : Q) : (Qmin a b = a /\ (a <= b)%Q) \/ (Qmin a b = b /\ (b <= a)%Q).
Proof.
  unfold Qmin, GenericMinMax.gmin.
  destruct (a ?= b)%Q eqn:E.
  - left. split; [reflexivity |]. apply Qeq_alt in E. rewrite E. apply Qle_refl.
  - left. split; [reflexivity |]. apply Qlt_alt in E. apply Qlt_le_weak, E.
  - right. split; [reflexivity |]. apply Qgt_alt in E. apply Qlt_le_weak, E.
Qed.

Lemma foldl_Qmax_spec (l : list Q) (x : Q) :
  In (foldl Qmax x l) (x :: l) /\ forall t, In t (x :: l) -> (t <= foldl Qmax x l)%Q.
Proof.
  revert x. induction l as [| y l IH]; intros x; simpl.
  - split; [left; reflexivity |]. intros t [<- | []]. apply Qle_refl.
  - destruct (IH (Qmax x y)) as [Hin Hge]. split.
    + destruct Hin as [Heq | Hin]; [| right; right; exact Hin].
      rewrite <- Heq. destruct (Qmax_cases x y) as [[-> _] | [-> _]]; auto.
    + intros t Ht.
      assert (Hm : (t <= Qmax x y)%Q \/ In t l).
      { destruct Ht as [<- | [<- | Ht]]; [| | right; exact Ht]; left.
        - destruct (Qmax_cases x y) as [[-> _] | [-> H]]; [apply Qle_refl | exact H].
        - destruct (Qmax_cases x y) as [[-> H] | [-> _]]; [exact H | apply Qle_refl]. }
      destruct Hm as [Hm | Hm].
      * eapply Qle_trans; [exact Hm |]. apply Hge. left; reflexivity.
      * apply Hge. right; exact Hm.
Qed.

Lemma foldl_Qmin_spec (l : list Q) (x : Q) :
  In (foldl Qmin x l) (x :: l) /\ forall t, In t (x :: l) -> (foldl Qmin x l <= t)%Q.
Proof.
  revert x. induction l as [| y l IH]; intros x; simpl.
  - split; [left; reflexivity |]. intros t [<- | []]. apply Qle_refl.
  - destruct (IH (Qmin x y)) as [Hin Hle]. split.
    + destruct Hin as [Heq | Hin]; [| right; right; exact Hin].
      rewrite <- Heq. destruct (Qmin_cases x y) as [[-> _] | [-> _]]; auto.
    + intros t Ht.
      assert (Hm : (Qmin x y <= t)%Q \/ In t l).
      { destruct Ht as [<- | [<- | Ht]]; [| | right; exact Ht]; left.
        - destruct (Qmin_cases x y) as [[-> _] | [-> H]]; [apply Qle_refl | exact H].
        - destruct (Qmin_cases x y) as [[-> H] | [-> _]]; [exact H | apply Qle_refl]. }
      destruct Hm as [Hm | Hm].
      * eapply Qle_trans; [| exact Hm]. apply Hle. left; reflexivity.
      * apply Hle. right; exact Hm.
Qed.

Lemma classify_spec (s : Q) :
  (classify s = tight <-> (s <= 15 # 10)%Q) /\
  (classify s = medium <-> (15 # 10 < s /\ s <= 3)%Q) /\
  (classify s = wide <-> (3 < s)%Q).
Proof.
  unfold classify.
  destruct (Qle_bool s (15 # 10)) eqn:E1; [| destruct (Qle_bool s 3) eqn:E2].
  - apply Qle_bool_iff in E1.
    split; [| split]; (split; intros H); try discriminate; try reflexivity;
      try exact E1; lra.
  - apply Qle_bool_iff in E2.
    assert (H1 : (15 # 10 < s)%Q).
    { apply Qnot_le_lt. intros H. apply Qle_bool_iff in H. congruence. }
    split; [| split]; (split; intros H); try discriminate; try reflexivity; lra.
  - assert (H2 : (3 < s)%Q).
    { apply Qnot_le_lt. intros H. apply Qle_bool_iff in H. congruence. }
    split; [| split]; (split; intros H); try discriminate; try reflexivity; lra.
Qed.

Lemma spreadOf_spec (l : list Q) : SpreadSpec l (spreadOf l).
Proof.
  unfold spreadOf, SpreadSpec.
  destruct (2 <=? length l)%nat eqn:E.
  - apply Nat.leb_le in E. destruct l as [| x l]; [simpl in E; lia |].
    simpl maxOf. simpl minOf. cbv zeta.
    destruct (foldl_Qmax_spec l x) as [Hmi Hma].
    destruct (foldl_Qmin_spec l x) as [Hni Hna].
    split; [exact E |]. split.
    + exists (foldl Qmax x l), (foldl Qmin x l). split; [| reflexivity].
      split; [exact Hmi |]. split; [exact Hni |]. intros t Ht. split; auto.
    + apply classify_spec.
  - apply Nat.leb_gt in E. exact E.
Qed.

Lemma SpreadSpec_perm (l1 l2 : list Q) (sp : option (Q * SpreadClass)) :
  Permutation l1 l2 -> SpreadSpec l1 sp -> SpreadSpec l2 sp.
Proof.
  intros HP. destruct sp as [[s cls] |]; simpl.
  - intros (Hlen & (hi & lo & (Hhi & Hlo & Hall) & Hs) & Hcls).
    split; [rewrite <- (Permutation_length HP); exact Hlen |]. split; [| exact Hcls].
    exists hi, lo. split; [| exact Hs].
    split; [eapply Permutation_in; eauto |].
    split; [eapply Permutation_in; eauto |].
    intros t Ht. apply Hall. eapply Permutation_in; [symmetry; exact HP | exact Ht].
  - rewrite (Permutation_length HP). auto.
Qed.

(** ** The values a card averages *)










(** ** The spread on Numbers *)







(** [Number] on a few decimals, against the division of [SpecFloat]: the
    quotient of two integers that are Numbers is the Number nearest to the
    rational. *)
Example Number_agrees_with_division :
  Forall (fun nd : positive * positive =>
            Binary64.Number (Z.pos (fst nd) # snd nd)
            = SFdiv Binary64.prec Binary64.emax
                (S754_finite false (fst nd) 0) (S754_finite false (snd nd) 0) /\
            valid_binary Binary64.prec Binary64.emax
              (Binary64.Number (Z.pos (fst nd) # snd nd)) = true)
         [ (3, 10); (68, 10); (83, 10); (18, 10); (15, 10); (1, 3); (7, 10);
           (150001, 100000); (300001, 100000); (1, 10); (2147483647, 1000);
           (9007199254740993, 1); (9007199254740995, 1); (1, 2 ^ 1074); (3, 2 ^ 1075);
           (2 ^ 1023, 1); (10 ^ 308, 1); (1, 10 ^ 310) ]%positive.
Proof. repeat constructor; vm_compute; reflexivity. Qed.
















(** The boundaries the specification lists, as the page classifies the
    Numbers of these decimals. *)
Example classify_boundaries :
  Spread64.classify (Binary64.Number (15 # 10)) = tight /\
  Spread64.classify (Binary64.Number (150001 # 100000)) = medium /\
  Spread64.classify (Binary64.Number 3) = medium /\
  Spread64.classify (Binary64.Number (300001 # 100000)) = wide.
Proof. repeat split; vm_compute; reflexivity. Qed.

End AssembleFacts.

(* ================================================================== *)
(** * Properties of the sequential meaning *)
(* ================================================================== *)

Section RunFacts.
Import Units Js Model Server.
Local Open Scope Z_scope.

Context (net : Net).

(** Running [p] and then [f] is running [f] where [p] left off. *)
Lemma run_bind {A B : Type} (p : Prog A) (f : A -> Prog B) (w : World) :
  run net (p ≫= f) w =
  match run net p w with
  | (Returned r, w') => run net (f r) w'
  | (Thrown e, w') => (Thrown e, w')
  end.
Proof.
  change (p ≫= f) with (bind p f).
  revert w. induction p as [r | e | k IH | key k IH | key e k IH | ms k IH | req t k IH | reqs k IH];
    intros w; simpl; auto.
Qed.

Lemma run_ret {A : Type} (r : A) (w : World) : run net (Ret r) w = (Returned r, w).
Proof. reflexivity. Qed.

Lemma run_dateNow (w : World) : run net dateNow w = (Returned (now w), w).
Proof. reflexivity. Qed.

Lemma run_delay (ms : Z) (w : World) :
  run net (delay ms) w = (Returned (), tick ms [EvTimer ms] w).
Proof. reflexivity. Qed.

Lemma run_safeFetch (req : Request) (t : Z) (w : World) :
  run net (safeFetch req t) w =
  (Returned (settleBody (net req (now w)) t),
   tick (settleTime (net req (now w)) t) [EvFetch req] w).
Proof. reflexivity. Qed.

Lemma settleTime_range (r : Reply) (t : Z) : 0 <= t -> 0 <= settleTime r t <= t.
Proof.
  intros Ht. unfold settleTime. destruct (latency r <? t) eqn:E.
  - apply Z.ltb_lt in E. lia.
  - lia.
Qed.

End RunFacts.

(* ================================================================== *)
(** * Properties of the scrape cache *)
(* ================================================================== *)

Section ScrapeFacts.
Import Units Js Model Server ServerV2.
Local Open Scope Z_scope.

Context (net : Net) (cfg : StationConfig) (dayOffset : option Z) (dateStr : string).

(** ** Vocabulary of the specification *)

(** One pass over the targets, as the log shows it: for every target, in
    the order of the registry, a timer of 1500 ms and then its query. *)
Definition scrapeSequence (sites : list ScrapeTarget) : list Event :=
  flat_map (fun site => [EvTimer 1500; EvFetch (queryFor cfg dayOffset dateStr site)]) sites.

(** The time at which a pass that starts at [t] ends, and what it collects. *)
Fixpoint loopEnd (sites : list ScrapeTarget) (t : Z) : Z :=
  match sites with
  | [] => t
  | site :: rest =>
      let r := net (queryFor cfg dayOffset dateStr site) (t + 1500) in
      loopEnd rest (t + 1500 + settleTime r 10000)
  end.

Fixpoint loopOut (sites : list ScrapeTarget) (scraped : list Source) (t : Z) : list Source :=
  match sites with
  | [] => scraped
  | site :: rest =>
      let r := net (queryFor cfg dayOffset dateStr site) (t + 1500) in
      loopOut rest (scraped ++ siteSources cfg dayOffset site (settleBody r 10000))
              (t + 1500 + settleTime r 10000)
  end.

(** No entry under [key], or one that is [CACHE_TTL] old or older. *)
Definition cacheMiss (w : World) (key : string) : Prop :=
  match CACHE w !! key with
  | Some e => CACHE_TTL <= now w - ts e
  | None => True
  end.

(** The world with the entry under [key] removed. *)
Definition forget (key : string) (w : World) : World :=
  {| now := now w; CACHE := delete key (CACHE w); log := log w |}.

(** ** The loop *)

Lemma run_scrapeLoop (sites : list ScrapeTarget) (scraped : list Source) (w : World) :
  run net (scrapeLoop cfg dayOffset dateStr sites scraped) w =
  (Returned (loopOut sites scraped (now w)),
   {| now := loopEnd sites (now w); CACHE := CACHE w;
      log := log w ++ scrapeSequence sites |}).
Proof.
  revert scraped w. induction sites as [| site rest IH]; intros scraped w.
  - simpl. rewrite app_nil_r. destruct w; reflexivity.
  - cbn [scrapeLoop]. rewrite run_bind, run_delay, run_bind, run_safeFetch, IH.
    simpl. rewrite <- !app_assoc. reflexivity.
Qed.

Lemma run_populate (sites : list ScrapeTarget) (w : World) :
  run net (populate cfg dayOffset dateStr sites) w =
  (Returned (loopOut sites [] (now w)),
   {| now := loopEnd sites (now w);
      CACHE := <[cacheKeyOf cfg dayOffset dateStr :=
                   {| ts := loopEnd sites (now w); data := loopOut sites [] (now w) |}]> (CACHE w);
      log := log w ++ scrapeSequence sites |}).
Proof.
  unfold populate. rewrite run_bind, run_scrapeLoop, run_bind, run_dateNow. reflexivity.
Qed.

Lemma loopEnd_ge (sites : list ScrapeTarget) (t : Z) : t + 1500 * Z.of_nat (length sites) <= loopEnd sites t.
Proof.
  revert t. induction sites as [| site rest IH]; intros t; simpl loopEnd.
  - simpl. lia.
  - specialize (IH (t + 1500 + settleTime (net (queryFor cfg dayOffset dateStr site) (t + 1500)) 10000)).
    pose proof (settleTime_range (net (queryFor cfg dayOffset dateStr site) (t + 1500)) 10000).
    rewrite length_cons. lia.
Qed.

(** A failed request adds nothing to what the pass collects. *)
Lemma siteSources_failed (site : ScrapeTarget) : siteSources cfg dayOffset site None = [].
Proof. reflexivity. Qed.

(** ** The cache in front of the loop *)

Lemma run_scrape_hit (sites : list ScrapeTarget) (w : World) (e : CacheEntry) :
  scrapperUrls cfg = Some sites ->
  isoDate (addDays (Some (now w)) dayOffset) = Some dateStr ->
  CACHE w !! cacheKeyOf cfg dayOffset dateStr = Some e ->
  now w - ts e < CACHE_TTL ->
  run net (scrapeForecastForDay cfg dayOffset) w = (Returned (data e), w).
Proof.
  intros Hs Hd He Hfresh. unfold scrapeForecastForDay. rewrite Hs. cbn [run].
  rewrite Hd. cbn [run]. rewrite He. cbn [run].
  apply Z.ltb_lt in Hfresh. rewrite Hfresh. reflexivity.
Qed.

Lemma run_scrape_miss (sites : list ScrapeTarget) (w : World) :
  scrapperUrls cfg = Some sites ->
  isoDate (addDays (Some (now w)) dayOffset) = Some dateStr ->
  cacheMiss w (cacheKeyOf cfg dayOffset dateStr) ->
  run net (scrapeForecastForDay cfg dayOffset) w = run net (populate cfg dayOffset dateStr sites) w.
Proof.
  intros Hs Hd Hmiss. unfold scrapeForecastForDay. rewrite Hs. cbn [run].
  rewrite Hd. cbn [run]. unfold cacheMiss in Hmiss.
  destruct (CACHE w !! cacheKeyOf cfg dayOffset dateStr) as [e |]; [| reflexivity].
  cbn [run]. apply Z.ltb_ge in Hmiss. rewrite Hmiss. reflexivity.
Qed.

Lemma run_scrape_invalid_date (sites : list ScrapeTarget) (w : World) :
  scrapperUrls cfg = Some sites ->
  isoDate (addDays (Some (now w)) dayOffset) = None ->
  run net (scrapeForecastForDay cfg dayOffset) w = (Thrown RangeError, w).
Proof.
  intros Hs Hd. unfold scrapeForecastForDay. rewrite Hs. cbn [run]. rewrite Hd. reflexivity.
Qed.

End ScrapeFacts.

(** ** Concrete worlds used to exercise the statements *)

Module Examples.
Import Model.
Local Open Scope string_scope.
Local Open Scope Z_scope.

(** 2026-11-01T00:00:00Z *)
Definition t0 : Z := 1793520000000.

(** A network on which every request fails after 100 ms. *)
Definition netDown : Net := fun _ _ => {| latency := 100; body := None |}.

(** An idle server with an empty cache. *)
Definition w0 : World := {| now := t0; CACHE := ∅; log := [] |}.

(** The Dallas key for today, populated one second ago with no source. *)
Definition wCached : World :=
  {| now := t0;
     CACHE := {[ "DALLAS_0_2026-11-01" := {| ts := t0 - 1000; data := [] |} ]};
     log := [] |}.

Definition dallasSites : list ScrapeTarget :=
  [ {| site_id := "weather_chan"; site_name := "Weather Channel";
       site_url := "https://weather.com/weather/today/l/Dallas+TX" |} ].

End Examples.

Section ScrapeClaims.
Import Units Js Model Server ServerV2.
Local Open Scope Z_scope.

Definition delaysIn (evs : list Event) : list Z :=
  flat_map (fun e => match e with EvTimer ms => [ms] | _ => [] end) evs.

Lemma scrapeSequence_requests cfg d ds (sites : list ScrapeTarget) :
  Concurrent.requestsIn (scrapeSequence cfg d ds sites) = queryFor cfg d ds <$> sites.
Proof.
  induction sites as [| site rest IH]; [reflexivity |].
  simpl. f_equal. exact IH.
Qed.

Lemma scrapeSequence_delays cfg d ds (sites : list ScrapeTarget) :
  delaysIn (scrapeSequence cfg d ds sites) = replicate (length sites) 1500.
Proof.
  induction sites as [| site rest IH]; [reflexivity |].
  simpl. f_equal. exact IH.
Qed.

(** C6, as amended.  On a cache miss the pass sends exactly one query per
    configured target, in the order of the registry, and sets a timer of
    1500 ms before every query, the first included: n delays for n
    targets. *)
Theorem C6_one_query_per_target_after_a_delay
    (net : Net) (cfg : StationConfig) (dayOffset : option Z) (dateStr : string)
    (sites : list ScrapeTarget) (w : World) :
  scrapperUrls cfg = Some sites ->
  isoDate (addDays (Some (now w)) dayOffset) = Some dateStr ->
  cacheMiss w (cacheKeyOf cfg dayOffset dateStr) ->
  exists (out : list Source) (w' : World) (evs : list Event),
    run net (scrapeForecastForDay cfg dayOffset) w = (Returned out, w') /\
    log w' = log w ++ evs /\
    evs = flat_map (fun site => [EvTimer 1500; EvFetch (queryFor cfg dayOffset dateStr site)]) sites /\
    Concurrent.requestsIn evs = queryFor cfg dayOffset dateStr <$> sites /\
    delaysIn evs = replicate (length sites) 1500.
Proof.
  intros Hs Hd Hmiss.
  rewrite (run_scrape_miss net cfg dayOffset dateStr sites w Hs Hd Hmiss), run_populate.
  eexists _, _, (scrapeSequence cfg dayOffset dateStr sites).
  split; [reflexivity |]. split; [reflexivity |]. split; [reflexivity |].
  split; [apply scrapeSequence_requests | apply scrapeSequence_delays].
Qed.

Lemma C6_one_query_per_target_after_a_delay_witness :
  exists (out : list Source) (w' : World) (evs : list Event),
    run Examples.netDown (scrapeForecastForDay dallas (Some 0)) Examples.w0 = (Returned out, w') /\
    log w' = log Examples.w0 ++ evs /\
    evs = flat_map (fun site => [EvTimer 1500;
                                 EvFetch (queryFor dallas (Some 0) "2026-11-01" site)])
                   Examples.dallasSites /\
    Concurrent.requestsIn evs = queryFor dallas (Some 0) "2026-11-01" <$> Examples.dallasSites /\
    delaysIn evs = replicate (length Examples.dallasSites) 1500.
Proof.
  apply (C6_one_query_per_target_after_a_delay
           Examples.netDown dallas (Some 0) "2026-11-01" Examples.dallasSites Examples.w0).
  - reflexivity.
  - vm_compute. reflexivity.
  - vm_compute. exact I.
Defined.

(** C6 fails as stated: with the single target of Dallas the pass sets one
    timer, where n - 1 would be none, and that timer precedes the first
    query. *)
Lemma C6_delay_counterexample :
  let w' := snd (run Examples.netDown (scrapeForecastForDay dallas (Some 0)) Examples.w0) in
  log w' = [ EvTimer 1500;
             EvFetch (ReqBrave "Weather Channel DALLAS forecast high max temperature Today 2026-11-01" 5) ] /\
  length (delaysIn (log w')) <> (length Examples.dallasSites - 1)%nat /\
  head (log w') = Some (EvTimer 1500).
Proof.
  vm_compute. split; [reflexivity |]. split; [discriminate | reflexivity].
Qed.

(** C4.  An entry stored at [ts e] under the key of the request is served
    as it is, with nothing sent, while the request time is before
    [ts e + CACHE_TTL]; from then on the request runs as if the entry were
    not there: a full pass, whose result replaces the entry. *)
Theorem C4_cache_entry_valid_for_ttl
    (net : Net) (cfg : StationConfig) (dayOffset : option Z) (dateStr : string)
    (sites : list ScrapeTarget) (e : CacheEntry) (w : World) :
  scrapperUrls cfg = Some sites ->
  isoDate (addDays (Some (now w)) dayOffset) = Some dateStr ->
  CACHE w !! cacheKeyOf cfg dayOffset dateStr = Some e ->
  let key := cacheKeyOf cfg dayOffset dateStr in
  run net (scrapeForecastForDay cfg dayOffset) w =
    (if now w <? ts e + CACHE_TTL
     then (Returned (data e), w)
     else run net (scrapeForecastForDay cfg dayOffset) (forget key w)) /\
  exists (out : list Source) (tEnd : Z),
    run net (scrapeForecastForDay cfg dayOffset) (forget key w) =
      (Returned out,
       {| now := tEnd;
          CACHE := <[key := {| ts := tEnd; data := out |}]> (CACHE w);
          log := log w ++ scrapeSequence cfg dayOffset dateStr sites |}) /\
    now w + 1500 * Z.of_nat (length sites) <= tEnd.
Proof.
  intros Hs Hd He key.
  assert (Hforget : run net (scrapeForecastForDay cfg dayOffset) (forget key w) =
            (Returned (loopOut net cfg dayOffset dateStr sites [] (now w)),
             {| now := loopEnd net cfg dayOffset dateStr sites (now w);
                CACHE := <[key := {| ts := loopEnd net cfg dayOffset dateStr sites (now w);
                                     data := loopOut net cfg dayOffset dateStr sites [] (now w) |}]>
                           (CACHE w);
                log := log w ++ scrapeSequence cfg dayOffset dateStr sites |})).
  { rewrite (run_scrape_miss net cfg dayOffset dateStr sites (forget key w) Hs Hd).
    - rewrite run_populate. simpl. fold key. rewrite insert_delete_eq. reflexivity.
    - unfold cacheMiss, forget. simpl. fold key. rewrite lookup_delete_eq. exact I. }
  split.
  - destruct (now w <? ts e + CACHE_TTL) eqn:E.
    + apply Z.ltb_lt in E.
      apply (run_scrape_hit net cfg dayOffset dateStr sites w e Hs Hd He). lia.
    + apply Z.ltb_ge in E. rewrite Hforget.
      rewrite (run_scrape_miss net cfg dayOffset dateStr sites w Hs Hd).
      * rewrite run_populate. reflexivity.
      * unfold cacheMiss. rewrite He. lia.
  - eexists _, _. split; [exact Hforget |]. apply loopEnd_ge.
Qed.

Lemma C4_cache_entry_valid_for_ttl_witness :
  let key := cacheKeyOf dallas (Some 0) "2026-11-01" in
  run Examples.netDown (scrapeForecastForDay dallas (Some 0)) Examples.wCached =
    (if now Examples.wCached <? ts {| ts := Examples.t0 - 1000; data := [] |} + CACHE_TTL
     then (Returned (data {| ts := Examples.t0 - 1000; data := [] |}), Examples.wCached)
     else run Examples.netDown (scrapeForecastForDay dallas (Some 0)) (forget key Examples.wCached)) /\
  exists (out : list Source) (tEnd : Z),
    run Examples.netDown (scrapeForecastForDay dallas (Some 0)) (forget key Examples.wCached) =
      (Returned out,
       {| now := tEnd;
          CACHE := <[key := {| ts := tEnd; data := out |}]> (CACHE Examples.wCached);
          log := log Examples.wCached ++ scrapeSequence dallas (Some 0) "2026-11-01" Examples.dallasSites |}) /\
    now Examples.wCached + 1500 * Z.of_nat (length Examples.dallasSites) <= tEnd.
Proof.
  apply (C4_cache_entry_valid_for_ttl Examples.netDown dallas (Some 0) "2026-11-01"
           Examples.dallasSites {| ts := Examples.t0 - 1000; data := [] |} Examples.wCached).
  - reflexivity.
  - vm_compute. reflexivity.
  - vm_compute. reflexivity.
Defined.

End ScrapeClaims.

(* ================================================================== *)
(** * Properties of the aggregate route *)
(* ================================================================== *)

Section RouteFacts.
Import Units Js Model Server.
Local Open Scope Z_scope.

Context (net : Net).

(** ** Vocabulary of the specification *)

(** What the adapters whose request succeeded at [t0] produce, in the order
    the handler declares the adapters. *)
Definition succeededSources (t0 : Z) (tasks : list Task) : list Source :=
  flat_map (fun task =>
              match settleBody (net (request task) t0) (timeoutMs task) with
              | Some p => onPayload task p
              | None => []
              end) tasks.


(** ** The fan-out *)

Lemma insertByTime_perm x l : Permutation (insertByTime x l) (x :: l).
Proof.
  induction l as [| y l IH]; simpl; [reflexivity |].
  destruct (fst x <? fst y); [reflexivity |].
  rewrite IH. apply perm_swap.
Qed.

Lemma byTime_perm l : Permutation (byTime l) l.
Proof.
  unfold byTime. induction l as [| x l IH]; simpl; [reflexivity |].
  rewrite insertByTime_perm. apply Permutation_cons; [reflexivity | exact IH].
Qed.

Lemma pushed_in_order (pre tasks : list Task) (t0 : Z) :
  pushed (pre ++ tasks)
    (snd <$> imap (fun i rq =>
                     let r := net (fst rq) t0 in
                     (settleTime r (snd rq), ((length pre + i)%nat, settleBody r (snd rq))))
                  ((fun t => (request t, timeoutMs t)) <$> tasks))
  = succeededSources t0 tasks.
Proof.
  revert pre. induction tasks as [| task tasks IH]; intros pre; [reflexivity |].
  unfold pushed, succeededSources in *. cbn [fmap list_fmap imap flat_map fst snd].
  f_equal.
  - rewrite Nat.add_0_r, list_lookup_middle by reflexivity. reflexivity.
  - specialize (IH (pre ++ [task])). rewrite <- app_assoc in IH. cbn [app] in IH.
    rewrite <- IH. f_equal. f_equal. apply imap_ext. intros i rq _.
    cbn. rewrite length_app. cbn. do 2 f_equal. lia.
Qed.

Lemma pushed_perm (tasks : list Task) (l1 l2 : list (nat * option Payload)) :
  Permutation l1 l2 -> Permutation (pushed tasks l1) (pushed tasks l2).
Proof. intros HP. unfold pushed. apply Permutation_flat_map, HP. Qed.

(** After [await Promise.all(tasks)], [sources] holds what the adapters that
    succeeded pushed, in the order in which they settled. *)
Lemma run_awaitAll (tasks : list Task) (w : World) :
  exists (srcs : list Source) (dt : Z),
    run net (awaitAll tasks) w =
      (Returned srcs, tick dt (EvFetch ∘ request <$> tasks) w) /\
    Permutation srcs (succeededSources (now w) tasks) /\
    dt = lastSettle (settlements net (now w) ((fun t => (request t, timeoutMs t)) <$> tasks)).
Proof.
  unfold awaitAll. cbn [run]. eexists _, _. split; [| split; [| reflexivity]].
  - f_equal. unfold tick. f_equal. f_equal. rewrite <- list_fmap_compose. reflexivity.
  - rewrite <- (pushed_in_order [] tasks (now w)). cbn [app].
    apply pushed_perm. apply fmap_Permutation. apply byTime_perm.
Qed.


(** ** Looking the city up *)

Lemma getProp_own {A : Type} (obj : gmap string A) (key : string) (a : A) :
  obj !! key = Some a -> getProp obj key = Own a.
Proof. intros H. unfold getProp. rewrite H. reflexivity. Qed.

Lemma getProp_unknown {A : Type} (obj : gmap string A) (key : string) :
  obj !! key = None -> key ∉ objectPrototypeKeys -> getProp obj key = Undefined.
Proof.
  intros H Hn. unfold getProp. rewrite H.
  rewrite bool_decide_eq_false_2 by exact Hn. reflexivity.
Qed.

Lemma getProp_inherited {A : Type} (obj : gmap string A) (key : string) :
  obj !! key = None -> key ∈ objectPrototypeKeys -> getProp obj key = Inherited.
Proof.
  intros H Hn. unfold getProp. rewrite H.
  rewrite bool_decide_eq_true_2 by exact Hn. reflexivity.
Qed.

(** ** server.js *)


Lemma routeV1_unknown (param : string) (w : World) :
  ServerV1.STATIONS !! toLowerCase param = None ->
  toLowerCase param ∉ objectPrototypeKeys ->
  run net (ServerV1.route param) w = (Returned (Status400 "Unknown city"), w).
Proof.
  intros Hk Hn. unfold ServerV1.route. rewrite (getProp_unknown _ _ Hk Hn). reflexivity.
Qed.

Lemma routeV1_inherited (param : string) (w : World) :
  ServerV1.STATIONS !! toLowerCase param = None ->
  toLowerCase param ∈ objectPrototypeKeys ->
  run net (ServerV1.route param) w = (Thrown TypeError, w).
Proof.
  intros Hk Hn. unfold ServerV1.route. rewrite (getProp_inherited _ _ Hk Hn). reflexivity.
Qed.

End RouteFacts.

Section RouteV2Facts.
Import Units Js Model Server ServerV2.
Local Open Scope Z_scope.

Context (net : Net).

(** ** Vocabulary of the specification *)

(** The target date of offset [z] exists for a fan-out that starts at [t]
    (the fan-out takes at most its timeout of 15000 ms). *)
Definition representable (t z : Z) : Prop :=
  Z.abs t + 15000 + Z.abs z * msPerDay <= maxTimeValue.

(** The replies a pass that starts at [t] gets, one per target. *)
Fixpoint loopReplies (cfg : StationConfig) (d : option Z) (ds : string)
    (sites : list ScrapeTarget) (t : Z) : list (option Payload) :=
  match sites with
  | [] => []
  | site :: rest =>
      let r := net (queryFor cfg d ds site) (t + 1500) in
      settleBody r 10000 :: loopReplies cfg d ds rest (t + 1500 + settleTime r 10000)
  end.

(** What [scrapeForecastForDay] hands to a request that reaches it in world
    [w1] on a date that exists: the entry of the key while it is fresh, the
    result of a pass otherwise. *)
Definition scrapeResult (cfg : StationConfig) (d : option Z) (w1 : World) : list Source :=
  match scrapperUrls cfg, isoDate (addDays (Some (now w1)) d) with
  | Some sites, Some ds =>
      match CACHE w1 !! cacheKeyOf cfg d ds with
      | Some e =>
          if now w1 - ts e <? CACHE_TTL then data e
          else loopOut net cfg d ds sites [] (now w1)
      | None => loopOut net cfg d ds sites [] (now w1)
      end
  | _, _ => []
  end.

(** ** Facts *)

(** A pass collects, target by target, what each reply yields; a target
    whose request failed yields nothing. *)
Lemma loopOut_replies cfg d ds (sites : list ScrapeTarget) (scraped : list Source) (t : Z) :
  loopOut net cfg d ds sites scraped t =
  scraped ++ flat_map (fun sr => siteSources cfg d (fst sr) (snd sr))
                      (zip sites (loopReplies cfg d ds sites t)).
Proof.
  revert scraped t. induction sites as [| site rest IH]; intros scraped t; simpl.
  - rewrite app_nil_r. reflexivity.
  - rewrite IH, <- app_assoc. reflexivity.
Qed.

Lemma isoDate_Some (t : Z) : exists ds, isoDate (Some t) = Some ds.
Proof. unfold isoDate. destruct (civil (t / msPerDay)) as [[y m] dd]. eauto. Qed.

Lemma addDays_representable (t dt z : Z) :
  representable t z -> 0 <= dt <= 15000 ->
  addDays (Some (t + dt)) (Some z) = Some (t + dt + z * msPerDay).
Proof.
  unfold representable, addDays, timeClip, msPerDay, maxTimeValue. intros H Hdt.
  destruct (Z.abs (t + dt + z * 86400000) <=? 8640000000000000) eqn:E; [reflexivity |].
  apply Z.leb_gt in E. lia.
Qed.

Lemma addDays_NaN (d : Date) : addDays d None = None.
Proof. destruct d; reflexivity. Qed.

Lemma run_scrape_returns (cfg : StationConfig) (d : option Z) (w1 : World) :
  isoDate (addDays (Some (now w1)) d) <> None ->
  exists w2, run net (scrapeForecastForDay cfg d) w1 = (Returned (scrapeResult cfg d w1), w2).
Proof.
  intros Hd. unfold scrapeResult.
  destruct (scrapperUrls cfg) as [sites |] eqn:Hs.
  - destruct (isoDate (addDays (Some (now w1)) d)) as [ds |] eqn:Hds; [| contradiction].
    destruct (CACHE w1 !! cacheKeyOf cfg d ds) as [e |] eqn:He.
    + destruct (now w1 - ts e <? CACHE_TTL) eqn:E.
      * apply Z.ltb_lt in E. rewrite (run_scrape_hit net cfg d ds sites w1 e Hs Hds He E). eauto.
      * apply Z.ltb_ge in E. rewrite (run_scrape_miss net cfg d ds sites w1 Hs Hds).
        -- rewrite run_populate. eauto.
        -- unfold cacheMiss. rewrite He. exact E.
    + rewrite (run_scrape_miss net cfg d ds sites w1 Hs Hds).
      * rewrite run_populate. eauto.
      * unfold cacheMiss. rewrite He. exact I.
  - unfold scrapeForecastForDay. rewrite Hs. cbn. eauto.
Qed.

Lemma fanout_duration (cfg : StationConfig) (d : option Z) (t : Z) :
  0 <= lastSettle (settlements net t ((fun k => (request k, timeoutMs k)) <$> tasksOf cfg d)) <= 15000.
Proof.
  cbn. pose proof (settleTime_range
    (net (ReqOpenMeteo (lat cfg) (lon cfg) (openMeteoModels cfg) (timezone cfg)) t) 15000).
  lia.
Qed.

(** The world in which the handler reaches the cache: after the fan-out. *)
Definition afterFanout (cfg : StationConfig) (d : option Z) (w : World) : World :=
  tick (lastSettle (settlements net (now w) ((fun k => (request k, timeoutMs k)) <$> tasksOf cfg d)))
       (EvFetch ∘ request <$> tasksOf cfg d) w.

Lemma routeV2_known (param : string) (q : option string) (cfg : StationConfig) (w : World) :
  STATIONS !! toLowerCase param = Some cfg ->
  isoDate (addDays (Some (now (afterFanout cfg (dayOffsetOf q) w))) (dayOffsetOf q)) <> None ->
  exists (report : Report) (w' : World),
    run net (route param q) w = (Returned (Json200 report), w') /\
    Permutation (sources report)
      (succeededSources net (now w) (tasksOf cfg (dayOffsetOf q))
       ++ scrapeResult cfg (dayOffsetOf q) (afterFanout cfg (dayOffsetOf q) w)) /\
    city report = toLowerCase param /\ station report = icao cfg /\ report_unit report = unit cfg.
Proof.
  intros Hk Hd. unfold route. rewrite (getProp_own _ _ _ Hk).
  destruct (run_awaitAll net (tasksOf cfg (dayOffsetOf q)) w) as (srcs & dt & Hrun & Hperm & Hdt).
  rewrite run_bind, Hrun. subst dt. fold (afterFanout cfg (dayOffsetOf q) w).
  destruct (run_scrape_returns cfg (dayOffsetOf q) _ Hd) as [w2 Hs].
  rewrite run_bind, Hs, run_bind, run_dateNow, run_ret.
  eexists _, _. split; [reflexivity |]. cbn [sources city station report_unit].
  split; [apply Permutation_app_tail, Hperm | auto].
Qed.

Lemma routeV2_invalid_date (param : string) (q : option string) (cfg : StationConfig)
    (sites : list ScrapeTarget) (w : World) :
  STATIONS !! toLowerCase param = Some cfg ->
  scrapperUrls cfg = Some sites ->
  isoDate (addDays (Some (now (afterFanout cfg (dayOffsetOf q) w))) (dayOffsetOf q)) = None ->
  fst (run net (route param q) w) = Thrown RangeError.
Proof.
  intros Hk Hs Hd. unfold route. rewrite (getProp_own _ _ _ Hk).
  destruct (run_awaitAll net (tasksOf cfg (dayOffsetOf q)) w) as (srcs & dt & Hrun & Hperm & Hdt).
  rewrite run_bind, Hrun. subst dt. fold (afterFanout cfg (dayOffsetOf q) w).
  rewrite run_bind, (run_scrape_invalid_date net cfg (dayOffsetOf q) sites _ Hs Hd).
  reflexivity.
Qed.

Lemma routeV2_representable (param : string) (q : option string) (cfg : StationConfig)
    (z : Z) (w : World) :
  STATIONS !! toLowerCase param = Some cfg ->
  dayOffsetOf q = Some z ->
  representable (now w) z ->
  exists (report : Report) (w' : World),
    run net (route param q) w = (Returned (Json200 report), w') /\
    Permutation (sources report)
      (succeededSources net (now w) (tasksOf cfg (Some z))
       ++ scrapeResult cfg (Some z) (afterFanout cfg (Some z) w)) /\
    city report = toLowerCase param /\ station report = icao cfg /\ report_unit report = unit cfg.
Proof.
  intros Hk Hq Hr.
  destruct (routeV2_known param q cfg w Hk) as (report & w' & H); [| rewrite Hq in H; eauto].
  rewrite Hq. unfold afterFanout, tick. cbn [now].
  rewrite (addDays_representable _ _ _ Hr (fanout_duration cfg (Some z) (now w))).
  destruct (isoDate_Some (now w
     + lastSettle (settlements net (now w) ((fun k => (request k, timeoutMs k)) <$> tasksOf cfg (Some z)))
     + z * msPerDay)) as [ds Hds].
  rewrite Hds. discriminate.
Qed.

End RouteV2Facts.

Section RouteClaims.
Import Units Js Model Server Assemble.
Local Open Scope Z_scope.

(** ** Vocabulary of the specification *)







(** ** The day offset *)

Lemma at_index_outside {A : Type} (l : list A) (z : Z) :
  z < 0 \/ Z.of_nat (length l) <= z -> at_index l (Some z) = None.
Proof.
  intros H. unfold at_index. destruct (z <? 0) eqn:E; [reflexivity |].
  apply Z.ltb_ge in E. apply lookup_ge_None. lia.
Qed.

Lemma openMeteoSources_at_offset (cfg : StationConfig) (d : option Z)
    (series : gmap string (list (option Q))) (models : list string) :
  Forall (fun s => type s = model /\
                   exists m vals, series !! ("temperature_2m_max_" +:+ m) = Some vals /\
                                  temp_c s = mjoin (at_index vals d) /\
                                  temp_f s = cToF (temp_c s))
         (ServerV2.openMeteoSources cfg d series models).
Proof.
  induction models as [| m rest IH]; simpl; [constructor |].
  destruct (series !! ("temperature_2m_max_" +:+ m)) as [vals |] eqn:E; [| exact IH].
  constructor; [| exact IH]. simpl. split; [reflexivity |]. exists m, vals. auto.
Qed.

(** C10, as amended.  The route does not check the range of the day
    offset: for a city of the registry and any integer offset whose target
    date exists, inside or outside 0..2, it returns a report.  A model
    source then carries the value its series has at that index, none
    outside the series, and the queries carry the day label at that index,
    none outside 0..2. *)
Theorem C10_integer_day_offset_is_not_validated
    (net : Net) (param : string) (q : option string)
    (cfg : StationConfig) (z : Z) (w : World) :
  ServerV2.STATIONS !! toLowerCase param = Some cfg ->
  ServerV2.dayOffsetOf q = Some z ->
  representable (now w) z ->
  (exists (report : Report) (w' : World),
     run net (ServerV2.route param q) w = (Returned (Json200 report), w') /\
     city report = toLowerCase param /\ station report = icao cfg) /\
  (forall series models,
     Forall (fun s => exists m vals,
                        series !! ("temperature_2m_max_" +:+ m) = Some vals /\
                        temp_c s = mjoin (at_index vals (Some z)) /\
                        (z < 0 \/ Z.of_nat (length vals) <= z -> temp_c s = None))
            (ServerV2.openMeteoSources cfg (Some z) series models)) /\
  (~ (0 <= z <= 2) -> at_index ServerV2.dayLabels (Some z) = None).
Proof.
  intros Hk Hq Hr. split; [| split].
  - destruct (routeV2_representable net param q cfg z w Hk Hq Hr)
      as (report & w' & Hrun & _ & Hc & Hs & _).
    exists report, w'. auto.
  - intros series models.
    eapply Forall_impl; [apply openMeteoSources_at_offset |].
    intros s (_ & m & vals & Hv & Hc & _). exists m, vals.
    split; [exact Hv |]. split; [exact Hc |].
    intros Hout. rewrite Hc, (at_index_outside vals z Hout). reflexivity.
  - intros Hout. apply at_index_outside. simpl. lia.
Qed.

Lemma C10_integer_day_offset_is_not_validated_witness :
  (exists (report : Report) (w' : World),
     run Examples.netDown (ServerV2.route "miami" (Some "-3")) Examples.w0
       = (Returned (Json200 report), w') /\
     city report = toLowerCase "miami" /\ station report = icao ServerV2.miami) /\
  (forall series models,
     Forall (fun s => exists m vals,
                        series !! ("temperature_2m_max_" +:+ m) = Some vals /\
                        temp_c s = mjoin (at_index vals (Some (-3))) /\
                        (-3 < 0 \/ Z.of_nat (length vals) <= -3 -> temp_c s = None))
            (ServerV2.openMeteoSources ServerV2.miami (Some (-3)) series models)) /\
  (~ (0 <= -3 <= 2) -> at_index ServerV2.dayLabels (Some (-3)) = None).
Proof.
  apply (C10_integer_day_offset_is_not_validated Examples.netDown "miami" (Some "-3")
           ServerV2.miami (-3) Examples.w0).
  - vm_compute. reflexivity.
  - vm_compute. reflexivity.
  - vm_compute. discriminate.
Defined.

(** A day value [parseInt] cannot read makes the handler raise. *)
Lemma routeV2_unparsable_day (net : Net) (param : string) (q : option string)
    (cfg : StationConfig) (sites : list ScrapeTarget) (w : World) :
  ServerV2.STATIONS !! toLowerCase param = Some cfg ->
  scrapperUrls cfg = Some sites ->
  ServerV2.dayOffsetOf q = None ->
  fst (run net (ServerV2.route param q) w) = Thrown RangeError.
Proof.
  intros Hk Hs Hq. apply (routeV2_invalid_date net param q cfg sites w Hk Hs).
  rewrite Hq. reflexivity.
Qed.

(** C10 fails as stated for a value that is not a number: [?day=abc] is
    read as NaN, the target date is invalid and [toISOString] raises, so
    no report is returned.  The same happens for an integer far enough
    away that the target date does not exist. *)
Lemma C10_unparsable_day_counterexample :
  ServerV2.STATIONS !! "london" = Some ServerV2.london /\
  ServerV2.dayOffsetOf (Some "abc") = None /\
  fst (run Examples.netDown (ServerV2.route "london" (Some "abc")) Examples.w0)
    = Thrown RangeError /\
  ServerV2.dayOffsetOf (Some "200000000") = Some 200000000 /\
  fst (run Examples.netDown (ServerV2.route "london" (Some "200000000")) Examples.w0)
    = Thrown RangeError.
Proof. vm_compute. repeat split; reflexivity. Qed.

(** ** Unknown cities *)

Lemma routeV2_unknown (net : Net) (param : string) (q : option string) (w : World) :
  ServerV2.STATIONS !! toLowerCase param = None ->
  toLowerCase param ∉ objectPrototypeKeys ->
  run net (ServerV2.route param q) w = (Returned (Status400 "Unknown city"), w).
Proof.
  intros Hk Hn. unfold ServerV2.route. rewrite (getProp_unknown _ _ Hk Hn). reflexivity.
Qed.

Example atlantis_is_rejected (net : Net) (w : World) :
  run net (ServerV1.route "atlantis") w = (Returned (Status400 "Unknown city"), w) /\
  run net (ServerV2.route "atlantis" (Some "0")) w = (Returned (Status400 "Unknown city"), w).
Proof. split; reflexivity. Qed.

(** C2 at the input on which the code departs from it.  The key
    [constructor] is not in the registry, yet [STATIONS[city]] finds the
    inherited [Object.prototype.constructor], the guard [if (!cfg)] lets it
    through, and [cfg.openMeteoModels.join] raises a TypeError: no client
    error is sent.  The same holds for [__proto__]. *)
Lemma C2_inherited_key_is_not_rejected :
  ServerV1.STATIONS !! "constructor" = None /\
  ServerV2.STATIONS !! "constructor" = None /\
  (forall (net : Net) (w : World),
     run net (ServerV1.route "constructor") w = (Thrown TypeError, w) /\
     run net (ServerV1.route "__proto__") w = (Thrown TypeError, w)) /\
  (forall (net : Net) (q : option string) (w : World),
     run net (ServerV2.route "constructor" q) w = (Thrown TypeError, w) /\
     run net (ServerV2.route "__proto__" q) w = (Thrown TypeError, w)).
Proof.
  split; [vm_compute; reflexivity |]. split; [vm_compute; reflexivity |].
  split; intros; split; reflexivity.
Qed.

End RouteClaims.

(* ================================================================== *)
(** * Properties of the adapters *)
(* ================================================================== *)

Section AdapterFacts.
Import Units Js Model Server.
Local Open Scope Z_scope.

(** ** Vocabulary of the specification *)

(** A temperature pair is consistent when, both fields being present, one
    is the one-decimal conversion of the other. *)
Definition Consistent (c f : option Q) : Prop :=
  match c, f with
  | Some c', Some f' => (f' == cToF_num c')%Q \/ (c' == fToC_num f')%Q
  | _, _ => True
  end.

(** Every pair a source carries is consistent: its own, those of its
    forecasts and those of its daily maxima. *)
Definition SourceConsistent (s : Source) : Prop :=
  Consistent (temp_c s) (temp_f s) /\
  (forall fcs, forecasts s = Some fcs ->
     Forall (fun fc => Consistent (fc_temp_c fc) (fc_temp_f fc)) fcs) /\
  (forall dm, dailyMax s = Some dm ->
     map_Forall (fun _ e => Consistent (pair_c e) (pair_f e)) dm).

(** ** Facts *)

Lemma Consistent_cToF (c : option Q) : Consistent c (cToF c).
Proof. destruct c as [c |]; simpl; [left; reflexivity | exact I]. Qed.

Lemma Consistent_fToC (f : option Q) : Consistent (fToC f) f.
Proof. destruct f as [f |]; simpl; [right; reflexivity | exact I]. Qed.

Lemma flat_consistent (s : Source) :
  Consistent (temp_c s) (temp_f s) -> forecasts s = None -> dailyMax s = None ->
  SourceConsistent s.
Proof.
  intros Hc Hf Hd. split; [exact Hc |]. split.
  - intros fcs H. congruence.
  - intros dm H. congruence.
Qed.

Lemma dailyMaxOf_consistent (days : list string) (series : list (option Q)) :
  map_Forall (fun _ e => Consistent (pair_c e) (pair_f e)) (ServerV1.dailyMaxOf days series).
Proof.
  unfold ServerV1.dailyMaxOf.
  generalize (imap (fun i day => (i, day)) days) as l.
  assert (H0 : map_Forall (fun (_ : string) e => Consistent (pair_c e) (pair_f e))
                          (∅ : gmap string TempPair)) by apply map_Forall_empty.
  revert H0. generalize (∅ : gmap string TempPair) as acc.
  intros acc Hacc l. revert acc Hacc.
  induction l as [| di l IH]; intros acc Hacc; simpl; [exact Hacc |].
  apply IH. apply map_Forall_insert_2; [| exact Hacc].
  simpl. apply Consistent_cToF.
Qed.

Lemma onMetar_consistent (p : Payload) : Forall SourceConsistent (ServerV1.onMetar p).
Proof.
  destruct p as [[| m ?] | | | | | |]; simpl; try constructor.
  destruct (metar_temp m) as [t |]; constructor; [| constructor].
  apply flat_consistent; try reflexivity. simpl. left. reflexivity.
Qed.

Lemma onNwsForecast_consistent (p : Payload) : Forall SourceConsistent (ServerV1.onNwsForecast p).
Proof.
  destruct p as [| | [periods |] | | | |]; simpl; try constructor; [| constructor].
  split; [exact I |]. split; [| intros dm H; discriminate].
  intros fcs H. simpl in H. injection H as <-.
  apply Forall_fmap, Forall_forall. intros per _. simpl. apply Consistent_fToC.
Qed.

Lemma openMeteoV1_consistent (cfg : StationConfig) (p : Payload) :
  Forall SourceConsistent (ServerV1.onOpenMeteo cfg p).
Proof.
  destruct p as [| | | [daily |] | | |]; simpl; try constructor.
  destruct (om_time daily) as [days |]; [| constructor].
  induction (openMeteoModels cfg) as [| m rest IH]; simpl; [constructor |].
  destruct (om_series daily !! _) as [vals |]; [| exact IH].
  destruct (modelLabels cfg !! m) as [label |]; [| constructor].
  constructor; [| exact IH].
  split; [exact I |]. split; [intros fcs H; discriminate |].
  intros dm H. simpl in H. injection H as <-. apply dailyMaxOf_consistent.
Qed.

Lemma onIem_consistent (p : Payload) : Forall SourceConsistent (ServerV1.onIem p).
Proof.
  destruct p as [| | | | [| entry ?] | |]; simpl; try constructor.
  destruct (max_tmpf entry) as [v |]; [| constructor].
  destruct (truthyQ v); constructor; [| constructor].
  apply flat_consistent; try reflexivity. simpl. right. reflexivity.
Qed.

Lemma scrapedToday_consistent (i n : string) (c f : option Q) :
  Consistent c f -> SourceConsistent (ServerV1.scrapedToday i n c f).
Proof.
  intros H. split; [exact I |]. split; [| intros dm Hd; discriminate].
  intros fcs Hf. simpl in Hf. injection Hf as <-. constructor; [exact H | constructor].
Qed.

Lemma onMetOffice_consistent (p : Payload) : Forall SourceConsistent (ServerV1.onMetOffice p).
Proof.
  destruct p as [| | | | | html |]; try (simpl; constructor; fail).
  unfold ServerV1.onMetOffice.
  destruct (ServerV1.extractFirstTemp html _) as [maxC |]; constructor; [| constructor].
  apply scrapedToday_consistent. simpl. left. reflexivity.
Qed.

Lemma onWu_consistent (cfg : StationConfig) (p : Payload) :
  Forall SourceConsistent (ServerV1.onWu cfg p).
Proof.
  destruct p as [| | | | | html |]; try (simpl; constructor; fail).
  unfold ServerV1.onWu.
  destruct (ServerV1.extractFirstTemp html _) as [maxRaw |]; constructor; [| constructor].
  apply scrapedToday_consistent.
  destruct (bool_decide (wuUnit cfg = Some F)); simpl; [right | left]; reflexivity.
Qed.

Lemma openMeteoV2_consistent (cfg : StationConfig) (d : option Z) (p : Payload) :
  Forall SourceConsistent (ServerV2.onOpenMeteo cfg d p).
Proof.
  destruct p as [| | | [daily |] | | |]; simpl; try constructor.
  induction (openMeteoModels cfg) as [| m rest IH]; simpl; [constructor |].
  destruct (om_series daily !! _) as [vals |]; [| exact IH].
  constructor; [| exact IH].
  apply flat_consistent; try reflexivity. simpl. apply Consistent_cToF.
Qed.

Lemma byUnit_consistent (u : Unit) (val : option Q) :
  Consistent (if decide (u = C) then val else fToC val)
             (if decide (u = F) then val else cToF val).
Proof.
  destruct u; simpl; [apply Consistent_cToF | apply Consistent_fToC].
Qed.

Lemma siteSources_consistent (cfg : StationConfig) (d : option Z) (site : ScrapeTarget)
    (reply : option Payload) :
  Forall SourceConsistent (ServerV2.siteSources cfg d site reply).
Proof.
  destruct reply as [[| | | | | | results] |]; try (simpl; constructor; fail).
  unfold ServerV2.siteSources.
  induction (default [] results) as [| res rest IH]; [constructor |].
  cbn [ServerV2.firstHit].
  match goal with
  | |- context [ServerV2.firstMatch ?t ?ps] =>
      destruct (ServerV2.firstMatch t ps) as [m1 |]; [| exact IH]
  end.
  constructor; [| constructor].
  apply flat_consistent; try reflexivity. simpl. apply byUnit_consistent.
Qed.

Lemma scrapedOfResults_consistent (cfg : StationConfig) (z : Z) (ds : string)
    (site : ScrapeTarget) (results : list BraveResult) :
  Forall SourceConsistent (ServerV3.scrapedOfResults cfg z ds site results).
Proof.
  unfold ServerV3.scrapedOfResults.
  destruct (ServerV3.maxTempOf cfg results) as [maxTemp |]; [| constructor].
  destruct (truthyQ maxTemp); constructor; [| constructor].
  apply flat_consistent; try reflexivity. simpl.
  apply (byUnit_consistent (unit cfg) (Some maxTemp)).
Qed.

(** C5, as amended.  Every source of every adapter but the NWS observation
    carries consistent pairs: one field is the one-decimal conversion of
    the other.  The NWS observation rounds the reading for Celsius and
    converts the unrounded reading for Fahrenheit, so its two fields come
    from one reading without one being the conversion of the other. *)
Theorem C5_temperature_pairs_come_from_one_reading :
  (forall p, Forall SourceConsistent (ServerV1.onMetar p)) /\
  (forall p, Forall SourceConsistent (ServerV1.onNwsForecast p)) /\
  (forall cfg p, Forall SourceConsistent (ServerV1.onOpenMeteo cfg p)) /\
  (forall p, Forall SourceConsistent (ServerV1.onIem p)) /\
  (forall p, Forall SourceConsistent (ServerV1.onMetOffice p)) /\
  (forall cfg p, Forall SourceConsistent (ServerV1.onWu cfg p)) /\
  (forall cfg d p, Forall SourceConsistent (ServerV2.onOpenMeteo cfg d p)) /\
  (forall cfg d site reply, Forall SourceConsistent (ServerV2.siteSources cfg d site reply)) /\
  (forall cfg z ds site results,
     Forall SourceConsistent (ServerV3.scrapedOfResults cfg z ds site results)) /\
  (forall p s, In s (ServerV1.onNwsObs p) ->
     exists v : Q, temp_c s = Some (round10 v) /\ temp_f s = cToF (Some v)).
Proof.
  split; [exact onMetar_consistent |].
  split; [exact onNwsForecast_consistent |].
  split; [exact openMeteoV1_consistent |].
  split; [exact onIem_consistent |].
  split; [exact onMetOffice_consistent |].
  split; [exact onWu_consistent |].
  split; [exact openMeteoV2_consistent |].
  split; [exact siteSources_consistent |].
  split; [exact scrapedOfResults_consistent |].
  intros p s Hin.
  destruct p as [| [props |] | | | | |]; simpl in Hin; try contradiction.
  destruct (temperature_value props) as [v |]; simpl in Hin; [| contradiction].
  destruct Hin as [<- | []]. exists v. split; reflexivity.
Qed.

(** C5 fails as stated for the NWS observation: a reading of 21.14 C is
    reported as 21.1 C and 70.1 F, while 21.1 C converts to 70.0 F and
    70.1 F converts to 21.2 C. *)
Lemma C5_nws_observation_counterexample :
  exists s : Source,
    ServerV1.onNwsObs
      (PNwsObs (Some {| temperature_value := Some (2114 # 100); timestamp := None |})) = [s] /\
    temp_c s = Some (211 # 10) /\ temp_f s = Some (701 # 10) /\
    ~ Consistent (temp_c s) (temp_f s).
Proof.
  eexists. split; [reflexivity |]. split; [vm_compute; reflexivity |].
  split; [vm_compute; reflexivity |].
  intros [H | H]; vm_compute in H; discriminate.
Qed.

End AdapterFacts.

(* ================================================================== *)
(** * Properties of interleaved resolutions *)
(* ================================================================== *)

Section ConcurrentFacts.
Import Units Js Model Server ServerV2 Concurrent.
Local Open Scope Z_scope.

(** The list a pass over [sites] builds from the replies to its queries,
    in the order of the queries. *)
Fixpoint collected (cfg : StationConfig) (d : option Z) (sites : list ScrapeTarget)
    (bs : list (option Payload)) : list Source :=
  match sites, bs with
  | site :: rest, b :: bs' => siteSources cfg d site b ++ collected cfg d rest bs'
  | _, _ => []
  end.

(** ** What a piece of code still sends and returns *)

Lemma Gives_ext {R : Type} (p : Prog R) (qs : list Request)
    (res res' : list (option Payload) -> R) :
  (forall bs, length bs = length qs -> res bs = res' bs) ->
  Gives qs res p -> Gives qs res' p.
Proof.
  revert qs res res'.
  induction p as [r | e | k IH | key k IH | key e k IH | ms k IH | req t k IH | reqs k IH];
    intros qs res res' Hext Hp; simpl in *.
  - destruct Hp as [-> ->]. split; [reflexivity |]. apply Hext. reflexivity.
  - contradiction.
  - intros t. eapply IH; [exact Hext | apply Hp].
  - contradiction.
  - eapply IH; [exact Hext | exact Hp].
  - eapply IH; [exact Hext | exact Hp].
  - destruct qs as [| q qs]; [contradiction |]. destruct Hp as [-> Hk].
    split; [reflexivity |]. intros b. eapply IH; [| apply Hk].
    intros bs Hl. apply Hext. simpl. rewrite Hl. reflexivity.
  - contradiction.
Qed.

(** Code that follows without sending anything and hands the value on. *)
Lemma Gives_bind {R : Type} (p : Prog R) (f : R -> Prog R) (qs : list Request)
    (res : list (option Payload) -> R) :
  Gives qs res p -> (forall r, Gives [] (fun _ => r) (f r)) -> Gives qs res (p ≫= f).
Proof.
  change (p ≫= f) with (bind p f). intros Hp Hf. revert qs res Hp.
  induction p as [r | e | k IH | key k IH | key e k IH | ms k IH | req t k IH | reqs k IH];
    intros qs res Hp; simpl in *.
  - destruct Hp as [-> ->]. eapply Gives_ext; [| apply Hf].
    intros [| b bs] Hl; [reflexivity | discriminate].
  - contradiction.
  - intros t. apply IH, Hp.
  - contradiction.
  - apply IH, Hp.
  - apply IH, Hp.
  - destruct qs as [| q qs]; [contradiction |]. destruct Hp as [-> Hk].
    split; [reflexivity |]. intros b. apply IH, Hk.
  - contradiction.
Qed.

Lemma advance_gives {R : Type} (p : Prog R) (qs : list Request)
    (res : list (option Payload) -> R) (t : Z) (c : gmap string CacheEntry) :
  Gives qs res p ->
  exists owed,
    TaskGives owed res (advance p t c).1.1 /\
    requestsIn (advance p t c).2 ++ owed = qs /\
    length (requestsIn (advance p t c).2) = pending (advance p t c).1.1.
Proof.
  revert qs c.
  induction p as [r | e | k IH | key k IH | key e k IH | ms k IH | req tm k IH | reqs k IH];
    intros qs c Hp; simpl in *.
  - destruct Hp as [-> ->]. exists []. split; [split; reflexivity |]. split; reflexivity.
  - contradiction.
  - apply IH, Hp.
  - contradiction.
  - apply IH, Hp.
  - exists qs. split; [exact Hp |]. split; reflexivity.
  - destruct qs as [| q qs]; [contradiction |]. destruct Hp as [-> Hk].
    exists qs. split; [exact Hk |]. split; reflexivity.
  - contradiction.
Qed.

Lemma scrapeLoop_gives cfg d ds (sites : list ScrapeTarget) (scraped : list Source) :
  Gives (queryFor cfg d ds <$> sites) (fun bs => scraped ++ collected cfg d sites bs)
        (scrapeLoop cfg d ds sites scraped).
Proof.
  revert scraped. induction sites as [| site rest IH]; intros scraped.
  - cbn. split; [reflexivity |]. symmetry. apply app_nil_r.
  - cbn. split; [reflexivity |]. intros b.
    eapply Gives_ext; [| apply IH]. intros bs _. cbn. symmetry. apply app_assoc.
Qed.

Lemma populate_gives cfg d ds (sites : list ScrapeTarget) :
  Gives (queryFor cfg d ds <$> sites) (collected cfg d sites) (populate cfg d ds sites).
Proof.
  unfold populate. apply Gives_bind.
  - eapply Gives_ext; [| apply scrapeLoop_gives]. intros bs _. reflexivity.
  - intros r t. cbn. split; reflexivity.
Qed.

(** A call either returns at once without sending anything (a fresh entry,
    an invalid date, no target list) or starts a pass of its own. *)
Lemma advance_scrape cfg d (sites : list ScrapeTarget) (t : Z) (c : gmap string CacheEntry) :
  scrapperUrls cfg = Some sites ->
  let r := advance (scrapeForecastForDay cfg d) t c in
  (exists o, r.1.1 = Done o /\ r.2 = []) \/
  (exists ds owed,
     TaskGives owed (collected cfg d sites) r.1.1 /\
     requestsIn r.2 ++ owed = queryFor cfg d ds <$> sites /\
     length (requestsIn r.2) = pending r.1.1).
Proof.
  intros Hs. unfold scrapeForecastForDay. rewrite Hs. cbn [advance].
  destruct (isoDate (addDays (Some t) d)) as [ds |]; [| left; eexists; split; reflexivity].
  cbn [advance].
  destruct (c !! cacheKeyOf cfg d ds) as [e |].
  - cbn [advance]. destruct (t - ts e <? CACHE_TTL).
    + left. eexists. split; reflexivity.
    + right. exists ds. apply advance_gives, populate_gives.
  - right. exists ds. apply advance_gives, populate_gives.
Qed.

(** ** The event loop *)

Lemma requestsOf_app (i j : nat) (l : list (nat * Event)) (evs : list Event) :
  requestsOf i (l ++ ((fun e => (j, e)) <$> evs)) =
  requestsOf i l ++ (if bool_decide (j = i) then requestsIn evs else []).
Proof.
  unfold requestsOf. rewrite flat_map_app. f_equal.
  induction evs as [| e evs IH].
  - destruct (bool_decide (j = i)); reflexivity.
  - rewrite fmap_cons. cbn [flat_map]. rewrite IH.
    destruct e as [ms | req]; [reflexivity |].
    destruct (bool_decide (j = i)); reflexivity.
Qed.

Lemma repliesTo_app (i : nat) (acts1 acts2 : list Action) :
  repliesTo i (acts1 ++ acts2) = repliesTo i acts1 ++ repliesTo i acts2.
Proof. apply flat_map_app. Qed.

Lemma repliesTo_other (i : nat) (a : Action) : actor a <> i -> repliesTo i [a] = [].
Proof.
  intros Hne. destruct a as [j t | j t | j t b | j t l]; try reflexivity.
  cbn in *. rewrite bool_decide_eq_false_2 by exact Hne. reflexivity.
Qed.

(** Task [i] is running a pass of its own over [sites] and has received
    the replies [rs] so far. *)
Definition Passing (cfg : StationConfig) (d : option Z) (sites : list ScrapeTarget)
    (i : nat) (rs : list (option Payload)) (s : System (list Source)) : Prop :=
  exists ds owed task res,
    sys_tasks s !! i = Some task /\ TaskGives owed res task /\
    requestsOf i (sys_log s) ++ owed = queryFor cfg d ds <$> sites /\
    (forall bs, res bs = collected cfg d sites (rs ++ bs)) /\
    (length rs + pending task + length owed = length sites)%nat.

(** Task [i] has not been called, has returned at once, or is passing. *)
Definition Resolving (cfg : StationConfig) (d : option Z) (sites : list ScrapeTarget)
    (i : nat) (rs : list (option Payload)) (s : System (list Source)) : Prop :=
  (sys_tasks s !! i = Some (Ready (scrapeForecastForDay cfg d)) /\
   requestsOf i (sys_log s) = [] /\ rs = []) \/
  (exists o, sys_tasks s !! i = Some (Done o)) \/
  Passing cfg d sites i rs s.

Lemma step_other {R : Type} (a : Action) (s s' : System R) (i : nat) :
  step a s = Some s' -> actor a <> i ->
  sys_tasks s' !! i = sys_tasks s !! i /\
  requestsOf i (sys_log s') = requestsOf i (sys_log s).
Proof.
  unfold step. intros H Hne.
  destruct (actionTime a <? sys_now s); [discriminate |].
  destruct (sys_tasks s !! actor a) as [task |]; [| discriminate].
  destruct (resume a task) as [p |]; [| discriminate].
  destruct (advance p (actionTime a) (sys_cache s)) as [[task' c'] evs].
  injection H as <-. cbn [sys_tasks sys_log]. split.
  - apply list_lookup_insert_ne. exact Hne.
  - rewrite requestsOf_app, bool_decide_eq_false_2 by exact Hne. apply app_nil_r.
Qed.

Lemma step_self {R : Type} (a : Action) (s s' : System R) :
  step a s = Some s' ->
  exists task p,
    sys_tasks s !! actor a = Some task /\ resume a task = Some p /\
    sys_tasks s' !! actor a = Some (advance p (actionTime a) (sys_cache s)).1.1 /\
    requestsOf (actor a) (sys_log s') =
      requestsOf (actor a) (sys_log s) ++ requestsIn (advance p (actionTime a) (sys_cache s)).2.
Proof.
  unfold step. intros H.
  destruct (actionTime a <? sys_now s); [discriminate |].
  destruct (sys_tasks s !! actor a) as [task |] eqn:Ht; [| discriminate].
  destruct (resume a task) as [p |] eqn:Hr; [| discriminate].
  exists task, p. split; [reflexivity |]. split; [exact Hr |].
  destruct (advance p (actionTime a) (sys_cache s)) as [[task' c'] evs].
  injection H as <-. cbn [sys_tasks sys_log fst snd]. split.
  - apply list_lookup_insert_eq. apply lookup_lt_Some in Ht. exact Ht.
  - rewrite requestsOf_app, bool_decide_eq_true_2 by reflexivity. reflexivity.
Qed.

(** What is resumed takes the reply that resumes it, if any, first. *)
Lemma resume_gives {R : Type} (a : Action) (task : Task R) (p : Prog R)
    (owed : list Request) (res : list (option Payload) -> R) :
  resume a task = Some p -> TaskGives owed res task ->
  Gives owed (fun bs => res (repliesTo (actor a) [a] ++ bs)) p /\
  length (repliesTo (actor a) [a]) = pending task.
Proof.
  destruct a as [i t | i t | i t b | i t l], task as [p0 | wake k | k | k | o];
    simpl; intros H Ho; try discriminate; try contradiction.
  - destruct (wake <=? t); [| discriminate]. injection H as <-. split; [exact Ho | reflexivity].
  - injection H as <-. rewrite bool_decide_eq_true_2 by reflexivity.
    split; [apply Ho | reflexivity].
Qed.

Lemma step_Passing cfg d sites (i : nat) (rs : list (option Payload)) (a : Action)
    (s s' : System (list Source)) :
  step a s = Some s' -> Passing cfg d sites i rs s ->
  Passing cfg d sites i (rs ++ repliesTo i [a]) s'.
Proof.
  intros Hstep (ds & owed & task & res & Ht & Ho & Hq & Hres & Hlen).
  destruct (decide (actor a = i)) as [<- | Hne].
  - destruct (step_self a s s' Hstep) as (task0 & p & Ht0 & Hr & Ht' & Hlog).
    rewrite Ht in Ht0. injection Ht0 as <-.
    destruct (resume_gives a task p owed res Hr Ho) as [Hp Hpend].
    destruct (advance_gives p owed _ (actionTime a) (sys_cache s) Hp)
      as (owed' & Ho' & Hq' & Hpend').
    exists ds, owed', (advance p (actionTime a) (sys_cache s)).1.1,
      (fun bs => res (repliesTo (actor a) [a] ++ bs)).
    split; [exact Ht' |]. split; [exact Ho' |].
    split; [rewrite Hlog, <- app_assoc, Hq'; exact Hq |].
    split; [intros bs; rewrite Hres, app_assoc; reflexivity |].
    rewrite length_app, <- Hpend', Hpend. rewrite <- Hq', length_app in Hlen. lia.
  - destruct (step_other a s s' i Hstep Hne) as [Ht' Hlog].
    rewrite (repliesTo_other i a Hne), app_nil_r.
    exists ds, owed, task, res. rewrite Ht', Hlog. auto.
Qed.

Lemma exec_Passing cfg d sites (i : nat) (rs : list (option Payload)) (acts : list Action)
    (s s' : System (list Source)) :
  exec acts s = Some s' -> Passing cfg d sites i rs s ->
  Passing cfg d sites i (rs ++ repliesTo i acts) s'.
Proof.
  revert rs s. induction acts as [| a acts IH]; intros rs s H HP; simpl in H.
  - injection H as <-. cbn. rewrite app_nil_r. exact HP.
  - destruct (step a s) as [s1 |] eqn:Hs; [| discriminate].
    change (a :: acts) with ([a] ++ acts). rewrite repliesTo_app, app_assoc.
    eapply IH; [exact H |]. eapply step_Passing; eauto.
Qed.

Lemma step_Resolving cfg d sites (i : nat) (rs : list (option Payload)) (a : Action)
    (s s' : System (list Source)) :
  scrapperUrls cfg = Some sites ->
  step a s = Some s' -> Resolving cfg d sites i rs s ->
  Resolving cfg d sites i (rs ++ repliesTo i [a]) s'.
Proof.
  intros Hsites Hstep HR.
  destruct (decide (actor a = i)) as [<- | Hne].
  - destruct HR as [(HReady & Hlog0 & ->) | [[o HDone] | HP]].
    + destruct (step_self a s s' Hstep) as (task0 & p & Ht0 & Hr & Ht' & Hlog).
      rewrite HReady in Ht0. injection Ht0 as <-.
      assert (Hcall : p = scrapeForecastForDay cfg d /\ repliesTo (actor a) [a] = []).
      { destruct a; simpl in Hr; try discriminate. injection Hr as <-. split; reflexivity. }
      destruct Hcall as [-> Hnone]. rewrite Hnone.
      destruct (advance_scrape cfg d sites (actionTime a) (sys_cache s) Hsites)
        as [(o & Ho & He) | (ds & owed & Ho & Hq & Hpend)].
      * right. left. exists o. rewrite Ht', Ho. reflexivity.
      * right. right.
        exists ds, owed, (advance (scrapeForecastForDay cfg d) (actionTime a) (sys_cache s)).1.1,
          (collected cfg d sites).
        split; [exact Ht' |]. split; [exact Ho |].
        split; [rewrite Hlog, Hlog0; exact Hq |].
        split; [reflexivity |].
        apply (f_equal length) in Hq. rewrite length_app, length_fmap in Hq.
        rewrite <- Hpend. simpl length. lia.
    + destruct (step_self a s s' Hstep) as (task0 & p & Ht0 & Hr & _).
      rewrite HDone in Ht0. injection Ht0 as <-.
      destruct a; discriminate.
    + right. right. eapply step_Passing; eauto.
  - destruct (step_other a s s' i Hstep Hne) as [Ht' Hlog].
    rewrite (repliesTo_other i a Hne), app_nil_r.
    destruct HR as [(HReady & Hlog0 & ->) | [[o HDone] | HP]].
    + left. rewrite Ht', Hlog. auto.
    + right. left. exists o. rewrite Ht'. exact HDone.
    + right. right. pose proof (step_Passing cfg d sites i rs a s s' Hstep HP) as HP'.
      rewrite (repliesTo_other i a Hne), app_nil_r in HP'. exact HP'.
Qed.

Lemma exec_Resolving cfg d sites (i : nat) (rs : list (option Payload)) (acts : list Action)
    (s s' : System (list Source)) :
  scrapperUrls cfg = Some sites ->
  exec acts s = Some s' -> Resolving cfg d sites i rs s ->
  Resolving cfg d sites i (rs ++ repliesTo i acts) s'.
Proof.
  intros Hsites. revert rs s. induction acts as [| a acts IH]; intros rs s H HR; simpl in H.
  - injection H as <-. cbn. rewrite app_nil_r. exact HR.
  - destruct (step a s) as [s1 |] eqn:Hs; [| discriminate].
    change (a :: acts) with ([a] ++ acts). rewrite repliesTo_app, app_assoc.
    eapply IH; [exact H |]. eapply step_Resolving; eauto.
Qed.

Lemma inFlight_Passing cfg d sites (i : nat) (rs : list (option Payload))
    (s : System (list Source)) :
  Resolving cfg d sites i rs s -> inFlight s i -> Passing cfg d sites i rs s.
Proof.
  unfold inFlight. intros [(HReady & _) | [[o HDone] | HP]] Hin.
  - rewrite HReady in Hin. contradiction.
  - rewrite HDone in Hin. contradiction.
  - exact HP.
Qed.

(** A pass that has settled has sent one query per target, has received
    one reply per query, and has returned what it built from them. *)
Lemma settled_Passing cfg d sites (i : nat) (rs : list (option Payload))
    (s : System (list Source)) :
  Passing cfg d sites i rs s -> settled s i ->
  (exists ds, requestsOf i (sys_log s) = queryFor cfg d ds <$> sites) /\
  resultOf s i = Some (Returned (collected cfg d sites rs)) /\
  length rs = length sites.
Proof.
  unfold settled, resultOf. intros (ds & owed & task & res & Ht & Ho & Hq & Hres & Hlen) Hs.
  rewrite Ht in Hs |- *. destruct task as [p0 | wake k | k | k | o]; try contradiction.
  simpl in Ho, Hlen. destruct Ho as [-> ->]. rewrite app_nil_r in Hq.
  split; [eauto |]. split.
  - rewrite Hres, app_nil_r. reflexivity.
  - simpl in Hlen. lia.
Qed.

End ConcurrentFacts.

Module RaceExample.
Import Model ServerV2 Concurrent.
Local Open Scope string_scope.
Local Open Scope Z_scope.

(** Two requests for Dallas, day 0, reach an idle server with an empty
    cache at the same instant. *)
Definition sys0 : System (list Source) :=
  {| sys_now := Examples.t0; sys_cache := ∅; sys_log := [];
     sys_tasks := [ Ready (scrapeForecastForDay dallas (Some 0));
                    Ready (scrapeForecastForDay dallas (Some 0)) ] |}.

(** Both are called before either has stored anything. *)
Definition bothCalled : list Action := [ Call 0 Examples.t0; Call 1 Examples.t0 ].

Definition found : Payload :=
  PBrave (Some [ {| description := Some "Sunny with a high of 75";
                    title := Some "Dallas forecast" |} ]).

(** Their timers fire, the first request is answered, the second fails. *)
Definition thenBothFinish : list Action :=
  [ Fire 0 (Examples.t0 + 1500); Fire 1 (Examples.t0 + 1500);
    Settle 0 (Examples.t0 + 1600) (Some found);
    Settle 1 (Examples.t0 + 1700) None ].

Definition sys1 : System (list Source) := default sys0 (exec bothCalled sys0).
Definition sys2 : System (list Source) := default sys1 (exec thenBothFinish sys1).

Definition theQuery : Request :=
  ReqBrave "Weather Channel DALLAS forecast high max temperature Today 2026-11-01" 5.

End RaceExample.

Section ConcurrentClaims.
Import Units Js Model Server ServerV2 Concurrent.
Local Open Scope Z_scope.

(** A schedule that can run leads to the system [default] picks. *)
Lemma exec_default {R : Type} (acts : list Action) (s : System R) :
  match exec acts s with Some _ => true | None => false end = true ->
  exec acts s = Some (default s (exec acts s)).
Proof. destruct (exec acts s); [reflexivity | discriminate]. Qed.

(** C3, as amended.  Two resolutions of the same station and day that are
    both in flight at some moment each run a pass of their own: each sends
    one query per configured target, in the order of the registry, so 2n
    queries are sent where a single flight would send n; and each returns
    the list built from the replies to its own queries, one reply per
    target, whatever the other has received or stored. *)
Theorem C3_concurrent_resolutions_each_run_a_pass
    (cfg : StationConfig) (d : option Z) (sites : list ScrapeTarget)
    (s0 s1 s2 : System (list Source)) (acts1 acts2 : list Action) :
  scrapperUrls cfg = Some sites ->
  sys_tasks s0 = [ Ready (scrapeForecastForDay cfg d); Ready (scrapeForecastForDay cfg d) ] ->
  sys_log s0 = [] ->
  exec acts1 s0 = Some s1 -> inFlight s1 0 -> inFlight s1 1 ->
  exec acts2 s1 = Some s2 -> settled s2 0 -> settled s2 1 ->
  (exists ds0 ds1 : string,
     requestsOf 0 (sys_log s2) = queryFor cfg d ds0 <$> sites /\
     requestsOf 1 (sys_log s2) = queryFor cfg d ds1 <$> sites /\
     length (requestsOf 0 (sys_log s2) ++ requestsOf 1 (sys_log s2)) = (2 * length sites)%nat) /\
  resultOf s2 0 = Some (Returned (collected cfg d sites (repliesTo 0 (acts1 ++ acts2)))) /\
  resultOf s2 1 = Some (Returned (collected cfg d sites (repliesTo 1 (acts1 ++ acts2)))) /\
  length (repliesTo 0 (acts1 ++ acts2)) = length sites /\
  length (repliesTo 1 (acts1 ++ acts2)) = length sites.
Proof.
  intros Hsites Htasks Hlog H1 Hin0 Hin1 H2 Hs0 Hs1.
  assert (HP : forall i, (i < 2)%nat -> inFlight s1 i -> settled s2 i ->
               (exists ds, requestsOf i (sys_log s2) = queryFor cfg d ds <$> sites) /\
               resultOf s2 i = Some (Returned (collected cfg d sites (repliesTo i (acts1 ++ acts2)))) /\
               length (repliesTo i (acts1 ++ acts2)) = length sites).
  { intros i Hi Hin Hset. rewrite repliesTo_app.
    apply (settled_Passing cfg d sites i _ s2); [| exact Hset].
    apply (exec_Passing cfg d sites i _ acts2 s1 s2 H2).
    apply inFlight_Passing; [| exact Hin].
    change (repliesTo i acts1) with ([] ++ repliesTo i acts1).
    apply (exec_Resolving cfg d sites i [] acts1 s0 s1 Hsites H1).
    left. rewrite Hlog, Htasks. split; [| split; reflexivity].
    destruct i as [| [| i]]; [reflexivity | reflexivity | lia]. }
  destruct (HP 0%nat ltac:(lia) Hin0 Hs0) as ([ds0 Hq0] & Hr0 & Hl0).
  destruct (HP 1%nat ltac:(lia) Hin1 Hs1) as ([ds1 Hq1] & Hr1 & Hl1).
  split; [| auto].
  exists ds0, ds1. split; [exact Hq0 |]. split; [exact Hq1 |].
  rewrite length_app, Hq0, Hq1, !length_fmap. lia.
Qed.

Lemma C3_concurrent_resolutions_each_run_a_pass_witness :
  (exists ds0 ds1 : string,
     requestsOf 0 (sys_log RaceExample.sys2) = queryFor dallas (Some 0) ds0 <$> Examples.dallasSites /\
     requestsOf 1 (sys_log RaceExample.sys2) = queryFor dallas (Some 0) ds1 <$> Examples.dallasSites /\
     length (requestsOf 0 (sys_log RaceExample.sys2) ++ requestsOf 1 (sys_log RaceExample.sys2))
       = (2 * length Examples.dallasSites)%nat) /\
  resultOf RaceExample.sys2 0
    = Some (Returned (collected dallas (Some 0) Examples.dallasSites
                        (repliesTo 0 (RaceExample.bothCalled ++ RaceExample.thenBothFinish)))) /\
  resultOf RaceExample.sys2 1
    = Some (Returned (collected dallas (Some 0) Examples.dallasSites
                        (repliesTo 1 (RaceExample.bothCalled ++ RaceExample.thenBothFinish)))) /\
  length (repliesTo 0 (RaceExample.bothCalled ++ RaceExample.thenBothFinish))
    = length Examples.dallasSites /\
  length (repliesTo 1 (RaceExample.bothCalled ++ RaceExample.thenBothFinish))
    = length Examples.dallasSites.
Proof.
  apply (C3_concurrent_resolutions_each_run_a_pass dallas (Some 0) Examples.dallasSites
           RaceExample.sys0 RaceExample.sys1 RaceExample.sys2
           RaceExample.bothCalled RaceExample.thenBothFinish).
  - reflexivity.
  - reflexivity.
  - reflexivity.
  - apply exec_default. vm_compute. reflexivity.
  - vm_compute. exact I.
  - vm_compute. exact I.
  - apply exec_default. vm_compute. reflexivity.
  - vm_compute. exact I.
  - vm_compute. exact I.
Defined.

(** C3 fails as stated: two requests for the same key that are both called
    before either has stored its result send the same query twice, and
    here the first gets a source from its own reply while the second, whose
    request failed, gets none. *)
Lemma C3_single_flight_counterexample :
  exec RaceExample.bothCalled RaceExample.sys0 = Some RaceExample.sys1 /\
  exec RaceExample.thenBothFinish RaceExample.sys1 = Some RaceExample.sys2 /\
  inFlight RaceExample.sys1 0 /\ inFlight RaceExample.sys1 1 /\
  sys_cache RaceExample.sys1 = ∅ /\
  requestsIn (snd <$> sys_log RaceExample.sys2) = [ RaceExample.theQuery; RaceExample.theQuery ] /\
  (exists src, resultOf RaceExample.sys2 0 = Some (Returned [src])) /\
  resultOf RaceExample.sys2 1 = Some (Returned []).
Proof.
  split; [apply exec_default; vm_compute; reflexivity |].
  split; [apply exec_default; vm_compute; reflexivity |].
  split; [vm_compute; exact I |]. split; [vm_compute; exact I |].
  split; [vm_compute; reflexivity |]. split; [vm_compute; reflexivity |].
  split; [eexists; vm_compute; reflexivity | vm_compute; reflexivity].
Qed.

End ConcurrentClaims.

(* ================================================================== *)
(** * Further properties of the report assembly *)
(* ================================================================== *)

Section CardFacts.
Import Units Js Model Assemble.
Local Open Scope Z_scope.

(** The unit a card does not use as its primary one. *)
Definition opposite (u : Unit) : Unit :=
  match u with
  | F => C
  | C => F
  end.

(** The report [data] with another list of sources. *)
Definition withSources (data : Server.Report) (l : list Source) : Server.Report :=
  {| Server.city := Server.city data; Server.station := Server.station data;
     Server.report_name := Server.report_name data;
     Server.report_displayName := Server.report_displayName data;
     Server.report_unit := Server.report_unit data;
     Server.sources := l; Server.fetchedAt := Server.fetchedAt data |}.

(** A source that is an observation: measured now or recorded so far today. *)
Definition isObservation (s : Source) : bool :=
  bool_decide (type s = live) || bool_decide (type s = recorded).

(** The rows that show a temperature rather than dashes. *)
Definition showing (rs : list Row) : list Row :=
  List.filter (fun r => match row_primary r with Some _ => true | None => false end) rs.

(** The secondary temperature of a source is its primary temperature in
    the other unit: the two lookups of app.js never disagree on which
    entry of the source they read. *)
Theorem secondary_is_primary_of_other_unit (source : Source) (u : Unit) (dayIndex : option Z) :
  AppV1.getSecondaryTemp source u dayIndex = AppV1.getPrimaryTemp source (opposite u) dayIndex.
Proof.
  unfold AppV1.getSecondaryTemp, AppV1.getPrimaryTemp.
  destruct (type source), (dailyMax source) as [dm |], (days source) as [ds |],
    (forecasts source) as [fcs |], u; simpl; try reflexivity;
    repeat match goal with
           | |- context [match ?x with _ => _ end] => destruct x; simpl; try reflexivity
           end.
Qed.

(** ** Days other than today *)

Lemma observation_no_primary (s : Source) (u : Unit) (day : option Z) :
  isObservation s = true -> day <> Some 0 -> AppV1.getPrimaryTemp s u day = None.
Proof.
  unfold isObservation, AppV1.getPrimaryTemp. intros Ho Hd.
  rewrite (bool_decide_eq_false_2 (day = Some 0)) by exact Hd.
  destruct (type s); simpl in Ho; try discriminate;
    destruct (dailyMax s), (days s), (forecasts s); reflexivity.
Qed.

Lemma ofType_filter (t : SourceType) (P : Source -> bool) (l : list Source) :
  (forall s, type s = t -> P s = true) ->
  AppV1.ofType t (List.filter P l) = AppV1.ofType t l.
Proof.
  intros HP. unfold AppV1.ofType. induction l as [| s l IH]; simpl; [reflexivity |].
  destruct (P s) eqn:E; simpl.
  - rewrite IH. reflexivity.
  - rewrite IH. destruct (bool_decide (type s = t)) eqn:Et; [| reflexivity].
    apply bool_decide_eq_true in Et. rewrite (HP s Et) in E. discriminate.
Qed.

Lemma ofType_filter_none (t : SourceType) (P : Source -> bool) (l : list Source) :
  (forall s, type s = t -> P s = false) ->
  AppV1.ofType t (List.filter P l) = [].
Proof.
  intros HP. unfold AppV1.ofType. induction l as [| s l IH]; simpl; [reflexivity |].
  destruct (P s) eqn:E; simpl; [| exact IH].
  rewrite IH. destruct (bool_decide (type s = t)) eqn:Et; [| reflexivity].
  apply bool_decide_eq_true in Et. rewrite (HP s Et) in E. discriminate.
Qed.

Lemma flat_map_nil_all {A B : Type} (f : A -> list B) (l : list A) :
  (forall x, In x l -> f x = []) -> flat_map f l = [].
Proof.
  induction l as [| x l IH]; simpl; intros H; [reflexivity |].
  rewrite (H x (or_introl eq_refl)), IH; [reflexivity |]. intros y Hy. apply H. right. exact Hy.
Qed.

Lemma ofType_In (t : SourceType) (l : list Source) (s : Source) :
  In s (AppV1.ofType t l) -> type s = t.
Proof.
  unfold AppV1.ofType. intros H. apply filter_In in H. destruct H as [_ H].
  apply bool_decide_eq_true in H. exact H.
Qed.

(** On a day other than today app.js ignores the observations: the card
    is the card of the report without its live and recorded sources. *)
Theorem observations_count_only_today (data : Server.Report) (selectedDay : option Z) :
  selectedDay <> Some 0 ->
  AppV1.createCityCard data selectedDay =
  AppV1.createCityCard
    (withSources data (List.filter (fun s => negb (isObservation s)) (Server.sources data)))
    selectedDay.
Proof.
  intros Hd. unfold AppV1.createCityCard, withSources. cbn [Server.sources Server.report_unit].
  set (u := Server.report_unit data). set (l := Server.sources data).
  set (P := fun s => negb (isObservation s)).
  assert (Hord : AppV1.ordered (List.filter P l)
                 = AppV1.ofType forecast l ++ AppV1.ofType model l).
  { unfold AppV1.ordered.
    rewrite (ofType_filter_none live), (ofType_filter_none recorded),
      (ofType_filter forecast), (ofType_filter model); try reflexivity;
      intros s Hs; unfold P, isObservation; rewrite Hs; reflexivity. }
  assert (Ht : flat_map (AppV1.tempsPushed u selectedDay) (AppV1.ordered l)
               = flat_map (AppV1.tempsPushed u selectedDay) (AppV1.ordered (List.filter P l))).
  { rewrite Hord. unfold AppV1.ordered. rewrite !flat_map_app.
    rewrite (flat_map_nil_all _ (AppV1.ofType live l)),
      (flat_map_nil_all _ (AppV1.ofType recorded l)); [reflexivity | |];
      intros s Hs; apply ofType_In in Hs; unfold AppV1.tempsPushed;
      rewrite observation_no_primary; try reflexivity; try exact Hd;
      unfold isObservation; rewrite Hs; reflexivity. }
  assert (Hr : flat_map (AppV1.rowsPushed u selectedDay) (AppV1.ordered l)
               = flat_map (AppV1.rowsPushed u selectedDay) (AppV1.ordered (List.filter P l))).
  { rewrite Hord. unfold AppV1.ordered. rewrite !flat_map_app.
    rewrite (flat_map_nil_all _ (AppV1.ofType live l)),
      (flat_map_nil_all _ (AppV1.ofType recorded l)); [reflexivity | |];
      intros s Hs; apply ofType_In in Hs; unfold AppV1.rowsPushed;
      rewrite Hs, (bool_decide_eq_false_2 (selectedDay = Some 0)) by exact Hd;
      reflexivity. }
  rewrite <- Ht, <- Hr. reflexivity.
Qed.

Lemma observations_count_only_today_witness :
  AppV1.createCityCard
    {| Server.city := "dallas"; Server.station := "KDAL"; Server.report_name := None;
       Server.report_displayName := "DALLAS"; Server.report_unit := F;
       Server.sources := [ bareSource "metar" "METAR Sensor" live ];
       Server.fetchedAt := 0 |} (Some 1) =
  AppV1.createCityCard
    (withSources
       {| Server.city := "dallas"; Server.station := "KDAL"; Server.report_name := None;
          Server.report_displayName := "DALLAS"; Server.report_unit := F;
          Server.sources := [ bareSource "metar" "METAR Sensor" live ];
          Server.fetchedAt := 0 |}
       (List.filter (fun s => negb (isObservation s))
                    [ bareSource "metar" "METAR Sensor" live ]))
    (Some 1).
Proof.
  apply (observations_count_only_today
           {| Server.city := "dallas"; Server.station := "KDAL"; Server.report_name := None;
              Server.report_displayName := "DALLAS"; Server.report_unit := F;
              Server.sources := [ bareSource "metar" "METAR Sensor" live ];
              Server.fetchedAt := 0 |} (Some 1)).
  discriminate.
Defined.

End CardFacts.

Section CardNumbers.
Import Units Js Model Assemble.
Local Open Scope Z_scope.

Lemma showing_app (r1 r2 : list Row) : showing (r1 ++ r2) = showing r1 ++ showing r2.
Proof. unfold showing. apply List.filter_app. Qed.

Lemma pushed_row_and_temp (u : Unit) (day : option Z) (s : Source) :
  length (AppV1.tempsPushed u day s) = length (showing (AppV1.rowsPushed u day s)).
Proof.
  unfold AppV1.tempsPushed, AppV1.rowsPushed.
  destruct ((bool_decide (type s = live) || bool_decide (type s = recorded))
            && negb (bool_decide (day = Some 0))) eqn:E.
  - apply andb_prop in E. destruct E as [Ho Hd].
    apply negb_true_iff, bool_decide_eq_false in Hd.
    rewrite (observation_no_primary s u day Ho Hd). reflexivity.
  - unfold showing. simpl. destruct (AppV1.getPrimaryTemp s u day); reflexivity.
Qed.

(** The number in the title of the sources section, [temps.length], is
    the number of rows that show a temperature, in both front ends and for
    every selected day. *)
Theorem source_count_is_rows_showing :
  (forall (data : Server.Report) (selectedDay : option Z),
     length (temps (AppV1.createCityCard data selectedDay))
     = length (showing (rows (AppV1.createCityCard data selectedDay)))) /\
  (forall data : Server.Report,
     length (temps (AppV2.createCityCard data))
     = length (showing (rows (AppV2.createCityCard data)))).
Proof.
  split.
  - intros data day. unfold AppV1.createCityCard. cbn [temps rows].
    induction (AppV1.ordered (Server.sources data)) as [| s l IH]; [reflexivity |].
    cbn [flat_map]. rewrite showing_app, !length_app, IH, pushed_row_and_temp. reflexivity.
  - intros data. unfold AppV2.createCityCard. cbn [temps rows].
    induction (Server.sources data) as [| s l IH]; [reflexivity |].
    csimpl. unfold showing in *. cbn [List.filter row_primary].
    destruct (AppV2.primaryOf (Server.report_unit data) s); cbn [length]; rewrite IH; reflexivity.
Qed.

(** ** A spread of zero *)

Lemma spreadOf_zero (l : list Q) (s : Q) (cls : SpreadClass) :
  spreadOf l = Some (s, cls) ->
  (0 <= s)%Q /\
  ((s == 0)%Q <-> forall t t', In t l -> In t' l -> (t == t')%Q) /\
  ((s == 0)%Q -> cls = tight).
Proof.
  intros H. pose proof (spreadOf_spec l) as Hs. rewrite H in Hs. simpl in Hs.
  destruct Hs as (_ & (hi & lo & (Hhi & Hlo & Hall) & ->) & Htight & _).
  destruct (Hall hi Hhi) as [Hlh _].
  split; [lra |]. split; [split |].
  - intros Hz t t' Ht Ht'. destruct (Hall t Ht), (Hall t' Ht').
    apply Qle_antisym; lra.
  - intros Heq. specialize (Heq hi lo Hhi Hlo). lra.
  - intros Hz. apply Htight. lra.
Qed.

(** A spread is never negative.  It is zero exactly when all the collected
    temperatures agree, and a card with two or more agreeing sources does
    show that zero spread, classified tight. *)
Theorem zero_spread_when_sources_agree :
  (forall (data : Server.Report) (selectedDay : option Z) (s : Q) (cls : SpreadClass),
     spread (AppV1.createCityCard data selectedDay) = Some (s, cls) ->
     (0 <= s)%Q /\
     ((s == 0)%Q <-> forall t t', In t (temps (AppV1.createCityCard data selectedDay)) ->
                                  In t' (temps (AppV1.createCityCard data selectedDay)) ->
                                  (t == t')%Q) /\
     ((s == 0)%Q -> cls = tight)) /\
  (forall (data : Server.Report) (s : Q) (cls : SpreadClass),
     spread (AppV2.createCityCard data) = Some (s, cls) ->
     (0 <= s)%Q /\
     ((s == 0)%Q <-> forall t t', In t (temps (AppV2.createCityCard data)) ->
                                  In t' (temps (AppV2.createCityCard data)) ->
                                  (t == t')%Q) /\
     ((s == 0)%Q -> cls = tight)).
Proof.
  split.
  - intros data day s cls. unfold AppV1.createCityCard. cbn [spread temps]. apply spreadOf_zero.
  - intros data s cls. unfold AppV2.createCityCard. cbn [spread temps]. apply spreadOf_zero.
Qed.

(** Two models that both say 12 C for Paris. *)
Definition agreeingReport : Server.Report :=
  {| Server.city := "paris"; Server.station := "LFPG"; Server.report_name := None;
     Server.report_displayName := "PARIS"; Server.report_unit := C;
     Server.sources :=
       [ {| id := "model_GFS"; src_name := "GFS"; type := model;
            temp_c := Some 12%Q; temp_f := Some (536 # 10)%Q; time := None;
            date := None; forecasts := None; days := None; dailyMax := None;
            url := None |};
         {| id := "model_ECMWF"; src_name := "ECMWF"; type := model;
            temp_c := Some 12%Q; temp_f := Some (536 # 10)%Q; time := None;
            date := None; forecasts := None; days := None; dailyMax := None;
            url := None |} ];
     Server.fetchedAt := 0 |}.

Lemma zero_spread_when_sources_agree_witness :
  spread (AppV2.createCityCard agreeingReport) = Some ((12 - 12)%Q, tight) /\
  (0 <= 12 - 12)%Q /\
  (((12 - 12 == 0)%Q <->
    forall t t', In t (temps (AppV2.createCityCard agreeingReport)) ->
                 In t' (temps (AppV2.createCityCard agreeingReport)) -> (t == t')%Q) /\
   ((12 - 12 == 0)%Q -> tight = tight)).
Proof.
  split; [reflexivity |].
  apply (proj2 zero_spread_when_sources_agree agreeingReport (12 - 12)%Q tight).
  reflexivity.
Defined.

End CardNumbers.

(* ================================================================== *)
(** * Further properties of the page scrapes *)
(* ================================================================== *)

Section ExtractFacts.
Import Units Js Model Server.
Local Open Scope Z_scope.

(** The number a single pattern yields on a page: the capture of its
    leftmost match, read as a number. *)
Definition yields (re : RegExp) (html : string) : option Q :=
  match matchGroup1 re html with
  | Some m1 => parseFloat m1
  | None => None
  end.

Lemma extractFirstTemp_cons (html : string) (re : RegExp) (rest : list RegExp) :
  ServerV1.extractFirstTemp html (re :: rest) =
  match yields re html with
  | Some n => Some n
  | None => ServerV1.extractFirstTemp html rest
  end.
Proof.
  unfold yields. cbn [ServerV1.extractFirstTemp].
  destruct (matchGroup1 re html) as [m1 |]; [| reflexivity].
  destruct (parseFloat m1); reflexivity.
Qed.

(** [extractFirstTemp] returns the number of the first pattern, in the
    order given, that yields one; a pattern that does not match, or whose
    capture is not a number, passes the turn to the next; with no pattern
    yielding a number, and so for an empty list, the result is null. *)
Theorem extractFirstTemp_first_yielding_pattern (html : string) (patterns : list RegExp) :
  (forall n : Q,
     ServerV1.extractFirstTemp html patterns = Some n <->
     exists pre re post,
       patterns = pre ++ re :: post /\
       Forall (fun r => yields r html = None) pre /\
       yields re html = Some n) /\
  (ServerV1.extractFirstTemp html patterns = None <->
   Forall (fun r => yields r html = None) patterns).
Proof.
  induction patterns as [| re rest [IHs IHn]].
  - split.
    + intros n. split; [discriminate |]. intros (pre & r & post & H & _).
      destruct pre; discriminate.
    + split; [constructor | reflexivity].
  - rewrite extractFirstTemp_cons. destruct (yields re html) as [m |] eqn:E.
    + split.
      * intros n. split.
        -- intros [= <-]. exists [], re, rest. split; [reflexivity |]. split; [constructor | exact E].
        -- intros (pre & r & post & Hp & Hpre & Hy).
           destruct pre as [| p pre]; simpl in Hp; injection Hp as <- Hp.
           ++ congruence.
           ++ inversion Hpre; subst. congruence.
      * split; [discriminate |]. intros H. inversion H; subst. congruence.
    + split.
      * intros n. rewrite IHs. split.
        -- intros (pre & r & post & -> & Hpre & Hy). exists (re :: pre), r, post.
           split; [reflexivity |]. split; [constructor; assumption | exact Hy].
        -- intros (pre & r & post & Hp & Hpre & Hy).
           destruct pre as [| p pre]; simpl in Hp; injection Hp as <- Hp.
           ++ congruence.
           ++ subst rest. inversion Hpre; subst. exists pre, r, post. auto.
      * rewrite IHn. split.
        -- intros H. constructor; assumption.
        -- intros H. inversion H; assumption.
Qed.

End ExtractFacts.

(* ================================================================== *)
(** * Properties of the pattern matcher and of the search scrape *)
(* ================================================================== *)

Section RegexFacts.
Import Units Js Model Server.
Local Open Scope Z_scope.

(** ** What it means for a pattern to match *)

Fixpoint allChars (p : ascii -> bool) (s : string) : bool :=
  match s with
  | EmptyString => true
  | String c s' => p c && allChars p s'
  end.

(** [r] matches a prefix of [s] and leaves [s']; the recorded group goes
    from [cap] to [cap']. *)
Fixpoint Matches (ci : bool) (r : Re) (s s' : string) (cap cap' : option string) : Prop :=
  match r with
  | Lit c => exists x, s = String x s' /\ sameChar ci c x = true /\ cap' = cap
  | Cls p => exists x, s = String x s' /\ p x = true /\ cap' = cap
  | Cat r1 r2 =>
      exists s1 cap1, Matches ci r1 s s1 cap cap1 /\ Matches ci r2 s1 s' cap1 cap'
  | Opt r1 => Matches ci r1 s s' cap cap' \/ (s' = s /\ cap' = cap)
  | Many p => exists pre, s = pre +:+ s' /\ allChars p pre = true /\ cap' = cap
  | Grp r1 =>
      exists cap0, Matches ci r1 s s' cap cap0 /\
                   cap' = Some (substring 0 (String.length s - String.length s') s)
  end.

(** Every group of [r] is [(\d+)]. *)
Fixpoint DigitGroups (r : Re) : Prop :=
  match r with
  | Cat r1 r2 => DigitGroups r1 /\ DigitGroups r2
  | Opt r1 => DigitGroups r1
  | Grp r1 => r1 = Plus isDigit
  | _ => True
  end.

(** A non-empty string of decimal digits. *)
Definition Digits (d : string) : Prop := d <> EmptyString /\ allChars isDigit d = true.

Definition DigitCapture (cap : option string) : Prop :=
  match cap with
  | Some d => Digits d
  | None => True
  end.

(** ** The matcher only reports matches *)

(** The greedy loop of [Many], as a function of its own. *)
Fixpoint manyFrom (p : ascii -> bool) (cap : option string)
    (k : string -> option string -> option string) (t : string) : option string :=
  match t with
  | String x t' =>
      if p x
      then match manyFrom p cap k t' with Some c => Some c | None => k t cap end
      else k t cap
  | EmptyString => k t cap
  end.

Lemma matchAt_Many (ci : bool) (p : ascii -> bool) (s : string) (cap : option string)
    (k : string -> option string -> option string) :
  matchAt ci (Many p) s cap k = manyFrom p cap k s.
Proof.
  induction s as [| x s IH]; [reflexivity |].
  cbn [manyFrom]. rewrite <- IH. reflexivity.
Qed.

Lemma many_sound (p : ascii -> bool) (cap : option string)
    (k : string -> option string -> option string) (t : string) (c : string) :
  manyFrom p cap k t = Some c ->
  exists pre s', t = pre +:+ s' /\ allChars p pre = true /\ k s' cap = Some c.
Proof.
  induction t as [| x t IH]; intros H.
  - exists EmptyString, EmptyString. auto.
  - cbn [manyFrom] in H. destruct (p x) eqn:Ep.
    + destruct (manyFrom p cap k t) as [c0 |] eqn:Em.
      * injection H as ->. destruct (IH eq_refl) as (pre & s' & -> & Hall & Hk).
        exists (String x pre), s'. split; [reflexivity |]. split; [| exact Hk].
        simpl. rewrite Ep, Hall. reflexivity.
      * exists EmptyString, (String x t). auto.
    + exists EmptyString, (String x t). auto.
Qed.

Lemma matchAt_sound (ci : bool) (r : Re) :
  forall (s : string) (cap : option string)
         (k : string -> option string -> option string) (c : string),
    matchAt ci r s cap k = Some c ->
    exists s' cap', Matches ci r s s' cap cap' /\ k s' cap' = Some c.
Proof.
  induction r as [ch | p | r1 IH1 r2 IH2 | r1 IH1 | p | r1 IH1]; intros s cap k c H.
  - simpl in H. destruct s as [| x s']; [discriminate |].
    destruct (sameChar ci ch x) eqn:E; [| discriminate].
    exists s', cap. split; [exists x; auto | exact H].
  - simpl in H. destruct s as [| x s']; [discriminate |].
    destruct (p x) eqn:E; [| discriminate].
    exists s', cap. split; [exists x; auto | exact H].
  - simpl in H. destruct (IH1 _ _ _ _ H) as (s1 & cap1 & HM1 & H2).
    destruct (IH2 _ _ _ _ H2) as (s' & cap' & HM2 & Hk).
    exists s', cap'. split; [exists s1, cap1; auto | exact Hk].
  - simpl in H. destruct (matchAt ci r1 s cap k) as [c0 |] eqn:E.
    + injection H as ->. destruct (IH1 _ _ _ _ E) as (s' & cap' & HM & Hk).
      exists s', cap'. split; [left; exact HM | exact Hk].
    + exists s, cap. split; [right; auto | exact H].
  - rewrite matchAt_Many in H.
    destruct (many_sound p cap k s c H) as (pre & s' & Hs & Hall & Hk).
    exists s', cap. split; [exists pre; auto | exact Hk].
  - simpl in H. destruct (IH1 _ _ _ _ H) as (s' & cap0 & HM & Hk).
    exists s', (Some (substring 0 (String.length s - String.length s') s)).
    split; [exists cap0; auto | exact Hk].
Qed.

(** ** What a match leaves and what it records *)

Lemma append_cons (x : ascii) (a b : string) : String x a +:+ b = String x (a +:+ b).
Proof. reflexivity. Qed.

Lemma append_assoc3 (a b c : string) : a +:+ (b +:+ c) = (a +:+ b) +:+ c.
Proof.
  induction a as [| x a IH]; [reflexivity |].
  rewrite !append_cons, IH. reflexivity.
Qed.

Lemma Matches_suffix (ci : bool) (r : Re) :
  forall s s' cap cap', Matches ci r s s' cap cap' -> exists pre, s = pre +:+ s'.
Proof.
  induction r as [ch | p | r1 IH1 r2 IH2 | r1 IH1 | p | r1 IH1]; intros s s' cap cap' H; simpl in H.
  - destruct H as (x & -> & _). exists (String x EmptyString). reflexivity.
  - destruct H as (x & -> & _). exists (String x EmptyString). reflexivity.
  - destruct H as (s1 & cap1 & H1 & H2).
    destruct (IH1 _ _ _ _ H1) as [p1 ->]. destruct (IH2 _ _ _ _ H2) as [p2 ->].
    exists (p1 +:+ p2). apply append_assoc3.
  - destruct H as [H | [-> _]]; [eapply IH1; eauto | exists EmptyString; reflexivity].
  - destruct H as (pre & -> & _). exists pre. reflexivity.
  - destruct H as (cap0 & H & _). eapply IH1; eauto.
Qed.

Lemma length_append (a b : string) :
  String.length (a +:+ b) = (String.length a + String.length b)%nat.
Proof.
  induction a as [| x a IH]; [reflexivity |].
  rewrite append_cons. cbn [String.length]. rewrite IH. reflexivity.
Qed.

Lemma substring_prefix (a b : string) : substring 0 (String.length a) (a +:+ b) = a.
Proof.
  induction a as [| x a IH].
  - destruct b; reflexivity.
  - rewrite append_cons. cbn [String.length substring]. rewrite IH. reflexivity.
Qed.

Lemma captured_prefix (a b : string) :
  substring 0 (String.length (a +:+ b) - String.length b) (a +:+ b) = a.
Proof.
  rewrite length_append.
  replace (String.length a + String.length b - String.length b)%nat with (String.length a) by lia.
  apply substring_prefix.
Qed.

Lemma Matches_digit_capture (ci : bool) (r : Re) :
  DigitGroups r ->
  forall s s' cap cap',
    Matches ci r s s' cap cap' -> DigitCapture cap -> DigitCapture cap'.
Proof.
  induction r as [ch | p | r1 IH1 r2 IH2 | r1 IH1 | p | r1 IH1];
    intros HD s s' cap cap' H Hc; simpl in H, HD.
  - destruct H as (x & _ & _ & ->). exact Hc.
  - destruct H as (x & _ & _ & ->). exact Hc.
  - destruct HD as [HD1 HD2]. destruct H as (s1 & cap1 & H1 & H2).
    eapply IH2; eauto.
  - destruct H as [H | [_ ->]]; [eapply IH1; eauto | exact Hc].
  - destruct H as (pre & _ & _ & ->). exact Hc.
  - destruct H as (cap0 & H & ->). subst r1. simpl in H.
    destruct H as (s1 & cap1 & (x & -> & Hx & _) & (pre & -> & Hpre & _)).
    change (String x (pre +:+ s')) with (String x pre +:+ s').
    rewrite captured_prefix. split; [discriminate |]. simpl. rewrite Hx, Hpre. reflexivity.
Qed.

(** The capture a pattern whose groups are all [(\d+)] reports is a
    non-empty string of digits. *)
Lemma matchGroup1_digits (re : RegExp) (text c : string) :
  DigitGroups (pattern re) -> matchGroup1 re text = Some c -> Digits c.
Proof.
  intros HD. induction text as [| x text IH]; intros H.
  - cbn [matchGroup1] in H.
    destruct (matchAt (ignoreCase re) (pattern re) EmptyString None (fun _ cap => cap))
      as [c0 |] eqn:E; [| discriminate].
    injection H as ->. destruct (matchAt_sound _ _ _ _ _ _ E) as (s' & cap' & HM & ->).
    apply (Matches_digit_capture _ _ HD _ _ _ _ HM). exact I.
  - cbn [matchGroup1] in H.
    destruct (matchAt (ignoreCase re) (pattern re) (String x text) None (fun _ cap => cap))
      as [c0 |] eqn:E.
    + injection H as ->. destruct (matchAt_sound _ _ _ _ _ _ E) as (s' & cap' & HM & ->).
      apply (Matches_digit_capture _ _ HD _ _ _ _ HM). exact I.
    + apply IH, H.
Qed.

End RegexFacts.

(** Linear arithmetic with the divisions by 5 and 9 written as products. *)
Ltac lra_fifths_ninths :=
  unfold Qdiv in *;
  change (/ 5)%Q with (1 # 5)%Q in *;
  change (/ 9)%Q with (1 # 9)%Q in *;
  lra.

Section SearchScrapeFacts.
Import Units Js Model Server.
Local Open Scope Z_scope.

(** ** Reading a capture as a number *)

Lemma isDigit_value (c : ascii) : isDigit c = true -> 0 <= digitVal c <= 9.
Proof.
  unfold isDigit, digitVal. intros H. apply andb_prop in H. destruct H as [H1 H2].
  apply Nat.leb_le in H1, H2. lia.
Qed.

Lemma decPrefix_digits (s : string) :
  allChars isDigit s = true ->
  forall acc : option Z,
    match acc with Some a => 0 <= a | None => s <> EmptyString end ->
    exists n, decPrefix acc s = Some n /\ 0 <= n.
Proof.
  induction s as [| c s IH]; intros Hall acc Hacc.
  - destruct acc as [a |]; [exists a; auto | contradiction].
  - simpl in Hall. apply andb_prop in Hall. destruct Hall as [Hc Hs].
    cbn [decPrefix]. rewrite Hc. apply IH; [exact Hs |].
    pose proof (isDigit_value c Hc). destruct acc as [a |]; simpl; lia.
Qed.

Lemma parseInt_digit_head (a : ascii) (rest : string) :
  isDigit a = true -> parseInt (String a rest) = unsignedInt (String a rest).
Proof.
  destruct a as [[] [] [] [] [] [] [] []]; intros H; try discriminate H; reflexivity.
Qed.

Lemma unsignedInt_digits (a : ascii) (rest : string) :
  isDigit a = true -> allChars isDigit rest = true ->
  unsignedInt (String a rest) = decPrefix None (String a rest).
Proof.
  intros Ha Hr.
  destruct rest as [| b rest]; [destruct a as [[] [] [] [] [] [] [] []]; reflexivity |].
  simpl in Hr. apply andb_prop in Hr. destruct Hr as [Hb _].
  destruct a as [[] [] [] [] [] [] [] []]; try discriminate Ha; try reflexivity.
  destruct b as [[] [] [] [] [] [] [] []]; try discriminate Hb; reflexivity.
Qed.

(** [parseInt] reads a non-empty string of digits as a non-negative
    integer, never as NaN. *)
Lemma parseInt_digits (d : string) :
  Digits d -> exists n, parseInt d = Some n /\ 0 <= n.
Proof.
  intros [Hne Hall]. destruct d as [| a rest]; [contradiction |].
  pose proof Hall as Hall'. simpl in Hall'. apply andb_prop in Hall'. destruct Hall' as [Ha Hr].
  rewrite (parseInt_digit_head a rest Ha), (unsignedInt_digits a rest Ha Hr).
  apply decPrefix_digits; [exact Hall | discriminate].
Qed.

(** ** The patterns of the search scrape capture digits *)

Lemma patterns_digit_groups :
  Forall (fun re => DigitGroups (pattern re)) ServerV2.patterns /\
  Forall (fun re => DigitGroups (pattern re)) ServerV3.patterns.
Proof. split; repeat constructor. Qed.

Lemma firstMatch_digits (text : string) (res : list RegExp) (m1 : string) :
  Forall (fun re => DigitGroups (pattern re)) res ->
  ServerV2.firstMatch text res = Some m1 -> Digits m1.
Proof.
  induction 1 as [| re res Hre _ IH]; intros H; [discriminate |].
  cbn [ServerV2.firstMatch] in H.
  destruct (matchGroup1 re text) as [c |] eqn:E.
  - injection H as <-. eapply matchGroup1_digits; eauto.
  - apply IH, H.
Qed.

(** ** Rounding is monotone *)

Lemma round10_ge (x : Q) (m : Z) : (inject_Z m <= x * 10)%Q -> (inject_Z m / 10 <= round10 x)%Q.
Proof.
  intros H. unfold round10, MathRound.
  assert (Hf : m <= Qfloor (x * 10 + (1 # 2))).
  { replace m with (Qfloor (inject_Z m)) by apply Qfloor_Z.
    apply Qfloor_resp_le. lra. }
  apply Qmult_le_compat_r; [| discriminate].
  rewrite <- Zle_Qle. exact Hf.
Qed.

(** ** What the unit correction lets through *)

Lemma correctUnit_C (n : Z) :
  0 <= n -> exists v, ServerV2.correctUnit C (Some (inject_Z n)) = Some v /\ (0 <= v)%Q.
Proof.
  intros Hn. unfold ServerV2.correctUnit.
  destruct (Qlt_le_dec 40 (inject_Z n)) as [Hgt | Hle].
  - exists (fToC_num (inject_Z n)). split; [reflexivity |].
    apply Qle_trans with (inject_Z 0 / 10)%Q; [unfold Qle; simpl; lia |].
    unfold fToC_num. apply round10_ge.
    change (inject_Z 0) with 0%Q. lra_fifths_ninths.
  - exists (inject_Z n). split; [reflexivity |]. change 0%Q with (inject_Z 0).
    rewrite <- Zle_Qle. exact Hn.
Qed.

Lemma correctUnit_F (n : Z) :
  0 <= n -> exists v, ServerV2.correctUnit F (Some (inject_Z n)) = Some v /\ (32 <= v)%Q.
Proof.
  intros Hn. unfold ServerV2.correctUnit.
  assert (Hq : (0 <= inject_Z n)%Q) by (change 0%Q with (inject_Z 0); rewrite <- Zle_Qle; exact Hn).
  destruct (Qlt_le_dec (inject_Z n) 32) as [Hlt | Hge].
  - exists (cToF_num (inject_Z n)). split; [reflexivity |].
    apply Qle_trans with (inject_Z 320 / 10)%Q; [unfold Qle; simpl; lia |].
    unfold cToF_num. apply round10_ge.
    change (inject_Z 320) with 320%Q. lra_fifths_ninths.
  - exists (inject_Z n). split; [reflexivity | exact Hge].
Qed.

(** What a source built from a capture of digits looks like. *)
Definition ScrapedShape (cfg : StationConfig) (site : ScrapeTarget) (s : Source) : Prop :=
  type s = scraped /\ src_name s = site_name site /\ url s = Some (site_url site) /\
  exists c f : Q,
    temp_c s = Some c /\ temp_f s = Some f /\
    (unit cfg = C -> (0 <= c)%Q) /\ (unit cfg = F -> (32 <= f)%Q).

Lemma scrapedSource_shape (cfg : StationConfig) (d : option Z) (site : ScrapeTarget)
    (m1 : string) :
  Digits m1 -> ScrapedShape cfg site (ServerV2.scrapedSource cfg d site m1).
Proof.
  intros Hd. destruct (parseInt_digits m1 Hd) as (n & Hp & Hn).
  unfold ScrapedShape, ServerV2.scrapedSource. rewrite Hp. cbn [fmap option_fmap option_map].
  cbn [type src_name url temp_c temp_f].
  split; [reflexivity |]. split; [reflexivity |]. split; [reflexivity |].
  destruct (unit cfg) eqn:Eu.
  - destruct (correctUnit_C n Hn) as (v & -> & Hv).
    exists v, (cToF_num v). cbn. repeat split; auto. discriminate.
  - destruct (correctUnit_F n Hn) as (v & -> & Hv).
    exists (fToC_num v), v. cbn. repeat split; auto. discriminate.
Qed.

(** A target adds at most one source to a pass, and every source it adds
    is of type [scraped], carries the name and the address of the target
    and both temperatures.  Because the patterns capture digits only, the
    Celsius value of a Celsius station is never negative and the Fahrenheit
    value of a Fahrenheit station is never below 32. *)
Theorem search_scrape_source_shape (cfg : StationConfig) (d : option Z)
    (site : ScrapeTarget) (reply : option Payload) :
  (length (ServerV2.siteSources cfg d site reply) <= 1)%nat /\
  Forall (ScrapedShape cfg site) (ServerV2.siteSources cfg d site reply).
Proof.
  destruct reply as [[| | | | | | results] |]; try (split; [simpl; lia | constructor]).
  unfold ServerV2.siteSources.
  induction (default [] results) as [| res rest IH]; [split; [simpl; lia | constructor] |].
  cbn [ServerV2.firstHit].
  match goal with
  | |- context [ServerV2.firstMatch ?t ?ps] =>
      destruct (ServerV2.firstMatch t ps) as [m1 |] eqn:E; [| exact IH]
  end.
  split; [simpl; lia |]. constructor; [| constructor].
  apply scrapedSource_shape.
  eapply firstMatch_digits; [exact (proj1 patterns_digit_groups) | exact E].
Qed.

(** ** The three-day revision drops a reading of zero *)

Lemma maxTempOf_sign (cfg : StationConfig) (results : list BraveResult) (v : Q) :
  ServerV3.maxTempOf cfg results = Some v ->
  (unit cfg = C -> (0 <= v)%Q) /\ (unit cfg = F -> (32 <= v)%Q).
Proof.
  induction results as [| res rest IH]; [discriminate |].
  cbn [ServerV3.maxTempOf].
  match goal with
  | |- context [ServerV2.firstMatch ?t ?ps] =>
      destruct (ServerV2.firstMatch t ps) as [m1 |] eqn:E; [| exact IH]
  end.
  pose proof (firstMatch_digits _ _ _ (proj2 patterns_digit_groups) E) as Hd.
  destruct (parseInt_digits m1 Hd) as (n & -> & Hn). cbn [fmap option_fmap option_map].
  intros H. split; intros Hu; rewrite Hu in H.
  - destruct (correctUnit_C n Hn) as (v' & Hv & Hge). congruence.
  - destruct (correctUnit_F n Hn) as (v' & Hv & Hge). congruence.
Qed.

(** In the three-day revision a target and day add at most one source; it
    carries both temperatures and its value in the unit of the station is
    never zero: a match of "0" on a Celsius station is dropped as if
    nothing had matched ([if (maxTemp)]), so its Celsius value is positive. *)
Theorem three_day_scrape_drops_zero (cfg : StationConfig) (z : Z) (ds : string)
    (site : ScrapeTarget) (results : list BraveResult) :
  (length (ServerV3.scrapedOfResults cfg z ds site results) <= 1)%nat /\
  Forall (fun s => exists c f : Q,
                     temp_c s = Some c /\ temp_f s = Some f /\
                     (unit cfg = C -> (0 < c)%Q) /\ (unit cfg = F -> (32 <= f)%Q))
         (ServerV3.scrapedOfResults cfg z ds site results).
Proof.
  unfold ServerV3.scrapedOfResults.
  destruct (ServerV3.maxTempOf cfg results) as [v |] eqn:E; [| split; [simpl; lia | constructor]].
  destruct (truthyQ v) eqn:Et; [| split; [simpl; lia | constructor]].
  split; [simpl; lia |]. constructor; [| constructor].
  destruct (maxTempOf_sign cfg results v E) as [HC HF].
  cbn [temp_c temp_f]. destruct (unit cfg) eqn:Eu; cbn.
  - exists v, (cToF_num v). repeat split; try discriminate.
    intros _. apply Qle_lt_or_eq in HC; [| reflexivity].
    destruct HC as [Hlt | Heq]; [exact Hlt |].
    exfalso. unfold truthyQ in Et. apply negb_true_iff in Et.
    assert (Hz : Qeq_bool v 0 = true) by (apply Qeq_bool_iff; symmetry; exact Heq).
    congruence.
  - exists (fToC_num v), v. repeat split; try discriminate. intros _. apply HF. reflexivity.
Qed.

End SearchScrapeFacts.

(* ================================================================== *)
(** * Further properties of the scrape cache *)
(* ================================================================== *)

Section CacheFacts.
Import Units Js Model Server ServerV2.
Local Open Scope Z_scope.

Context (net : Net) (cfg : StationConfig) (dayOffset : option Z).

(** The world a resolution ends in. *)
Definition after (w : World) : World := snd (run net (scrapeForecastForDay cfg dayOffset) w).

(** The four ways a resolution can go. *)
Lemma scrape_cases (w : World) :
  (after w = w) \/
  (exists sites ds,
     scrapperUrls cfg = Some sites /\
     isoDate (addDays (Some (now w)) dayOffset) = Some ds /\
     cacheMiss w (cacheKeyOf cfg dayOffset ds) /\
     after w =
       {| now := loopEnd net cfg dayOffset ds sites (now w);
          CACHE := <[cacheKeyOf cfg dayOffset ds :=
                       {| ts := loopEnd net cfg dayOffset ds sites (now w);
                          data := loopOut net cfg dayOffset ds sites [] (now w) |}]> (CACHE w);
          log := log w ++ scrapeSequence cfg dayOffset ds sites |}).
Proof.
  unfold after.
  destruct (scrapperUrls cfg) as [sites |] eqn:Hs.
  - destruct (isoDate (addDays (Some (now w)) dayOffset)) as [ds |] eqn:Hd.
    + destruct (CACHE w !! cacheKeyOf cfg dayOffset ds) as [e |] eqn:He.
      * destruct (Z_lt_le_dec (now w - ts e) CACHE_TTL) as [Hf | Hf].
        -- left. rewrite (run_scrape_hit net cfg dayOffset ds sites w e Hs Hd He Hf). reflexivity.
        -- right. exists sites, ds.
           assert (Hm : cacheMiss w (cacheKeyOf cfg dayOffset ds))
             by (unfold cacheMiss; rewrite He; exact Hf).
           rewrite (run_scrape_miss net cfg dayOffset ds sites w Hs Hd Hm), run_populate. auto.
      * right. exists sites, ds.
        assert (Hm : cacheMiss w (cacheKeyOf cfg dayOffset ds))
          by (unfold cacheMiss; rewrite He; exact I).
        rewrite (run_scrape_miss net cfg dayOffset ds sites w Hs Hd Hm), run_populate. auto.
    + left. rewrite (run_scrape_invalid_date net cfg dayOffset sites w Hs Hd). reflexivity.
  - left. unfold scrapeForecastForDay. rewrite Hs. reflexivity.
Qed.

(** A resolution never removes a cache entry, never changes an entry under
    a key other than its own, never sets the clock back and never erases
    the log: entries of past days stay in [CACHE] for as long as the
    process runs. *)
Theorem resolution_only_adds_to_cache (w : World) :
  (forall key, is_Some (CACHE w !! key) -> is_Some (CACHE (after w) !! key)) /\
  (forall key,
     (forall ds, isoDate (addDays (Some (now w)) dayOffset) = Some ds ->
                 key <> cacheKeyOf cfg dayOffset ds) ->
     CACHE (after w) !! key = CACHE w !! key) /\
  now w <= now (after w) /\
  (exists evs, log (after w) = log w ++ evs).
Proof.
  destruct (scrape_cases w) as [-> | (sites & ds & Hs & Hd & Hm & ->)].
  - split; [auto |]. split; [auto |]. split; [lia |]. exists []. rewrite app_nil_r. reflexivity.
  - cbn [CACHE now log]. split; [| split; [| split]].
    + intros key Hk. destruct (decide (key = cacheKeyOf cfg dayOffset ds)) as [-> | Hne].
      * rewrite lookup_insert_eq. eauto.
      * rewrite lookup_insert_ne by congruence. exact Hk.
    + intros key Hk. rewrite lookup_insert_ne; [reflexivity |].
      intros Heq. apply (Hk ds Hd). symmetry. exact Heq.
    + pose proof (loopEnd_ge net cfg dayOffset ds sites (now w)). lia.
    + eauto.
Qed.

End CacheFacts.

Section CacheRoundTrip.
Import Units Js Model Server ServerV2.
Local Open Scope Z_scope.

(** A world in which the handler finds, under [key], what the world [w1]
    holds there, at a time before that entry is [CACHE_TTL] old, on the
    same target date. *)
Definition FindsFresh (cfg : StationConfig) (d : option Z) (ds : string) (w1 w2 : World) : Prop :=
  CACHE w2 !! cacheKeyOf cfg d ds = CACHE w1 !! cacheKeyOf cfg d ds /\
  isoDate (addDays (Some (now w2)) d) = Some ds /\
  now w2 < now w1 + CACHE_TTL.

Lemma miss_outcome (net : Net) (cfg : StationConfig) (d : option Z) (ds : string)
    (sites : list ScrapeTarget) (w : World) :
  scrapperUrls cfg = Some sites ->
  isoDate (addDays (Some (now w)) d) = Some ds ->
  cacheMiss w (cacheKeyOf cfg d ds) ->
  exists out w1,
    run net (scrapeForecastForDay cfg d) w = (Returned out, w1) /\
    CACHE w1 !! cacheKeyOf cfg d ds = Some {| ts := now w1; data := out |} /\
    out = loopOut net cfg d ds sites [] (now w).
Proof.
  intros Hs Hd Hm. rewrite (run_scrape_miss net cfg d ds sites w Hs Hd Hm), run_populate.
  eexists _, _. split; [reflexivity |]. cbn [CACHE now]. rewrite lookup_insert_eq. auto.
Qed.

Lemma hit_after_miss
    (net net' : Net) (cfg : StationConfig) (d : option Z) (ds : string)
    (sites : list ScrapeTarget) (w w2 : World) :
  scrapperUrls cfg = Some sites ->
  isoDate (addDays (Some (now w)) d) = Some ds ->
  cacheMiss w (cacheKeyOf cfg d ds) ->
  FindsFresh cfg d ds (snd (run net (scrapeForecastForDay cfg d) w)) w2 ->
  run net' (scrapeForecastForDay cfg d) w2
  = (fst (run net (scrapeForecastForDay cfg d) w), w2).
Proof.
  intros Hs Hd Hm.
  destruct (miss_outcome net cfg d ds sites w Hs Hd Hm) as (out & w1 & Hrun & Hc & _).
  rewrite Hrun. cbn [fst snd]. intros (Hsame & Hd2 & Hfresh).
  rewrite Hc in Hsame.
  rewrite (run_scrape_hit net' cfg d ds sites w2 _ Hs Hd2 Hsame); [reflexivity |].
  cbn [ts]. lia.
Qed.

(** What a pass has stored is what the next requests get: after a miss,
    every request that finds the stored entry less than five minutes after
    the pass ended, for the same target date, returns the list the pass
    returned, sends nothing and changes nothing, whatever the network would
    answer by then. *)
Theorem stored_result_is_served
    (net net' : Net) (cfg : StationConfig) (d : option Z) (ds : string)
    (sites : list ScrapeTarget) (w w2 : World) :
  scrapperUrls cfg = Some sites ->
  isoDate (addDays (Some (now w)) d) = Some ds ->
  cacheMiss w (cacheKeyOf cfg d ds) ->
  FindsFresh cfg d ds (snd (run net (scrapeForecastForDay cfg d) w)) w2 ->
  run net' (scrapeForecastForDay cfg d) w2
  = (fst (run net (scrapeForecastForDay cfg d) w), w2).
Proof. exact (hit_after_miss net net' cfg d ds sites w w2). Qed.

Lemma stored_result_is_served_witness :
  run Examples.netDown (scrapeForecastForDay dallas (Some 0))
      {| now := Examples.t0 + 60000;
         CACHE := CACHE (snd (run Examples.netDown (scrapeForecastForDay dallas (Some 0)) Examples.w0));
         log := [] |}
  = (fst (run Examples.netDown (scrapeForecastForDay dallas (Some 0)) Examples.w0),
     {| now := Examples.t0 + 60000;
        CACHE := CACHE (snd (run Examples.netDown (scrapeForecastForDay dallas (Some 0)) Examples.w0));
        log := [] |}).
Proof.
  apply (stored_result_is_served Examples.netDown Examples.netDown dallas (Some 0) "2026-11-01"
           Examples.dallasSites Examples.w0).
  - reflexivity.
  - vm_compute. reflexivity.
  - vm_compute. exact I.
  - split; [reflexivity |]. split; [vm_compute; reflexivity | vm_compute; reflexivity].
Defined.

(** ** A pass on which every query fails *)

Lemma loopOut_all_fail (net : Net) (cfg : StationConfig) (d : option Z) (ds : string)
    (sites : list ScrapeTarget) (scraped : list Source) (t : Z) :
  (forall site t', settleBody (net (queryFor cfg d ds site) t') 10000 = None) ->
  loopOut net cfg d ds sites scraped t = scraped.
Proof.
  intros Hfail. revert scraped t. induction sites as [| site rest IH]; intros scraped t.
  - reflexivity.
  - cbn [loopOut]. rewrite Hfail, IH. cbn [siteSources]. apply app_nil_r.
Qed.

(** Failure is cached like success.  When every query of a pass fails
    (transport error, bad status, timeout), the pass returns the empty list
    and stores it; for the next five minutes requests for that key get the
    empty list without a single query being retried, even if the network
    has recovered. *)
Theorem failed_pass_is_served_for_ttl
    (net net' : Net) (cfg : StationConfig) (d : option Z) (ds : string)
    (sites : list ScrapeTarget) (w w2 : World) :
  scrapperUrls cfg = Some sites ->
  isoDate (addDays (Some (now w)) d) = Some ds ->
  cacheMiss w (cacheKeyOf cfg d ds) ->
  (forall site t', settleBody (net (queryFor cfg d ds site) t') 10000 = None) ->
  FindsFresh cfg d ds (snd (run net (scrapeForecastForDay cfg d) w)) w2 ->
  fst (run net (scrapeForecastForDay cfg d) w) = Returned [] /\
  run net' (scrapeForecastForDay cfg d) w2 = (Returned [], w2).
Proof.
  intros Hs Hd Hm Hfail Hfresh.
  assert (H1 : fst (run net (scrapeForecastForDay cfg d) w) = Returned []).
  { destruct (miss_outcome net cfg d ds sites w Hs Hd Hm) as (out & w1 & Hrun & _ & Hout).
    rewrite Hrun, Hout, (loopOut_all_fail net cfg d ds sites [] (now w) Hfail). reflexivity. }
  split; [exact H1 |].
  rewrite (hit_after_miss net net' cfg d ds sites w w2 Hs Hd Hm Hfresh), H1.
  reflexivity.
Qed.

(** A network that answers every query with a hit. *)
Definition netUp : Net := fun _ _ =>
  {| latency := 100;
     body := Some (PBrave (Some [ {| description := Some "high of 75"; title := None |} ])) |}.

Lemma failed_pass_is_served_for_ttl_witness :
  fst (run Examples.netDown (scrapeForecastForDay dallas (Some 0)) Examples.w0) = Returned [] /\
  run netUp (scrapeForecastForDay dallas (Some 0))
      {| now := Examples.t0 + 60000;
         CACHE := CACHE (snd (run Examples.netDown (scrapeForecastForDay dallas (Some 0)) Examples.w0));
         log := [] |}
  = (Returned [],
     {| now := Examples.t0 + 60000;
        CACHE := CACHE (snd (run Examples.netDown (scrapeForecastForDay dallas (Some 0)) Examples.w0));
        log := [] |}).
Proof.
  apply (failed_pass_is_served_for_ttl Examples.netDown netUp dallas (Some 0) "2026-11-01"
           Examples.dallasSites Examples.w0).
  - reflexivity.
  - vm_compute. reflexivity.
  - vm_compute. exact I.
  - intros site t'. reflexivity.
  - split; [reflexivity |]. split; [vm_compute; reflexivity | vm_compute; reflexivity].
Defined.

End CacheRoundTrip.

(* ================================================================== *)
(** * How long the aggregate route takes and what it sends *)
(* ================================================================== *)

Section RouteAnswers.
Import Units Js Model Server.
Local Open Scope Z_scope.

Context (net : Net).

Lemma lastSettle_nonneg (l : list (Z * (nat * option Payload))) : 0 <= lastSettle l.
Proof. unfold lastSettle. induction l as [| x l IH]; cbn; lia. Qed.



End RouteAnswers.

Section RouteAnswersExamples.
Import Units Js Model Server.
Local Open Scope Z_scope.


End RouteAnswersExamples.

Section RouteV2Answers.
Import Units Js Model Server ServerV2.
Local Open Scope Z_scope.

Context (net : Net).

Lemma routeV2_world (param : string) (q : option string) (cfg : StationConfig)
    (z : Z) (w : World) :
  STATIONS !! toLowerCase param = Some cfg ->
  dayOffsetOf q = Some z ->
  representable (now w) z ->
  exists report : Report,
    run net (route param q) w
    = (Returned (Json200 report), after net cfg (Some z) (afterFanout net cfg (Some z) w)).
Proof.
  intros Hk Hq Hr. unfold route. rewrite (getProp_own _ _ _ Hk), Hq.
  destruct (run_awaitAll net (tasksOf cfg (Some z)) w) as (srcs & dt & Hrun & _ & Hdt).
  rewrite run_bind, Hrun. subst dt. fold (afterFanout net cfg (Some z) w).
  destruct (run_scrape_returns net cfg (Some z) (afterFanout net cfg (Some z) w)) as [w2 Hs].
  { unfold afterFanout, tick. cbn [now].
    rewrite (addDays_representable _ _ _ Hr (fanout_duration net cfg (Some z) (now w))).
    destruct (isoDate_Some (now w
       + lastSettle (settlements net (now w)
                       ((fun k => (request k, timeoutMs k)) <$> tasksOf cfg (Some z)))
       + z * msPerDay)) as [ds Hds].
    rewrite Hds. discriminate. }
  unfold after. rewrite run_bind, Hs, run_bind, run_dateNow, run_ret. cbn [snd]. eauto.
Qed.

(** The revision with the cache sends the Open-Meteo request and then
    either nothing more, when the cache answers, or one delayed query per
    scrape target, in the order of the registry.  A request that has to
    scrape n targets is not answered before n delays of 1.5 seconds have
    passed. *)
Theorem routeV2_scrape_takes_its_delays (param : string) (q : option string)
    (cfg : StationConfig) (sites : list ScrapeTarget) (z : Z) (w : World) :
  STATIONS !! toLowerCase param = Some cfg ->
  scrapperUrls cfg = Some sites ->
  dayOffsetOf q = Some z ->
  representable (now w) z ->
  exists (report : Report) (w' : World) (evs : list Event),
    run net (route param q) w = (Returned (Json200 report), w') /\
    log w' = log w
             ++ EvFetch (ReqOpenMeteo (lat cfg) (lon cfg) (openMeteoModels cfg) (timezone cfg))
             :: evs /\
    now w <= now w' /\
    (evs = [] \/
     (exists ds, evs = scrapeSequence cfg (Some z) ds sites /\
                 now w + 1500 * Z.of_nat (length sites) <= now w')).
Proof.
  intros Hk Hs Hq Hr.
  destruct (routeV2_world param q cfg z w Hk Hq Hr) as [report Hrun].
  pose proof (lastSettle_nonneg (settlements net (now w)
                ((fun k => (request k, timeoutMs k)) <$> tasksOf cfg (Some z)))) as Hdt.
  set (w1 := afterFanout net cfg (Some z) w) in *.
  assert (Hn1 : now w1 = now w + lastSettle (settlements net (now w)
                   ((fun k => (request k, timeoutMs k)) <$> tasksOf cfg (Some z))))
    by reflexivity.
  assert (Hl1 : log w1 = log w ++ [EvFetch (ReqOpenMeteo (lat cfg) (lon cfg)
                                              (openMeteoModels cfg) (timezone cfg))])
    by reflexivity.
  destruct (scrape_cases net cfg (Some z) w1) as [Hsame | (sites' & ds & Hs' & Hd & Hm & Hafter)].
  - exists report, w1, []. rewrite Hrun, Hsame. split; [reflexivity |].
    split; [exact Hl1 |]. split; [lia | left; reflexivity].
  - assert (sites' = sites) by congruence. subst sites'.
    exists report, (after net cfg (Some z) w1), (scrapeSequence cfg (Some z) ds sites).
    split; [exact Hrun |]. rewrite Hafter. cbn [log now].
    pose proof (loopEnd_ge net cfg (Some z) ds sites (now w1)).
    split; [rewrite Hl1, <- app_assoc; reflexivity |].
    split; [lia |]. right. exists ds. split; [reflexivity | lia].
Qed.

End RouteV2Answers.

Section RouteV2AnswersExamples.
Import Units Js Model Server ServerV2.
Local Open Scope Z_scope.

Lemma routeV2_scrape_takes_its_delays_witness :
  exists (report : Report) (w' : World) (evs : list Event),
    run Examples.netDown (route "london" (Some "2")) Examples.w0 = (Returned (Json200 report), w') /\
    log w' = log Examples.w0
             ++ EvFetch (ReqOpenMeteo (lat london) (lon london) (openMeteoModels london)
                                      (timezone london))
             :: evs /\
    now Examples.w0 <= now w' /\
    (evs = [] \/
     (exists ds, evs = scrapeSequence london (Some 2) ds
                         (default [] (scrapperUrls london)) /\
                 now Examples.w0 + 1500 * Z.of_nat (length (default [] (scrapperUrls london)))
                 <= now w')).
Proof.
  apply (routeV2_scrape_takes_its_delays Examples.netDown "london" (Some "2") london
           (default [] (scrapperUrls london)) 2 Examples.w0).
  - vm_compute. reflexivity.
  - reflexivity.
  - vm_compute. reflexivity.
  - vm_compute. discriminate.
Defined.

End RouteV2AnswersExamples.

(* ================================================================== *)
(** * From an adapter of server.js to the card of app.js *)
(* ================================================================== *)

Section AdapterToCard.
Import Units Js Model Server.
Local Open Scope Z_scope.

(** ** NWS forecast *)

(** The source of the NWS forecast adapter holds at most three forecasts.
    The value app.js shows for day index [z] is the temperature of the
    daytime period number [z] of the feed, counted from 0 and skipping the
    night periods, in Fahrenheit as it came and in Celsius converted; there
    is no value for an index below 0 or above 2, nor beyond the daytime
    periods of the feed. *)
Theorem nws_forecast_day_is_nth_daytime_period (periods : list NwsPeriod) :
  exists s : Source,
    ServerV1.onNwsForecast (PNwsForecast (Some periods)) = [s] /\
    (forall fcs, forecasts s = Some fcs -> (length fcs <= 3)%nat) /\
    forall z : Z,
      let nth := if (0 <=? z) && (z <? 3)
                 then at_index (List.filter isDaytime periods) (Some z) else None in
      AppV1.getPrimaryTemp s F (Some z) = mjoin (temperature <$> nth) /\
      AppV1.getPrimaryTemp s C (Some z) = fToC (mjoin (temperature <$> nth)).
Proof.
  eexists. split; [reflexivity |]. split.
  - intros fcs [= <-]. rewrite length_fmap, length_take. lia.
  - intros z. unfold AppV1.getPrimaryTemp. cbn [type dailyMax days forecasts].
    unfold at_index.
    destruct (z <? 0) eqn:Ez.
    + apply Z.ltb_lt in Ez. replace (0 <=? z) with false by (symmetry; apply Z.leb_gt; lia).
      cbn. split; reflexivity.
    + apply Z.ltb_ge in Ez. replace (0 <=? z) with true by (symmetry; apply Z.leb_le; lia).
      rewrite list_lookup_fmap. cbn [andb].
      destruct (z <? 3) eqn:E3.
      * apply Z.ltb_lt in E3. rewrite lookup_take_lt by lia.
        destruct (List.filter isDaytime periods !! Z.to_nat z) as [p |]; cbn; split; reflexivity.
      * apply Z.ltb_ge in E3. rewrite lookup_take_ge by lia. cbn. split; reflexivity.
Qed.

(** ** Open-Meteo *)





End AdapterToCard.

Section AdapterToCardExamples.
Import Units Js Model Server.
Local Open Scope Z_scope.




End AdapterToCardExamples.

(* ================================================================== *)
(** * The configuration endpoint of server.js *)
(* ================================================================== *)

Module Config.
Import Units Js Model Server.
Local Open Scope string_scope.

(** An element of [cities] in the reply of [/api/config]. *)
Record CityInfo := {
  key : string;
  info_icao : string;
  info_name : string;
  info_displayName : string;
  info_unit : Unit }.

(** [Object.entries(STATIONS)]: the own properties in the order the object
    literal lists them. *)
Definition entries : list (string * StationConfig) :=
  [ ("london", ServerV1.london); ("paris", ServerV1.paris);
    ("dallas", ServerV1.dallas); ("miami", ServerV1.miami) ].

(** [app.get('/api/config', (req, res) => { ... })] *)
Definition cities : list CityInfo :=
  (fun '(k, s) => {| key := k; info_icao := icao s; info_name := name s;
                     info_displayName := displayName s; info_unit := unit s |}) <$> entries.

End Config.

Section ConfigFacts.
Import Units Js Model Server Config.
Local Open Scope Z_scope.

Lemma STATIONS_entries : ServerV1.STATIONS = list_to_map entries.
Proof. reflexivity. Qed.

Lemma entries_lookup (k : string) (cfg : StationConfig) :
  ServerV1.STATIONS !! k = Some cfg <-> (k, cfg) ∈ entries.
Proof.
  rewrite STATIONS_entries. split.
  - apply elem_of_list_to_map_2.
  - apply elem_of_list_to_map_1. apply (bool_decide_unpack _). vm_compute. reflexivity.
Qed.

Lemma cities_of_entry (k : string) (cfg : StationConfig) :
  (k, cfg) ∈ entries ->
  {| key := k; info_icao := icao cfg; info_name := name cfg;
     info_displayName := displayName cfg; info_unit := unit cfg |} ∈ cities.
Proof.
  intros Hin. unfold cities. apply list_elem_of_fmap. exists (k, cfg). split; [reflexivity | exact Hin].
Qed.

(** The aggregate route of server.js answers with a report exactly for the
    cities that [/api/config] lists, whatever the case of the letters in the
    request; the station, the names and the unit of the report are the
    listed ones. *)
Theorem config_lists_the_cities_served (net : Net) (param : string) (w : World) :
  ((exists (report : Report) (w' : World),
      run net (ServerV1.route param) w = (Returned (Json200 report), w'))
   <-> toLowerCase param ∈ key <$> cities) /\
  (forall (report : Report) (w' : World),
      run net (ServerV1.route param) w = (Returned (Json200 report), w') ->
      {| key := city report; info_icao := station report;
         info_name := default "" (report_name report);
         info_displayName := report_displayName report;
         info_unit := report_unit report |} ∈ cities /\
      report_name report <> None).
Proof.
  destruct (ServerV1.STATIONS !! toLowerCase param) as [cfg |] eqn:Hk.
  - assert (Hrun : exists (srcs : list Source) (w' : World),
               run net (ServerV1.route param) w
               = (Returned (Json200 {| city := toLowerCase param; station := icao cfg;
                                       report_name := Some (name cfg);
                                       report_displayName := displayName cfg;
                                       report_unit := unit cfg;
                                       sources := srcs; fetchedAt := now w' |}), w')).
    { unfold ServerV1.route. rewrite (getProp_own _ _ _ Hk).
      rewrite run_bind, run_dateNow.
      destruct (run_awaitAll net (ServerV1.tasksOf cfg (now w)) w) as (srcs & dt & Hrun & _).
      rewrite run_bind, Hrun, run_bind, run_dateNow, run_ret. eexists _, _. reflexivity. }
    destruct Hrun as (srcs & w1 & Hrun). apply entries_lookup in Hk. split.
    + split.
      * intros _. apply list_elem_of_fmap.
        eexists. split; [| apply (cities_of_entry _ _ Hk)]. reflexivity.
      * intros _. eauto.
    + intros report w' Hr. rewrite Hrun in Hr. injection Hr as <- <-. cbn. split.
      * apply (cities_of_entry _ _ Hk).
      * discriminate.
  - assert (Hno : forall report w', run net (ServerV1.route param) w <> (Returned (Json200 report), w')).
    { intros report w'. destruct (decide (toLowerCase param ∈ objectPrototypeKeys)) as [Hp | Hp].
      - rewrite (routeV1_inherited net param w Hk Hp). discriminate.
      - rewrite (routeV1_unknown net param w Hk Hp). discriminate. }
    split.
    + split.
      * intros (report & w' & Hr). exfalso. exact (Hno _ _ Hr).
      * intros Hin. exfalso. apply list_elem_of_fmap in Hin. destruct Hin as (info & Hkey & Hin).
        unfold cities in Hin. apply list_elem_of_fmap in Hin. destruct Hin as ([k cfg] & -> & Hin).
        cbn in Hkey. subst k. apply entries_lookup in Hin. congruence.
    + intros report w' Hr. exfalso. exact (Hno _ _ Hr).
Qed.

End ConfigFacts.

(* ================================================================== *)
(** * The refresh cycle of the front ends *)
(* ================================================================== *)

Module Refresh.
Local Open Scope Z_scope.

(** [const REFRESH_SECONDS = 60] *)
Definition REFRESH_SECONDS : Z := 60.

(** The global [countdown], the number that [updateCountdown] last wrote to
    the page, and how often the interval callback has called
    [fetchAllData]. *)
Record Timer := {
  countdown : Z;
  shown : Z;
  refreshes : Z }.


(** The callback of [setInterval(..., 1000)]:
    [countdown--; updateCountdown();
     if (countdown <= 0) { fetchAllData(...); countdown = REFRESH_SECONDS; }];
    the call of [fetchAllData] is not awaited. *)
Definition tick (t : Timer) : Timer :=
  let c := countdown t - 1 in
  if c <=? 0
  then {| countdown := REFRESH_SECONDS; shown := c; refreshes := refreshes t + 1 |}
  else {| countdown := c; shown := c; refreshes := refreshes t |}.


End Refresh.

Section RefreshFacts.
Import Refresh.
Local Open Scope Z_scope.



End RefreshFacts.

(* ================================================================== *)
(** * The per-day store of the on-demand front end *)
(* ================================================================== *)

Module Dashboard.
Import Js Model Server.
Local Open Scope string_scope.

(** [const CITIES = ['london', 'paris', 'dallas', 'miami']] *)
Definition CITIES : list string := [ "london"; "paris"; "dallas"; "miami" ].

(** [let cityData = {}] is read as [{ city: { day: data } }].  A day is what
    [parseInt] gave, an integer or NaN ([None]); as a property key it is
    its decimal rendering, which keeps distinct days apart.  The data is
    whatever JSON the route answered, a report or an error object. *)

(** [cityData[city] ? cityData[city][day] : null] *)
Definition dataOf (cityData : gmap string (gmap (option Z) HttpResponse)) (city : string) (day : option Z) : option HttpResponse :=
  match cityData !! city with
  | Some perDay => perDay !! day
  | None => None
  end.

(** [if (!cityData[city]) cityData[city] = {}; cityData[city][day] = data;] *)
Definition put (city : string) (day : option Z) (data : HttpResponse) (cityData : gmap string (gmap (option Z) HttpResponse)) : gmap string (gmap (option Z) HttpResponse) :=
  <[city := <[day := data]> (default ∅ (cityData !! city))]> cityData.

(** The body of [fetchAllData(day)] up to [renderAll]: [arrived] lists the
    cities in the order in which their requests settle, and [reply] is the
    parsed body of a request, or [None] when [fetch] or [res.json()]
    rejects and the [catch] only reports it. *)
Definition fetchAllData (arrived : list string) (reply : string -> option HttpResponse)
    (day : option Z) (cityData : gmap string (gmap (option Z) HttpResponse)) : gmap string (gmap (option Z) HttpResponse) :=
  foldl (fun st city =>
           match reply city with
           | Some data => put city day data st
           | None => st
           end) cityData arrived.

(** [CITIES.some(city => !cityData[city] || !cityData[city][selectedDay])] *)
Definition needsFetch (cityData : gmap string (gmap (option Z) HttpResponse)) (selectedDay : option Z) : bool :=
  existsb (fun city =>
             match dataOf cityData city selectedDay with
             | Some _ => false
             | None => true
             end) CITIES.

End Dashboard.

Section DashboardFacts.
Import Js Model Server Dashboard.

Lemma dataOf_put (city c : string) (day d : option Z) (data : HttpResponse) (st : gmap string (gmap (option Z) HttpResponse)) :
  dataOf (put city day data st) c d
  = if decide (c = city /\ d = day) then Some data else dataOf st c d.
Proof.
  unfold dataOf, put. destruct (decide (c = city)) as [-> | Hc].
  - rewrite lookup_insert_eq. destruct (decide (d = day)) as [-> | Hd].
    + rewrite lookup_insert_eq. rewrite decide_True by auto. reflexivity.
    + rewrite lookup_insert_ne by congruence. rewrite decide_False by tauto.
      destruct (st !! city); [reflexivity | apply lookup_empty].
  - rewrite lookup_insert_ne by congruence. rewrite decide_False by tauto. reflexivity.
Qed.

Lemma dataOf_fetched (arrived : list string) (reply : string -> option HttpResponse)
    (day : option Z) (st : gmap string (gmap (option Z) HttpResponse)) (c : string) (d : option Z) :
  dataOf (fetchAllData arrived reply day st) c d
  = if decide (c ∈ arrived /\ d = day)
    then match reply c with Some data => Some data | None => dataOf st c d end
    else dataOf st c d.
Proof.
  unfold fetchAllData. revert st. induction arrived as [| a l IH]; intros st.
  - cbn. rewrite decide_False; [reflexivity |]. intros [H _]. inversion H.
  - cbn [foldl]. rewrite IH. clear IH.
    assert (Hst : dataOf match reply a with Some data => put a day data st | None => st end c d
                  = if decide (c = a /\ d = day)
                    then match reply a with Some data => Some data | None => dataOf st c d end
                    else dataOf st c d).
    { destruct (reply a); [apply dataOf_put | destruct (decide _); reflexivity]. }
    rewrite Hst. clear Hst.
    repeat destruct (decide _);
      repeat match goal with H : _ /\ _ |- _ => destruct H end; subst;
      try (destruct (reply _); reflexivity); try reflexivity;
      exfalso; set_solver.
Qed.

Lemma dataOf_arrived (arrived : list string) (reply : string -> option HttpResponse)
    (day : option Z) (st : gmap string (gmap (option Z) HttpResponse)) :
  Permutation arrived CITIES ->
  forall (c : string) (d : option Z),
    dataOf (fetchAllData arrived reply day st) c d
    = if decide (c ∈ CITIES /\ d = day)
      then match reply c with Some data => Some data | None => dataOf st c d end
      else dataOf st c d.
Proof.
  intros Hperm c d. rewrite dataOf_fetched.
  destruct (decide (c ∈ arrived /\ d = day)) as [[Hin Hd] | Hn].
  - rewrite decide_True; [reflexivity |]. split; [| exact Hd]. rewrite <- Hperm. exact Hin.
  - rewrite decide_False; [reflexivity |]. intros [Hin Hd]. apply Hn. split; [| exact Hd].
    rewrite Hperm. exact Hin.
Qed.

(** A pass of [fetchAllData(day)] over the four cities, in whatever order
    their replies arrive, leaves in the store the reply of every city that
    answered, under that day; it keeps what was stored for a city whose
    request failed, and changes nothing under any other day or city. *)
Theorem fetch_updates_only_the_answered_cities_of_that_day
    (arrived : list string) (reply : string -> option HttpResponse)
    (day : option Z) (st : gmap string (gmap (option Z) HttpResponse)) :
  Permutation arrived CITIES ->
  fetchAllData arrived reply day st = fetchAllData CITIES reply day st /\
  forall (c : string) (d : option Z),
    dataOf (fetchAllData arrived reply day st) c d
    = if decide (c ∈ CITIES /\ d = day)
      then match reply c with Some data => Some data | None => dataOf st c d end
      else dataOf st c d.
Proof.
  intros Hperm.
  pose proof (dataOf_arrived arrived reply day st Hperm) as Hdata.
  split; [| exact Hdata].
  apply map_eq. intros c.
  pose proof (fun d => eq_trans (Hdata c d) (eq_sym (dataOf_fetched CITIES reply day st c d))) as H.
  unfold dataOf in H.
  assert (Hdom : forall l s, is_Some (fetchAllData l reply day s !! c)
                             <-> is_Some (s !! c) \/ (c ∈ l /\ is_Some (reply c))).
  { clear. induction l as [| a l IH]; intros s.
    - cbn. split; [auto |]. intros [H | [H _]]; [exact H | inversion H].
    - unfold fetchAllData in *. cbn [foldl]. rewrite IH. destruct (reply a) as [data |] eqn:Er.
      + unfold put. destruct (decide (c = a)) as [-> | Hca].
        * rewrite lookup_insert_eq. split; [| eauto]. intros _. right. split; [left | eauto].
        * rewrite lookup_insert_ne by congruence. split.
          -- intros [H | [H1 H2]]; [auto | right; split; [right; exact H1 | exact H2]].
          -- intros [H | [H1 H2]]; [auto |]. apply elem_of_cons in H1.
             destruct H1 as [-> | H1]; [tauto | auto].
      + split.
        * intros [H | [H1 H2]]; [auto | right; split; [right; exact H1 | exact H2]].
        * intros [H | [H1 H2]]; [auto |]. apply elem_of_cons in H1.
          destruct H1 as [-> | H1]; [rewrite Er in H2; destruct H2; discriminate | auto]. }
  destruct (fetchAllData arrived reply day st !! c) as [m1 |] eqn:E1;
    destruct (fetchAllData CITIES reply day st !! c) as [m2 |] eqn:E2.
  - f_equal. apply map_eq. exact H.
  - exfalso. assert (Hs : is_Some (fetchAllData arrived reply day st !! c)) by (rewrite E1; eauto).
    apply Hdom in Hs. assert (Hs' : is_Some (fetchAllData CITIES reply day st !! c)).
    { apply Hdom. destruct Hs as [Hs | [Hs1 Hs2]]; [auto |]. right. split; [| exact Hs2].
      rewrite <- Hperm. exact Hs1. }
    rewrite E2 in Hs'. destruct Hs'; discriminate.
  - exfalso. assert (Hs : is_Some (fetchAllData CITIES reply day st !! c)) by (rewrite E2; eauto).
    apply Hdom in Hs. assert (Hs' : is_Some (fetchAllData arrived reply day st !! c)).
    { apply Hdom. destruct Hs as [Hs | [Hs1 Hs2]]; [auto |]. right. split; [| exact Hs2].
      rewrite Hperm. exact Hs1. }
    rewrite E1 in Hs'. destruct Hs'; discriminate.
  - reflexivity.
Qed.

Lemma needsFetch_true (st : gmap string (gmap (option Z) HttpResponse)) (d : option Z) :
  needsFetch st d = true <-> exists c, c ∈ CITIES /\ dataOf st c d = None.
Proof.
  unfold needsFetch. rewrite existsb_exists. split.
  - intros (c & Hin & Hc). exists c. split; [apply list_elem_of_In; exact Hin |].
    destruct (dataOf st c d); [discriminate | reflexivity].
  - intros (c & Hin & Hc). exists c. split; [apply list_elem_of_In; exact Hin |].
    rewrite Hc. reflexivity.
Qed.

(** Selecting a day sends requests only while some city has never answered
    for that day: after a pass of [fetchAllData(day)], a day needs a fetch
    exactly when some city had no data for it before and, if it is the day
    of the pass, the request of that city failed.  So a day for which every
    city answered once is shown from the store from then on. *)
Theorem day_is_fetched_until_every_city_answered
    (arrived : list string) (reply : string -> option HttpResponse)
    (day selected : option Z) (st : gmap string (gmap (option Z) HttpResponse)) :
  Permutation arrived CITIES ->
  (needsFetch (fetchAllData arrived reply day st) selected = true
   <-> exists c, c ∈ CITIES /\ dataOf st c selected = None /\
                 (selected = day -> reply c = None)) /\
  ((forall c, c ∈ CITIES -> reply c <> None) ->
   needsFetch (fetchAllData arrived reply day st) day = false).
Proof.
  intros Hperm.
  pose proof (dataOf_arrived arrived reply day st Hperm) as Hdata.
  assert (Hiff : needsFetch (fetchAllData arrived reply day st) selected = true
                 <-> exists c, c ∈ CITIES /\ dataOf st c selected = None /\
                               (selected = day -> reply c = None)).
  { rewrite needsFetch_true. split.
    - intros (c & Hin & Hc). exists c. split; [exact Hin |]. rewrite Hdata in Hc.
      destruct (decide (c ∈ CITIES /\ selected = day)) as [[_ Hd] | Hn].
      + destruct (reply c); [discriminate |]. auto.
      + split; [exact Hc |]. intros Hd. tauto.
    - intros (c & Hin & Hc & Hr). exists c. split; [exact Hin |]. rewrite Hdata.
      destruct (decide (c ∈ CITIES /\ selected = day)) as [[_ Hd] | Hn]; [| exact Hc].
      rewrite (Hr Hd). exact Hc. }
  split; [exact Hiff |].
  intros Hall. apply not_true_is_false. intros Hneed.
  apply needsFetch_true in Hneed. destruct Hneed as (c & Hin & Hc).
  rewrite Hdata, decide_True in Hc by auto.
  specialize (Hall c Hin). destruct (reply c); [discriminate | congruence].
Qed.

End DashboardFacts.

Section DashboardExamples.
Import Js Model Server Dashboard.

(** Paris does not answer; the others answer in the reverse order. *)
Definition arrivedReversed : list string := [ "miami"; "dallas"; "paris"; "london" ].

Definition parisDown (city : string) : option HttpResponse :=
  if decide (city = "paris") then None else Some (Status400 "Unknown city").

Lemma fetch_updates_only_the_answered_cities_of_that_day_witness :
  fetchAllData arrivedReversed parisDown (Some 1%Z) ∅ = fetchAllData CITIES parisDown (Some 1%Z) ∅ /\
  forall (c : string) (d : option Z),
    dataOf (fetchAllData arrivedReversed parisDown (Some 1%Z) ∅) c d
    = if decide (c ∈ CITIES /\ d = Some 1%Z)
      then match parisDown c with Some data => Some data | None => dataOf ∅ c d end
      else dataOf ∅ c d.
Proof.
  apply (fetch_updates_only_the_answered_cities_of_that_day
           arrivedReversed parisDown (Some 1%Z) ∅).
  apply (bool_decide_unpack _). vm_compute. reflexivity.
Defined.

Definition allAnswer (city : string) : option HttpResponse :=
  Some (Status400 "Unknown city").

Lemma day_is_fetched_until_every_city_answered_witness :
  (needsFetch (fetchAllData arrivedReversed allAnswer (Some 1%Z) ∅) (Some 1%Z) = true
   <-> exists c, c ∈ CITIES /\ dataOf ∅ c (Some 1%Z) = None /\
                 (Some 1%Z = Some 1%Z -> allAnswer c = None)) /\
  ((forall c, c ∈ CITIES -> allAnswer c <> None) ->
   needsFetch (fetchAllData arrivedReversed allAnswer (Some 1%Z) ∅) (Some 1%Z) = false).
Proof.
  apply (day_is_fetched_until_every_city_answered
           arrivedReversed allAnswer (Some 1%Z) (Some 1%Z) ∅).
  apply (bool_decide_unpack _). vm_compute. reflexivity.
Defined.

End DashboardExamples.

(* ================================================================== *)
(** * The converter keeps the order of temperatures *)
(* ================================================================== *)

Section ConverterOrder.
Import Units.
Local Open Scope Q_scope.

Lemma MathRound_mono (x y : Q) : x <= y -> (MathRound x <= MathRound y)%Z.
Proof. intros H. unfold MathRound. apply Qfloor_resp_le. lra. Qed.

Lemma tenth_mono (m n : Z) : (m <= n)%Z -> inject_Z m / 10 <= inject_Z n / 10.
Proof.
  intros H. unfold Qdiv. apply Qmult_le_compat_r.
  - rewrite <- Zle_Qle. exact H.
  - unfold Qle. cbn. lia.
Qed.

(** Both conversions keep the order of two readings, so the warmest source
    in one unit is a warmest source in the other; equal readings convert to
    equal values, and a missing reading converts to a missing one. *)
Theorem conversion_keeps_order (a b : Q) :
  a <= b ->
  (exists x y, cToF (Some a) = Some x /\ cToF (Some b) = Some y /\ x <= y) /\
  (exists x y, fToC (Some a) = Some x /\ fToC (Some b) = Some y /\ x <= y) /\
  cToF None = None /\ fToC None = None.
Proof.
  intros H. repeat split.
  - eexists _, _. split; [reflexivity |]. split; [reflexivity |].
    apply tenth_mono, MathRound_mono. lra_fifths_ninths.
  - eexists _, _. split; [reflexivity |]. split; [reflexivity |].
    apply tenth_mono, MathRound_mono. lra_fifths_ninths.
Qed.

Lemma conversion_keeps_order_witness :
  (exists x y, cToF (Some (141 # 10)) = Some x /\ cToF (Some (142 # 10)) = Some y /\ x <= y) /\
  (exists x y, fToC (Some (141 # 10)) = Some x /\ fToC (Some (142 # 10)) = Some y /\ x <= y) /\
  cToF None = None /\ fToC None = None.
Proof.
  apply (conversion_keeps_order (141 # 10) (142 # 10)). vm_compute. discriminate.
Defined.

End ConverterOrder.

(* ================================================================== *)
(** * Keys of the scrape cache *)
(* ================================================================== *)

Section CacheKeys.
Import Js Model ServerV2.
Local Open Scope string_scope.
Local Open Scope Z_scope.

(** A string without the separator of the key. *)
Definition plain (s : string) : bool := allChars (fun c => negb (Ascii.eqb c "_")) s.

Lemma plain_append (a b : string) : plain (a +:+ b) = plain a && plain b.
Proof.
  unfold plain. induction a as [| x a IH]; [reflexivity |].
  rewrite append_cons. cbn [allChars]. rewrite IH. apply andb_assoc.
Qed.

Lemma split_at_last_separator (l1 l2 r1 r2 : string) :
  plain r1 = true -> plain r2 = true ->
  l1 +:+ String "_" r1 = l2 +:+ String "_" r2 ->
  l1 = l2 /\ r1 = r2.
Proof.
  intros H1 H2. revert l2. induction l1 as [| x l1 IH]; intros [| y l2] Heq.
  - injection Heq as ->. auto.
  - exfalso. rewrite append_cons in Heq. change ("" +:+ String "_" r1) with (String "_" r1) in Heq.
    injection Heq as _ ->. rewrite plain_append in H1. cbn in H1.
    rewrite andb_false_r in H1. discriminate.
  - exfalso. rewrite append_cons in Heq. change ("" +:+ String "_" r2) with (String "_" r2) in Heq.
    injection Heq as _ <-. rewrite plain_append in H2. cbn in H2.
    rewrite andb_false_r in H2. discriminate.
  - rewrite !append_cons in Heq. injection Heq as -> Heq.
    destruct (IH l2 Heq) as [-> ->]. auto.
Qed.

Lemma digit_char_plain (k : Z) :
  0 <= k < 10 -> negb (Ascii.eqb (ascii_of_nat (Z.to_nat (48 + k))) "_") = true.
Proof.
  intros H.
  assert (Hk : k = 0 \/ k = 1 \/ k = 2 \/ k = 3 \/ k = 4 \/ k = 5 \/ k = 6 \/ k = 7 \/ k = 8 \/ k = 9)
    by lia.
  repeat (destruct Hk as [-> | Hk]; [reflexivity |]). subst k. reflexivity.
Qed.

Lemma digitsOf_plain (fuel : nat) (n : Z) (acc : string) :
  plain acc = true -> plain (digitsOf fuel n acc) = true.
Proof.
  revert n acc. induction fuel as [| fuel IH]; intros n acc Hacc; [exact Hacc |].
  cbn [digitsOf].
  assert (Hacc' : plain (String (ascii_of_nat (Z.to_nat (48 + n mod 10))) acc) = true).
  { unfold plain in *. cbn [allChars]. rewrite Hacc, digit_char_plain; [reflexivity |].
    apply Z.mod_pos_bound. lia. }
  destruct (n / 10 =? 0); [exact Hacc' | apply IH; exact Hacc'].
Qed.

Lemma showZ_plain (n : Z) : plain (showZ n) = true.
Proof.
  unfold showZ. destruct (n <? 0).
  - rewrite plain_append, digitsOf_plain by reflexivity. reflexivity.
  - apply digitsOf_plain. reflexivity.
Qed.

Lemma padLeft_plain (width : nat) (s : string) : plain s = true -> plain (padLeft width s) = true.
Proof.
  intros Hs. induction width as [| w IH]; cbn [padLeft].
  - destruct (0 - String.length s)%nat; exact Hs.
  - destruct (S w - String.length s)%nat; [exact Hs |].
    rewrite plain_append, IH. reflexivity.
Qed.

Lemma showYear_plain (y : Z) : plain (showYear y) = true.
Proof.
  unfold showYear. destruct ((0 <=? y) && (y <=? 9999)).
  - apply padLeft_plain, showZ_plain.
  - rewrite plain_append, padLeft_plain by apply showZ_plain. destruct (y <? 0); reflexivity.
Qed.

Lemma isoDate_plain (d : Date) (ds : string) : isoDate d = Some ds -> plain ds = true.
Proof.
  destruct d as [t |]; [| discriminate]. unfold isoDate.
  destruct (civil (t / msPerDay)) as [[y m] dd]. intros H. apply (inj Some) in H. rewrite <- H.
  rewrite !plain_append, showYear_plain, !padLeft_plain by apply showZ_plain. reflexivity.
Qed.

Lemma showOffset_plain (d : option Z) : plain (showOffset d) = true.
Proof. destruct d as [z |]; [apply showZ_plain | reflexivity]. Qed.

(** Two resolutions use the same cache entry only when they are for the
    same display name, the same day offset as it is printed, and the same
    target date: the key keeps its three parts apart, also for a display
    name that contains the separator. *)
Theorem cache_keys_do_not_collide
    (cfg cfg' : StationConfig) (d d' : option Z) (t t' : Date) (ds ds' : string) :
  isoDate t = Some ds -> isoDate t' = Some ds' ->
  cacheKeyOf cfg d ds = cacheKeyOf cfg' d' ds' ->
  displayName cfg = displayName cfg' /\ showOffset d = showOffset d' /\ ds = ds'.
Proof.
  intros Hds Hds' Heq. unfold cacheKeyOf in Heq.
  apply isoDate_plain in Hds, Hds'.
  change ("_" +:+ ?x) with (String "_" x) in Heq.
  assert (Heq' : (displayName cfg +:+ String "_" (showOffset d)) +:+ String "_" ds
                 = (displayName cfg' +:+ String "_" (showOffset d')) +:+ String "_" ds').
  { rewrite <- !append_assoc3, !append_cons.
    change ("_" +:+ ds) with (String "_" ds) in Heq.
    change ("_" +:+ ds') with (String "_" ds') in Heq.
    change ("_" +:+ showOffset d +:+ String "_" ds)
      with (String "_" (showOffset d +:+ String "_" ds)) in Heq.
    change ("_" +:+ showOffset d' +:+ String "_" ds')
      with (String "_" (showOffset d' +:+ String "_" ds')) in Heq.
    exact Heq. }
  destruct (split_at_last_separator _ _ _ _ Hds Hds' Heq') as [Heq2 ->].
  destruct (split_at_last_separator _ _ _ _ (showOffset_plain d) (showOffset_plain d') Heq2)
    as [-> ->].
  auto.
Qed.

End CacheKeys.

Section CacheKeysExamples.
Import Js Model ServerV2.
Local Open Scope string_scope.
Local Open Scope Z_scope.

Lemma cache_keys_do_not_collide_witness :
  displayName dallas = displayName dallas /\ showOffset (Some 1) = showOffset (Some 1) /\
  "2026-11-02" = "2026-11-02".
Proof.
  apply (cache_keys_do_not_collide dallas dallas (Some 1) (Some 1)
           (Some (Examples.t0 + 86400000)) (addDays (Some Examples.t0) (Some 1))
           "2026-11-02" "2026-11-02").
  - vm_compute. reflexivity.
  - vm_compute. reflexivity.
  - reflexivity.
Defined.

End CacheKeysExamples.
